(** * Voter-Turnout-Scorer: a shallow embedding of [turnout_config.py] and
    [turnout_scorer.py], with the properties of the scoring pipeline.

    Conventions of the embedding.
    - A Python exception is a value of [exn]; a computation that may raise
      returns [result A].
    - Python [dict]s are association lists in iteration order.
    - The [datetime] module ([strptime], [strftime], [date.today]) and the
      [repr] of non-string objects are library code: they are the members of
      the interface [PyRuntime].  [Model.runtime] is a small executable
      instance used to run the definitions on concrete inputs.
    - A Spark [DataFrame] is a schema (the list of column names) with a list
      of rows; a row maps column names to cells.  Double-precision columns
      are modelled by exact rationals. *)

From Stdlib Require Import ZArith QArith Qminmax String Ascii List Lia Lqa.
From Stdlib Require Import Permutation Sorted DecimalString.
From stdpp Require Import base option list gmap strings.

Local Open Scope Z_scope.
Local Open Scope string_scope.

(* ===================================================================== *)
(** * Python values, exceptions *)
(* ===================================================================== *)

Inductive exn : Type :=
| KeyError (msg : string)
| TypeError (msg : string)
| ValueError (msg : string)
| RuntimeError (msg : string)
| UnboundLocalError (var : string)
| IndexError (msg : string)
| AnalysisException (msg : string).

Inductive result (A : Type) : Type :=
| Ok (a : A)
| Raise (e : exn).
Arguments Ok {A} a.
Arguments Raise {A} e.

Definition rbind {A B} (m : result A) (f : A -> result B) : result B :=
  match m with
  | Ok a => f a
  | Raise e => Raise e
  end.

Notation "'let*' x ':=' m 'in' k" := (rbind m (fun x => k))
  (at level 10, x name, m at level 100, k at level 200).
Notation "'let*' ' p ':=' m 'in' k" := (rbind m (fun x => let 'p := x in k))
  (at level 10, p pattern, m at level 100, k at level 200).
Notation "m '>>' k" := (rbind m (fun _ => k))
  (at level 190, right associativity).

Definition is_Ok {A} (r : result A) : Prop := exists a, r = Ok a.
Definition raises {A} (r : result A) : Prop := exists e, r = Raise e.

(** The shape of configuration values (what a JSON or YAML file yields). *)
#[local] Unset Elimination Schemes.
Inductive pyval : Type :=
| PNone
| PStr (s : string)
| PList (l : list pyval)
| PDict (d : list (string * pyval)).
#[local] Set Elimination Schemes.

Definition pydict := list (string * pyval).

(** [d.get(k)]: the first binding of [k]. *)
Fixpoint dict_get {A} (d : list (string * A)) (k : string) : option A :=
  match d with
  | [] => None
  | (k', v) :: d' => if String.eqb k' k then Some v else dict_get d' k
  end.

(** [d[k]] *)
Definition dict_item {A} (d : list (string * A)) (k : string) : result A :=
  match dict_get d k with
  | Some v => Ok v
  | None => Raise (KeyError k)
  end.

Definition dict_keys {A} (d : list (string * A)) : list string := map fst d.

(** [sep.join(l)] on a list of strings. *)
Fixpoint join (sep : string) (l : list string) : string :=
  match l with
  | [] => ""
  | [x] => x
  | x :: l' => x +:+ sep +:+ join sep l'
  end.

Definition nl : string := String (ascii_of_nat 10) "".
Definition spaces (n : nat) : string := string_of_list_ascii (repeat " "%char n).

(** A cell read from the voter file: [None] or a string. *)
Definition is_null_marker (c : option string) : bool :=
  match c with
  | None => true
  | Some s => String.eqb s "null"
  end.

(** [x in values] for [x] a cell and [values] a configured list. *)
Definition py_eq_cell (c : option string) (v : pyval) : bool :=
  match c, v with
  | None, PNone => true
  | Some s, PStr s' => String.eqb s s'
  | _, _ => false
  end.

Definition py_in (c : option string) (values : list pyval) : bool :=
  existsb (py_eq_cell c) values.

(* ===================================================================== *)
(** * The datetime module *)
(* ===================================================================== *)

Record datetime : Type := mkdatetime {
  year : Z; month : Z; day : Z;
  hour : Z; minute : Z; second : Z; microsecond : Z
}.

Definition dt_fields (d : datetime) : list Z :=
  [year d; month d; day d; hour d; minute d; second d; microsecond d].

Fixpoint lex_compare (a b : list Z) : comparison :=
  match a, b with
  | [], [] => Eq
  | [], _ :: _ => Lt
  | _ :: _, [] => Gt
  | x :: a', y :: b' =>
      match Z.compare x y with
      | Eq => lex_compare a' b'
      | c => c
      end
  end.

Definition dt_compare (a b : datetime) : comparison :=
  lex_compare (dt_fields a) (dt_fields b).

(** [a < b] and [a <= b] on datetimes *)
Definition dt_ltb (a b : datetime) : bool :=
  match dt_compare a b with Lt => true | _ => false end.
Definition dt_leb (a b : datetime) : bool :=
  match dt_compare a b with Gt => false | _ => true end.

Definition dt_min (a b : datetime) : datetime := if dt_leb a b then a else b.

(** [a] is on or before [b] *)
Definition dt_le (a b : datetime) : Prop := dt_leb a b = true.


Definition digit_char (n : Z) : ascii := ascii_of_nat (48 + Z.to_nat (n mod 10)).

Definition pad2 (n : Z) : string :=
  String (digit_char (n / 10)) (String (digit_char n) "").
Definition pad4 (n : Z) : string :=
  String (digit_char (n / 1000)) (String (digit_char (n / 100)) (pad2 n)).

(** [str(d)] for a [datetime.date]: ISO format, [YYYY-MM-DD]. *)
Definition date_isoformat (d : datetime) : string :=
  pad4 (year d) +:+ "-" +:+ pad2 (month d) +:+ "-" +:+ pad2 (day d).

(** [str(n)] for an integer. *)
Definition str_of_Z (n : Z) : string :=
  DecimalString.NilZero.string_of_int (Z.to_int n).

(** The library the program runs on.  [strptime s fmt = None] stands for
    the [ValueError] that [datetime.datetime.strptime] raises; [today] is the
    value of [datetime.date.today()] (a date is a datetime at midnight). *)
Class PyRuntime : Type := {
  strptime : string -> string -> option datetime;
  strftime : datetime -> string -> result string;
  today : datetime;
  py_repr : pyval -> string
}.

(** [str(v)] *)
Definition py_str `{PyRuntime} (v : pyval) : string :=
  match v with
  | PStr s => s
  | _ => py_repr v
  end.

(** [str(c)] for a cell *)
Definition str_cell (c : option string) : string :=
  match c with
  | Some s => s
  | None => "None"
  end.

(* ===================================================================== *)
(** * turnout_config.py *)
(* ===================================================================== *)

Module turnout_config.

(** Python 2 iterates a dict in hash order; the order written in the source
    is taken here. *)
Definition REQUIRED_FIELDS_IN_CONFIG : list (string * list string) :=
  [("voter_file", ["bucket"; "key_pattern"]);
   ("column_names", ["dob_field"; "id_field"; "party_field"; "reg_date_field"]);
   ("formats", ["reg_date"; "dob"])].
Definition VOTED_VALUES := "voted_values".
Definition VOTE_HISTORIES := "vote_histories".
Definition ELEMENTS_REQ_IN_VALUES_VF := [VOTED_VALUES; "parties_included"].
Definition VHIST_DATE_FORMAT := "%m-%d-%Y".
Definition SET_REQ_FIELDS : gset string :=
  list_to_set (dict_keys REQUIRED_FIELDS_IN_CONFIG ++ [VOTE_HISTORIES; VOTED_VALUES]).

Definition not_dict_msg (field : string) : string :=
  field +:+ " in the config is supposed to be a" +:+ nl +:+ spaces 25 +:+ "dictionary".

Definition sub_field_msg (req_field : string) : string :=
  " required sub field(s) of " +:+ req_field +:+ " but not available" +:+ nl
  +:+ spaces 21 +:+ "in your config".

Definition date_format_msg (elec : string) : string :=
  "date format for " +:+ elec +:+ " in voter_history is not in required" +:+ nl
  +:+ spaces 29 +:+ "format: " +:+ VHIST_DATE_FORMAT +:+ ".".

Definition not_list_msg (elms_req : string) : string :=
  elms_req +:+ " in the config is supposed to be a" +:+ nl +:+ spaces 33 +:+ "list".

Section validation.
Context `{PyRuntime}.

(** check that all the required fields are in config *)
Definition check_required_fields (config : pydict) : result unit :=
  let config_keys : gset string := list_to_set (dict_keys config) in
  if decide (SET_REQ_FIELDS ∩ config_keys ≠ SET_REQ_FIELDS) then
    Raise (KeyError (join ", " (elements (SET_REQ_FIELDS ∖ config_keys))
                     +:+ " required field(s) but not available in your config "))
  else Ok tt.

(** check that all the REQUIRED_FIELDS_IN_CONFIG are dict, with exactly
    the required sub fields *)
Fixpoint check_sub_dicts (reqs : list (string * list string)) (config : pydict)
  : result unit :=
  match reqs with
  | [] => Ok tt
  | (req_field, vlues) :: rest =>
      let* v := dict_item config req_field in
      match v with
      | PDict sub =>
          let set_cfg_sub : gset string := list_to_set (dict_keys sub) in
          let set_vlues : gset string := list_to_set vlues in
          if decide (set_cfg_sub ≠ set_vlues) then
            Raise (KeyError (join ", " (elements (set_vlues ∖ set_cfg_sub))
                             +:+ sub_field_msg req_field))
          else check_sub_dicts rest config
      | _ => Raise (TypeError (not_dict_msg req_field))
      end
  end.

(** the loop over [vote_histories.iteritems()] *)
Fixpoint check_election_dates (vhist : pydict) : result unit :=
  match vhist with
  | [] => Ok tt
  | (elec, elecdate) :: rest =>
      match strptime (py_str elecdate) VHIST_DATE_FORMAT with
      | Some _ => check_election_dates rest
      | None => Raise (ValueError (date_format_msg elec))
      end
  end.

Definition check_vote_histories (config : pydict) : result unit :=
  let* v := dict_item config VOTE_HISTORIES in
  match v with
  | PDict vhist => check_election_dates vhist
  | _ => Raise (TypeError (not_dict_msg VOTE_HISTORIES))
  end.

(** check that ELEMENTS_REQ_IN_VALUES_VF are list if available *)
Fixpoint check_lists (elms : list string) (config : pydict) : result unit :=
  match elms with
  | [] => Ok tt
  | elms_req :: rest =>
      match dict_get config elms_req with
      | None | Some PNone | Some (PList _) => check_lists rest config
      | Some _ => Raise (TypeError (not_list_msg elms_req))
      end
  end.

(** The checks that precede the election-date loop. *)
Definition checks_before_dates (config : pydict) : result unit :=
  check_required_fields config >>
  check_sub_dicts REQUIRED_FIELDS_IN_CONFIG config.

Definition _validated_config (config : pydict) : result unit :=
  checks_before_dates config >>
  check_vote_histories config >>
  check_lists ELEMENTS_REQ_IN_VALUES_VF config.

(** The object state.  The caches [_voter_file], [_column_names], [_formats]
    and [_s3_creds] hold values that are functions of [config] alone, so the
    corresponding properties are given as functions of the object. *)
Record TurnoutConfig : Type := mkTurnoutConfig {
  config : pydict;
  _parties_included : option pyval;
  _filter_on_parties : bool;
  voted_values : pyval
}.

(** [TurnoutConfig.__init__] *)
Definition TurnoutConfig_init (cfg : pydict) : result TurnoutConfig :=
  _validated_config cfg >>
  let* vv := dict_item cfg "voted_values" in
  Ok {| config := cfg; _parties_included := None;
        _filter_on_parties := true; voted_values := vv |}.

(** [len(v)] *)
Definition py_len (v : pyval) : result nat :=
  match v with
  | PNone => Raise (TypeError "object of type 'NoneType' has no len()")
  | PStr s => Ok (String.length s)
  | PList l => Ok (List.length l)
  | PDict d => Ok (List.length d)
  end.

(** [config.get(k)], where a stored [None] and an absent key both give
    [None] *)
Definition config_get (cfg : pydict) (k : string) : option pyval :=
  match dict_get cfg k with
  | Some PNone => None
  | o => o
  end.

(** the property [parties_included]: the value returned and the object
    after the access *)
Definition parties_included (c : TurnoutConfig)
  : result (option pyval * TurnoutConfig) :=
  match _parties_included c, _filter_on_parties c with
  | None, true =>
      match config_get (config c) "parties_included" with
      | None =>
          Ok (None, {| config := config c; _parties_included := None;
                       _filter_on_parties := false;
                       voted_values := voted_values c |})
      | Some v =>
          let* n := py_len v in
          if (n =? 0)%nat then
            Ok (None, {| config := config c; _parties_included := None;
                         _filter_on_parties := false;
                         voted_values := voted_values c |})
          else
            Ok (Some v, {| config := config c; _parties_included := Some v;
                           _filter_on_parties := _filter_on_parties c;
                           voted_values := voted_values c |})
      end
  | p, _ => Ok (p, c)
  end.

(** a configured name used as a string (a column name, a format) *)
Definition as_str (v : pyval) : result string :=
  match v with
  | PStr s => Ok s
  | _ => Raise (TypeError "expected a string")
  end.

Definition sub_item (c : TurnoutConfig) (group field : string) : result pyval :=
  let* g := dict_item (config c) group in
  match g with
  | PDict d => dict_item d field
  | _ => Raise (TypeError "object is not subscriptable")
  end.

(** [self.column_names.<field>] *)
Definition column_name (c : TurnoutConfig) (field : string) : result string :=
  let* v := sub_item c "column_names" field in as_str v.

(** [self.formats.reg_date], [self.formats.dob] *)
Definition formats_reg_date (c : TurnoutConfig) : result string :=
  let* v := sub_item c "formats" "reg_date" in Ok (py_str v).
Definition formats_dob (c : TurnoutConfig) : result string :=
  let* v := sub_item c "formats" "dob" in Ok (py_str v).

(** [self.voter_file.bucket], [self.voter_file.key] *)
Definition voter_file_bucket (c : TurnoutConfig) : result pyval :=
  sub_item c "voter_file" "bucket".
Definition voter_file_key (c : TurnoutConfig) : result pyval :=
  sub_item c "voter_file" "key_pattern".

(** the property [s3_creds] *)
Definition s3_creds (c : TurnoutConfig) : result pydict :=
  match config_get (config c) "s3_creds" with
  | None => Raise (KeyError "you need s3_creds in the config")
  | Some (PDict d) => Ok d
  | Some _ =>
      Raise (TypeError " s3_creds should be a dictionary with the s3 credentials ")
  end.

(** [self.config[VOTE_HISTORIES]] *)
Definition vote_histories_of (c : TurnoutConfig) : result pydict :=
  let* v := dict_item (config c) VOTE_HISTORIES in
  match v with
  | PDict d => Ok d
  | _ => Raise (TypeError "object has no attribute keys")
  end.

Fixpoint mapM {A B} (f : A -> result B) (l : list A) : result (list B) :=
  match l with
  | [] => Ok []
  | x :: l' => let* y := f x in let* ys := mapM f l' in Ok (y :: ys)
  end.

(** [for x in l: body(x)] for a body that only raises or passes *)
Fixpoint forM_ {A} (f : A -> result unit) (l : list A) : result unit :=
  match l with
  | [] => Ok tt
  | x :: l' => f x >> forM_ f l'
  end.

Definition column_missing_msg (clm_name : string) : string :=
  clm_name +:+ " specified in vote_histories in config is not" +:+ nl
  +:+ spaces 29 +:+ "a valid column name in the dataframe" +:+ nl +:+ spaces 29.

Definition req_column_missing_msg (req_clm_name req_column : string) : string :=
  req_clm_name +:+ " specified for " +:+ req_column +:+ " in config is not a valid"
  +:+ nl +:+ spaces 29 +:+ "column name in the dataframe".

(** given a vf (its column names), make sure basic columns are there *)
Definition validate_against_voter_file (c : TurnoutConfig) (df_columns : list string)
  : result unit :=
  let* vh := vote_histories_of c in
  forM_ (fun clm_name =>
           if decide (clm_name ∈ df_columns) then Ok tt
           else Raise (KeyError (column_missing_msg clm_name)))
        (dict_keys vh) >>
  forM_ (fun req_column =>
           let* req_clm_name := column_name c req_column in
           if decide (req_clm_name ∈ df_columns) then Ok tt
           else Raise (KeyError (req_column_missing_msg req_clm_name req_column)))
        ["dob_field"; "id_field"; "party_field"; "reg_date_field"].

(** returns the columns required for the turnout computation *)
Definition columns_to_keep (c : TurnoutConfig) : result (list string) :=
  let* cols := mapM (column_name c)
                    ["dob_field"; "id_field"; "party_field"; "reg_date_field"] in
  let* vh := vote_histories_of c in
  Ok (cols ++ dict_keys vh)%list.

End validation.
End turnout_config.

(* ===================================================================== *)
(** * Data frames *)
(* ===================================================================== *)

(** A cell of a computed column. *)
Inductive cell : Type :=
| CNull
| CStr (s : string)
| CInt (n : Z)
| CNum (q : Q).

#[global] Instance Q_eq_dec : EqDecision Q.
Proof. solve_decision. Defined.
#[global] Instance cell_eq_dec : EqDecision cell.
Proof. solve_decision. Defined.

(** The voter file is read as text: its cells are strings or null
    ([option string]).  Computed columns hold [cell]s. *)
Record DataFrame (V : Type) : Type := mkDataFrame {
  columns : list string;
  rows : list (gmap string V)
}.
Arguments mkDataFrame {V} columns rows.
Arguments columns {V} d.
Arguments rows {V} d.

Definition text_get (r : gmap string (option string)) (name : string) : option string :=
  default None (r !! name).
Definition cell_get (r : gmap string cell) (name : string) : cell :=
  default CNull (r !! name).

(** Resolution of a column reference against the schema. *)
Definition resolve {V} (df : DataFrame V) (name : string) : result unit :=
  match count_occ string_dec (columns df) name with
  | O => Raise (AnalysisException ("cannot resolve '" +:+ name +:+ "'"))
  | 1%nat => Ok tt
  | _ => Raise (AnalysisException ("Reference '" +:+ name +:+ "' is ambiguous"))
  end.

(** [df.withColumn(name, expr)]: the column is replaced when the name
    exists and appended otherwise; [expr] is evaluated on every row. *)
Definition withColumn {V} (df : DataFrame V) (name : string)
    (expr : gmap string V -> result V) : result (DataFrame V) :=
  let* rows' := turnout_config.mapM
                  (fun r => let* v := expr r in Ok (<[name := v]> r)) (rows df) in
  Ok {| columns := if decide (name ∈ columns df) then columns df
                   else (columns df ++ [name])%list;
        rows := rows' |}.

(** [df.withColumn(name, udf(...))] for a column that no action of the
    program reads.  Spark adds the column to the plan and runs the udf only
    when the column is read, so an exception of the udf is not raised here.
    A cell of the column holds the value of the udf where it has one; where
    the udf raises, the cell is left out: its evaluation is pending. *)
Definition withColumn_lazy {V} (df : DataFrame V) (name : string)
    (expr : gmap string V -> result V) : DataFrame V :=
  {| columns := if decide (name ∈ columns df) then columns df
                else (columns df ++ [name])%list;
     rows := map (fun r => match expr r with
                           | Ok v => <[name := v]> r
                           | Raise _ => delete name r
                           end) (rows df) |}.

(** [df[cols]] *)
Definition select {V} (df : DataFrame V) (cols : list string) : result (DataFrame V) :=
  turnout_config.forM_ (resolve df) cols >>
  Ok {| columns := cols;
        rows := map (fun r => filter (fun kv => kv.1 ∈ cols) r) (rows df) |}.

(** [df.count()], [df.distinct()] *)
Definition count {V} (df : DataFrame V) : nat := List.length (rows df).
Definition distinct {V} `{EqDecision V} (df : DataFrame V) : DataFrame V :=
  {| columns := columns df; rows := remove_dups (rows df) |}.

(** SQL division: null when the divisor is zero. *)
Definition sql_div (a b : Q) : option Q :=
  if Qeq_bool b 0 then None else Some (a / b)%Q.

(** ** [FloatType]: IEEE 754 single precision *)

(** [x] rounded to the nearest integer, ties to the even one *)
Definition round_half_even (x : Q) : Z :=
  let a := Qnum x in
  let b := Zpos (Qden x) in
  let n := a / b in
  match (2 * (a mod b) ?= b)%Z with
  | Lt => n
  | Gt => n + 1
  | Eq => if Z.even n then n else n + 1
  end.

(** the integer part of the binary logarithm of a positive [x] *)
Definition ilog2 (x : Q) : Z :=
  let a := Qnum x in
  let b := Zpos (Qden x) in
  if (b <=? a)%Z then Z.log2 (a / b) else - Z.log2_up ((b + a - 1) / a).

(** a positive [x] rounded to 24 significant bits, to the multiples of
    [2^-149] below [2^-126] *)
Definition round_single (x : Q) : Q :=
  let e := Z.max (ilog2 x - 23) (-149) in
  if (0 <=? e)%Z then inject_Z (round_half_even (x / inject_Z (2 ^ e)) * 2 ^ e)
  else (inject_Z (round_half_even (x * inject_Z (2 ^ (- e)))) / inject_Z (2 ^ (- e)))%Q.

(** a Python float stored in a [FloatType] column: the nearest
    single-precision value, ties to even (values beyond the largest
    single-precision number, which become infinite, are not modelled) *)
Definition float32 (x : Q) : Q :=
  let x := Qred x in
  match Qnum x with
  | 0 => 0%Q
  | Zpos _ => Qred (round_single x)
  | Zneg _ => Qred (- round_single (- x))
  end.

(** [s.split(sep)[0]]: the part of [s] before the first occurrence of
    [sep] (all of [s] when there is none). *)
Fixpoint split_head (sep s : string) : string :=
  if String.prefix sep s then ""
  else match s with
       | EmptyString => ""
       | String c s' => String c (split_head sep s')
       end.

(* ===================================================================== *)
(** * turnout_scorer.py *)
(* ===================================================================== *)

Module turnout_scorer.
Import turnout_config.

Definition EFF_REG_DATE_FIELD := "effective_reg_date".
Definition WEIGHTED_TURNOUT_FIELD := "weighted_turnout".
Definition YEAR_OF_BIRTH_FIELD := "year_of_birth".
Definition NORMALIZED_TURNOUT_FIELD := "normalized_turnout".

(** ** [sorted(iterable, key=...)]: the stable sort *)

Section sorted.
Context {A K : Type} (key : A -> K) (leb : K -> K -> bool).

Fixpoint insert_sorted (x : A) (l : list A) : list A :=
  match l with
  | [] => [x]
  | y :: l' => if leb (key x) (key y) then x :: y :: l'
               else y :: insert_sorted x l'
  end.

Fixpoint sorted (l : list A) : list A :=
  match l with
  | [] => []
  | x :: l' => insert_sorted x (sorted l')
  end.
End sorted.

(** the order of the sort keys, the values of [dct.get]: [None] sorts
    before every datetime *)
Definition key_leb (a b : option datetime) : bool :=
  match a, b with
  | None, _ => true
  | Some _, None => false
  | Some x, Some y => dt_leb x y
  end.

(** [enumerate(arr)[idx]] against a list: [l[idx]] *)
Definition list_item {A} (l : list A) (idx : nat) : result A :=
  match l !! idx with
  | Some x => Ok x
  | None => Raise (IndexError "list index out of range")
  end.

(** a local variable that is read: unbound locals raise *)
Definition local {A} (name : string) (v : option A) : result A :=
  match v with
  | Some x => Ok x
  | None => Raise (UnboundLocalError name)
  end.

(** [sep.join(v)] for a configured value *)
Fixpoint strs_of (l : list pyval) : result (list string) :=
  match l with
  | [] => Ok []
  | PStr s :: l' => let* ss := strs_of l' in Ok (s :: ss)
  | _ :: _ => Raise (TypeError "sequence item: expected string")
  end.

Definition py_join (sep : string) (v : pyval) : result string :=
  match v with
  | PList l => let* ss := strs_of l in Ok (join sep ss)
  | _ => Raise (TypeError "can only join an iterable")
  end.

(** [sub in s] on strings *)
Fixpoint is_substring (sub s : string) : bool :=
  if String.prefix sub s then true
  else match s with
       | EmptyString => false
       | String _ s' => is_substring sub s'
       end.

(** [vote in voted_values] *)
Definition py_contains (values : pyval) (c : option string) : result bool :=
  match values with
  | PList l => Ok (py_in c l)
  | PDict d => Ok (match c with
                   | Some s => bool_decide (s ∈ dict_keys d)
                   | None => false
                   end)
  | PStr s => match c with
              | Some s' => Ok (is_substring s' s)
              | None => Raise (TypeError "'in <string>' requires string as left operand")
              end
  | PNone => Raise (TypeError "argument of type 'NoneType' is not iterable")
  end.

(** the values [isin] compares with *)
Definition isin_values (v : pyval) : list pyval :=
  match v with
  | PList l => l
  | _ => [v]
  end.

Definition invalid_party_msg (party_field : string) : string :=
  " not valid party value(s)" +:+ nl +:+ spaces 29 +:+ "in " +:+ party_field.

Definition duplicates_msg : string :=
  "There are duplicates in the voterfile. Please fix and rerun".

Definition inject_text (c : option string) : cell :=
  match c with
  | Some s => CStr s
  | None => CNull
  end.

(** a cell read by an arithmetic expression or aggregate *)
Definition num_of_cell (c : cell) : result (option Q) :=
  match c with
  | CNull => Ok None
  | CInt n => Ok (Some (inject_Z n))
  | CNum q => Ok (Some q)
  | CStr _ => Raise (AnalysisException "string column in arithmetic")
  end.

Definition Qsum (l : list Q) : Q := fold_right Qplus 0%Q l.

(** the object: [self.config], [self.vote_histories], [self.voters_df];
    [sorted_vote_histories] is a function of [vote_histories] (the cache
    [_sorted_vote_histories] is not observable) *)
Record TurnoutScorer (V : Type) : Type := mkTurnoutScorer {
  config : TurnoutConfig;
  vote_histories : pydict;
  num_valid : Z;
  voters_df : DataFrame V
}.
Arguments mkTurnoutScorer {V} config vote_histories num_valid voters_df.
Arguments config {V} t.
Arguments vote_histories {V} t.
Arguments num_valid {V} t.
Arguments voters_df {V} t.

Section scorer.
Context `{PyRuntime}.

(** [datetime.datetime.strptime(value, fmt)] on a configured value *)
Definition strptime_val (value : pyval) (fmt : string) : result datetime :=
  match value with
  | PStr s => match strptime s fmt with
              | Some d => Ok d
              | None => Raise (ValueError ("time data does not match format " +:+ fmt))
              end
  | _ => Raise (TypeError "must be string")
  end.

(** Python sorts the keys of the rebuilt dict [dct] in the order in which
    [dct] iterates; the list below takes the order of [vote_histories].  The
    two can differ in CPython 2 (hash order), which shows only in the order
    of elections that share a date *)
Definition _sort_vote_histories (vote_histories : pydict) : result (list string) :=
  let* dct := mapM (fun kv => let* d := strptime_val kv.2 VHIST_DATE_FORMAT in
                              Ok (kv.1, d)) vote_histories in
  Ok (sorted (dict_get dct) key_leb (dict_keys dct)).

(** ** [_preprocess_vf] *)

(** get year from date of birth *)
Definition get_year_ob (dob_format : string) (date_input : option string)
  : result string :=
  if negb (is_null_marker date_input) then
    match strptime (str_cell date_input) dob_format with
    | Some d => Ok (str_of_Z (year d))
    | None => Raise (ValueError ("time data does not match format " +:+ dob_format))
    end
  else Ok (str_of_Z (year today - 18)).

(** [vdf[vdf[party_field].isin(parties_to_include)]] *)
Definition filter_isin (vdf : DataFrame (option string)) (party_field : string)
    (parties : pyval) : result (DataFrame (option string)) :=
  resolve vdf party_field >>
  Ok {| columns := columns vdf;
        rows := List.filter (fun r => match text_get r party_field with
                                      | Some s => py_in (Some s) (isin_values parties)
                                      | None => false
                                      end) (rows vdf) |}.

(** [_preprocess_vf], in two parts.  [voter_history_df] is what [load_csv]
    returned.  The first part ends with the party filter; it yields the
    table, the locals [parties_to_include] and [party_field] (unbound when
    the filter is off) and the configuration object, whose
    [parties_included] property has been accessed. *)
Definition preprocess_state : Type :=
  DataFrame (option string) * option pyval * option string * TurnoutConfig.

Definition _preprocess_vf_select (c : TurnoutConfig)
    (voter_history_df : DataFrame (option string)) : result preprocess_state :=
  validate_against_voter_file c (columns voter_history_df) >>
  let* columns_to_keep := columns_to_keep c in
  let* vdf := select voter_history_df columns_to_keep in
  let* '(p, c1) := parties_included c in
  match p with
  | Some _ =>
      let* '(parties_to_include, c2) := parties_included c1 in
      let* party_field := column_name c2 "party_field" in
      let* vdf' := match parties_to_include with
                   | Some v => filter_isin vdf party_field v
                   | None => Raise (TypeError "isin of None")
                   end in
      Ok (vdf', parties_to_include, Some party_field, c2)
  | None => Ok (vdf, None, None, c1)
  end.

(** the second part: the two checks on the row count, then the year of
    birth.  [count] and [distinct().count()] are actions; the column
    [year_of_birth] is only added to the plan: nothing the scorer does
    afterwards reads it, so [get_year_ob] is not run here *)
Definition _preprocess_vf_checks (st : preprocess_state)
  : result (DataFrame (option string) * TurnoutConfig) :=
  let '(vdf, parties_to_include, party_field, c2) := st in
  let count_vdf := count vdf in
  if (count_vdf =? 0)%nat then
    let* pti := local "parties_to_include" parties_to_include in
    let* joined := py_join "," pti in
    let* pf := local "party_field" party_field in
    Raise (ValueError (joined +:+ invalid_party_msg pf))
  else if negb (count (distinct vdf) =? count_vdf)%nat then
    Raise (RuntimeError duplicates_msg)
  else
    let* dob_format := formats_dob c2 in
    let* dob_field := column_name c2 "dob_field" in
    resolve vdf dob_field >>
    let vdf := withColumn_lazy vdf YEAR_OF_BIRTH_FIELD
                 (fun r => let* y := get_year_ob dob_format (text_get r dob_field) in
                           Ok (Some y)) in
    Ok (vdf, c2).

Definition _preprocess_vf (c : TurnoutConfig) (voter_history_df : DataFrame (option string))
  : result (DataFrame (option string) * TurnoutConfig) :=
  let* st := _preprocess_vf_select c voter_history_df in
  _preprocess_vf_checks st.

(** [TurnoutScorer.__init__] *)
Definition TurnoutScorer_init (cfg : pydict) (loaded : DataFrame (option string))
    (num_valid : Z) : result (TurnoutScorer (option string)) :=
  let* c := TurnoutConfig_init cfg in
  let* _ := s3_creds c in
  let* vh := vote_histories_of c in
  let* '(vdf, c') := _preprocess_vf c loaded in
  Ok (mkTurnoutScorer c' vh num_valid vdf).

(** ** [_add_effective_reg_date] *)

(** the loop of [effective_regis_date]: [idx] is the index of the head of
    [arr_of_elec] *)
Fixpoint first_election_date (svh : list string) (vhs_w_d : pydict)
    (arr_of_elec : list (option string)) (idx : nat) : result datetime :=
  match arr_of_elec with
  | [] => Ok today
  | i :: rest =>
      if negb (is_null_marker i) then
        let* e := list_item svh idx in
        let* v := dict_item vhs_w_d e in
        strptime_val v VHIST_DATE_FORMAT
      else first_election_date svh vhs_w_d rest (S idx)
  end.

(** date of first recorded elections *)
Definition effective_regis_date (svh : list string) (vhs_w_d : pydict)
    (reg_date_format : string) (arr_of_elec : list (option string)) : result string :=
  let* d := first_election_date svh vhs_w_d arr_of_elec 0 in
  strftime d reg_date_format.

(** [array(names)] evaluated on a row *)
Definition array_of {V} (get : gmap string V -> string -> V) (names : list string)
    (r : gmap string V) : list V :=
  map (get r) names.

Definition _add_effective_reg_date (s : TurnoutScorer (option string))
  : result (TurnoutScorer (option string)) :=
  let* svh := _sort_vote_histories (vote_histories s) in
  forM_ (resolve (voters_df s)) svh >>
  let vhs_w_d := vote_histories s in
  let* reg_date_format := formats_reg_date (config s) in
  let* df := withColumn (voters_df s) EFF_REG_DATE_FIELD
               (fun r => let* d := effective_regis_date svh vhs_w_d reg_date_format
                                     (array_of text_get svh r) in
                         Ok (Some d)) in
  Ok (mkTurnoutScorer (config s) (vote_histories s) (num_valid s) df).

(** ** [_clean_voting_record] *)

(** udf to be used in sql to clean records *)
Definition clean_voting_record (reg_date_format : string) (voted_values : pyval)
    (vote eff_reg_date reg_date : option string) (elections_date : string)
  : result (option Z) :=
  let reg_date_str := if is_null_marker reg_date then date_isoformat today
                      else str_cell reg_date in
  match strptime elections_date VHIST_DATE_FORMAT with
  | None => Raise (ValueError ("time data does not match format " +:+ VHIST_DATE_FORMAT))
  | Some elections_date =>
      match strptime reg_date_str reg_date_format with
      | None => Ok None
      | Some reg_date =>
          match strptime (str_cell eff_reg_date) reg_date_format with
          | None => Ok None
          | Some eff_reg_date =>
              let reg_date := if dt_ltb eff_reg_date reg_date then eff_reg_date
                              else reg_date in
              if dt_leb reg_date elections_date then
                let* voted := py_contains voted_values vote in
                Ok (Some (if voted then 1 else 0))
              else Ok None
          end
      end
  end.

Definition cell_of_int (o : option Z) : cell :=
  match o with
  | Some n => CInt n
  | None => CNull
  end.

(** the generated fields of the SELECT, evaluated on a row of the
    registered table and added to the row *)
Fixpoint cleaned_fields (reg_date_format : string) (voted_values : pyval)
    (reg_date_field : string) (elections : pydict)
    (r : gmap string (option string)) (acc : gmap string cell)
  : result (gmap string cell) :=
  match elections with
  | [] => Ok acc
  | (election, election_date) :: rest =>
      let* v := clean_voting_record reg_date_format voted_values
                  (text_get r election) (text_get r EFF_REG_DATE_FIELD)
                  (text_get r reg_date_field) (py_str election_date) in
      cleaned_fields reg_date_format voted_values reg_date_field rest r
        (<[election +:+ "_cleaned" := cell_of_int v]> acc)
  end.

(** adds a column for cleaned vote history *)
Definition _clean_voting_record (s0 : TurnoutScorer (option string))
  : result (TurnoutScorer cell) :=
  let* s := _add_effective_reg_date s0 in
  let* reg_date_format := formats_reg_date (config s) in
  let voted_values := voted_values (config s) in
  let voters_table := voters_df s in
  let* reg_date_field := column_name (config s) "reg_date_field" in
  let elections := vote_histories s in
  forM_ (resolve voters_table)
        (EFF_REG_DATE_FIELD :: reg_date_field :: dict_keys elections) >>
  let* rows' := mapM (fun r => cleaned_fields reg_date_format voted_values
                                 reg_date_field elections r (inject_text <$> r))
                     (rows voters_table) in
  Ok (mkTurnoutScorer (config s) (vote_histories s) (num_valid s)
        {| columns := (columns voters_table
                       ++ map (fun e => e +:+ "_cleaned") (dict_keys elections))%list;
           rows := rows' |}).

(** ** [_add_weighted_vote] *)

(** the non-null values of a column ([WHERE col IS NOT NULL]) *)
Definition column_values (t : DataFrame cell) (name : string) : result (list Q) :=
  let* vals := mapM (fun r => num_of_cell (cell_get r name)) (rows t) in
  Ok (omap id vals).

(** [SELECT SUM(col)/COUNT(col) FROM t WHERE col IS NOT NULL]; the sum over
    no row is null *)
Definition norm_fac (t : DataFrame cell) (election : string) : result (option Q) :=
  resolve t election >>
  let* vals := column_values t election in
  match vals with
  | [] => Ok None
  | _ => Ok (sql_div (Qsum vals) (inject_Z (Z.of_nat (List.length vals))))
  end.

Definition weighted_col_name (election : string) : string :=
  split_head "_cleaned" election +:+ "_weighted".

(** [col(election) * factor] *)
Definition times (c : cell) (factor : Q) : result cell :=
  let* v := num_of_cell c in
  Ok (match v with
      | Some q => CNum (q * factor)
      | None => CNull
      end).

(** the body of the loop over the cleaned columns *)
Definition add_weighted_column (voters_table df : DataFrame cell) (election : string)
  : result (DataFrame cell) :=
  let* nrm_fac := norm_fac voters_table election in
  match nrm_fac with
  | None => Raise (TypeError "unsupported operand type(s) for -: 'float' and 'NoneType'")
  | Some f =>
      resolve df election >>
      withColumn df (weighted_col_name election)
        (fun r => times (cell_get r election) (1 - f))
  end.

Fixpoint add_weighted_columns (voters_table df : DataFrame cell)
    (elections : list string) : result (DataFrame cell) :=
  match elections with
  | [] => Ok df
  | election :: rest =>
      let* df' := add_weighted_column voters_table df election in
      add_weighted_columns voters_table df' rest
  end.

Definition _add_weighted_vote (s : TurnoutScorer cell) : result (TurnoutScorer cell) :=
  let voters_table := voters_df s in
  let* svh := _sort_vote_histories (vote_histories s) in
  let elections := map (fun vote => vote +:+ "_cleaned") svh in
  let* df := add_weighted_columns voters_table (voters_df s) elections in
  Ok (mkTurnoutScorer (config s) (vote_histories s) (num_valid s) df).

(** ** [_add_weighted_turnout] *)

(** [v not in (None, "null")] *)
Definition not_null_cell (v : cell) : bool :=
  match v with
  | CNull => false
  | CStr s => negb (String.eqb s "null")
  | _ => true
  end.

(** [sum(l)]: the running total, from [0], left to right *)
Fixpoint py_sum (acc : Q) (l : list cell) : result Q :=
  match l with
  | [] => Ok acc
  | CInt n :: rest => py_sum (acc + inject_Z n)%Q rest
  | CNum q :: rest => py_sum (acc + q)%Q rest
  | _ :: _ => Raise (TypeError "unsupported operand type(s) for +")
  end.

(** sum the weighted turnout for each person *)
Definition get_weighted_sum (arr_of_elec : list cell) : result Q :=
  py_sum 0%Q (List.filter not_null_cell arr_of_elec).

(** the udf is declared with [FloatType()]: the column holds the sum in
    single precision *)
Definition _add_weighted_turnout (s0 : TurnoutScorer cell) : result (TurnoutScorer cell) :=
  let* s := _add_weighted_vote s0 in
  let* svh := _sort_vote_histories (vote_histories s) in
  let weightes_vote_fields := map (fun vote => vote +:+ "_weighted") svh in
  forM_ (resolve (voters_df s)) weightes_vote_fields >>
  let* df := withColumn (voters_df s) WEIGHTED_TURNOUT_FIELD
               (fun r => let* w := get_weighted_sum
                                     (array_of cell_get weightes_vote_fields r) in
                         Ok (CNum (float32 w))) in
  Ok (mkTurnoutScorer (config s) (vote_histories s) (num_valid s) df).

(** ** [_normalize_turnout] *)

(** [MAX] of a list of values; null over no value *)
Definition Qmax_list (l : list Q) : option Q :=
  match l with
  | [] => None
  | x :: l' => Some (fold_left Qmax l' x)
  end.

(** the rows of the partition of [key] *)
Definition partition_of (t : DataFrame cell) (cohort_field : string) (key : cell)
  : list (gmap string cell) :=
  List.filter (fun r => bool_decide (cell_get r cohort_field = key)) (rows t).

(** [MAX(weighted_turnout) OVER (PARTITION BY cohort_field)] on the row
    whose cohort is [key] *)
Definition max_to_of (t : DataFrame cell) (cohort_field : string) (key : cell)
  : result (option Q) :=
  let* vals := mapM (fun r => num_of_cell (cell_get r WEIGHTED_TURNOUT_FIELD))
                    (partition_of t cohort_field key) in
  Ok (Qmax_list (omap id vals)).

Definition cell_of_num (o : option Q) : cell :=
  match o with
  | Some q => CNum q
  | None => CNull
  end.

(** [weighted_turnout / max_to] *)
Definition normalized_cell (w max_to : option Q) : cell :=
  match w, max_to with
  | Some w, Some m => cell_of_num (sql_div w m)
  | _, _ => CNull
  end.

Definition normalize_row (t : DataFrame cell) (cohort_field : string)
    (r : gmap string cell) : result (gmap string cell) :=
  let* max_to := max_to_of t cohort_field (cell_get r cohort_field) in
  let* w := num_of_cell (cell_get r WEIGHTED_TURNOUT_FIELD) in
  Ok (delete "max_to" (<[NORMALIZED_TURNOUT_FIELD := normalized_cell w max_to]>
                       (<["max_to" := cell_of_num max_to]> r))).

(** the window [MAX(...) OVER (PARTITION BY ...)] regroups the rows by
    cohort: the result holds the rows computed here in an order that Spark
    chooses, so the list below stands for its rows up to their order *)
Definition _normalize_turnout (s : TurnoutScorer cell) : result (TurnoutScorer cell) :=
  let cohort_field := EFF_REG_DATE_FIELD in
  let voters_table := voters_df s in
  resolve voters_table WEIGHTED_TURNOUT_FIELD >>
  resolve voters_table cohort_field >>
  let max_weight_cohort : DataFrame cell :=
    {| columns := (columns voters_table ++ ["max_to"])%list; rows := rows voters_table |} in
  resolve max_weight_cohort WEIGHTED_TURNOUT_FIELD >>
  resolve max_weight_cohort "max_to" >>
  let* rows' := mapM (normalize_row voters_table cohort_field) (rows voters_table) in
  Ok (mkTurnoutScorer (config s) (vote_histories s) (num_valid s)
        {| columns := List.filter (fun c => negb (String.eqb c "max_to"))
                        (columns max_weight_cohort ++ [NORMALIZED_TURNOUT_FIELD])%list;
           rows := rows' |}).

(** puts it all together *)
Definition compute_normalized_turnout (s : TurnoutScorer (option string))
  : result (TurnoutScorer cell) :=
  let* s1 := _clean_voting_record s in
  let* s2 := _add_weighted_turnout s1 in
  _normalize_turnout s2.

(** a run: construction of the scorer on the loaded voter file, then
    [compute_normalized_turnout] *)
Definition run (cfg : pydict) (loaded : DataFrame (option string))
  : result (TurnoutScorer cell) :=
  let* s := TurnoutScorer_init cfg loaded 6 in
  compute_normalized_turnout s.

End scorer.
End turnout_scorer.

(* ===================================================================== *)
(** * An executable instance of the runtime *)
(* ===================================================================== *)

(** [Model.runtime] follows CPython 2.7 on the fragment used to run the
    definitions: formats made of the directives [%Y], [%m], [%d], [%%] and
    of literal characters other than letters and white space.  A format
    outside the fragment is rejected by [strptime]. *)
Module Model.
#[local] Open Scope Z_scope.

Inductive directive : Type :=
| DYear
| DMonth
| DDay
| DLit (c : ascii).

Definition is_plain_literal (c : ascii) : bool :=
  let n := nat_of_ascii c in
  negb ((n <=? 32)%nat
        || ((65 <=? n)%nat && (n <=? 90)%nat)
        || ((97 <=? n)%nat && (n <=? 122)%nat)
        || Ascii.eqb c "%").

Fixpoint parse_format (fmt : list ascii) : option (list directive) :=
  match fmt with
  | [] => Some []
  | c :: rest =>
      if Ascii.eqb c "%" then
        match rest with
        | [] => None
        | d :: rest' =>
            let item :=
              if Ascii.eqb d "Y" then Some DYear
              else if Ascii.eqb d "m" then Some DMonth
              else if Ascii.eqb d "d" then Some DDay
              else if Ascii.eqb d "%" then Some (DLit "%")
              else None in
            match item, parse_format rest' with
            | Some i, Some ds => Some (i :: ds)
            | _, _ => None
            end
        end
      else if is_plain_literal c then
        match parse_format rest with
        | Some ds => Some (DLit c :: ds)
        | None => None
        end
      else None
  end.

Definition digit_val (c : ascii) : option Z :=
  let n := nat_of_ascii c in
  if ((48 <=? n)%nat && (n <=? 57)%nat)%bool then Some (Z.of_nat n - 48) else None.

(** one alternative of the pattern of a directive: the value read and the
    rest of the input *)
Definition alternative := list ascii -> option (Z * list ascii).

Definition two_digits (ok : Z -> Z -> bool) : alternative := fun s =>
  match s with
  | a :: b :: s' =>
      match digit_val a, digit_val b with
      | Some x, Some y => if ok x y then Some (10 * x + y, s') else None
      | _, _ => None
      end
  | _ => None
  end.

Definition one_digit (ok : Z -> bool) : alternative := fun s =>
  match s with
  | a :: s' =>
      match digit_val a with
      | Some x => if ok x then Some (x, s') else None
      | None => None
      end
  | _ => None
  end.

Definition space_digit : alternative := fun s =>
  match s with
  | sp :: s' => if Ascii.eqb sp " " then one_digit (fun x => 1 <=? x) s' else None
  | _ => None
  end.

Definition four_digits : alternative := fun s =>
  match two_digits (fun _ _ => true) s with
  | Some (hi, s') =>
      match two_digits (fun _ _ => true) s' with
      | Some (lo, s'') => Some (100 * hi + lo, s'')
      | None => None
      end
  | None => None
  end.

(** [1[0-2]|0[1-9]|[1-9]] *)
Definition month_alternatives : list alternative :=
  [two_digits (fun x y => (x =? 1) && (y <=? 2));
   two_digits (fun x y => (x =? 0) && (1 <=? y));
   one_digit (fun x => 1 <=? x)].

(** [3[01]|[12]\d|0[1-9]|[1-9]| [1-9]] *)
Definition day_alternatives : list alternative :=
  [two_digits (fun x y => (x =? 3) && (y <=? 1));
   two_digits (fun x y => (1 <=? x) && (x <=? 2));
   two_digits (fun x y => (x =? 0) && (1 <=? y));
   one_digit (fun x => 1 <=? x);
   space_digit].

(** the first alternative, in order, with which the rest matches *)
Fixpoint try_alternatives {R} (alts : list alternative) (s : list ascii)
    (k : Z -> list ascii -> option R) : option R :=
  match alts with
  | [] => None
  | a :: alts' =>
      match (match a s with
             | Some (v, s') => k v s'
             | None => None
             end) with
      | Some r => Some r
      | None => try_alternatives alts' s k
      end
  end.

(** the match of the compiled pattern at the start of the input: the
    fields found and the unconverted rest *)
Fixpoint match_directives (ds : list directive) (s : list ascii) (y m d : Z)
  : option (Z * Z * Z * list ascii) :=
  match ds with
  | [] => Some (y, m, d, s)
  | DLit c :: ds' =>
      match s with
      | c' :: s' => if Ascii.eqb c c' then match_directives ds' s' y m d else None
      | [] => None
      end
  | DYear :: ds' =>
      try_alternatives [four_digits] s (fun v s' => match_directives ds' s' v m d)
  | DMonth :: ds' =>
      try_alternatives month_alternatives s (fun v s' => match_directives ds' s' y v d)
  | DDay :: ds' =>
      try_alternatives day_alternatives s (fun v s' => match_directives ds' s' y m v)
  end.

Definition is_leap (y : Z) : bool :=
  ((y mod 4 =? 0) && negb (y mod 100 =? 0)) || (y mod 400 =? 0).

Definition days_in_month (y m : Z) : Z :=
  if m =? 2 then (if is_leap y then 29 else 28)
  else if (m =? 4) || (m =? 6) || (m =? 9) || (m =? 11) then 30
  else 31.

Definition valid_date (y m d : Z) : bool :=
  (1 <=? y) && (y <=? 9999) && (1 <=? m) && (m <=? 12)
  && (1 <=? d) && (d <=? days_in_month y m).

Definition strptime (data_string format : string) : option datetime :=
  match parse_format (list_ascii_of_string format) with
  | None => None
  | Some ds =>
      match match_directives ds (list_ascii_of_string data_string) 1900 1 1 with
      | Some (y, m, d, []) =>
          if valid_date y m d then Some (mkdatetime y m d 0 0 0 0) else None
      | _ => None
      end
  end.

Fixpoint format_with (dt : datetime) (fmt : list ascii) : string :=
  match fmt with
  | [] => ""
  | c :: rest =>
      if Ascii.eqb c "%" then
        match rest with
        | [] => "%"
        | d :: rest' =>
            (if Ascii.eqb d "Y" then str_of_Z (year dt)
             else if Ascii.eqb d "m" then pad2 (month dt)
             else if Ascii.eqb d "d" then pad2 (day dt)
             else if Ascii.eqb d "%" then "%"
             else String c (String d ""))
            +:+ format_with dt rest'
        end
      else String c (format_with dt rest)
  end.

(** Python 2 refuses to format a year before 1900. *)
Definition strftime (dt : datetime) (format : string) : result string :=
  if year dt <? 1900 then
    Raise (ValueError ("year=" +:+ str_of_Z (year dt) +:+ " is before 1900"))
  else Ok (format_with dt (list_ascii_of_string format)).

(** [repr], exact on strings without quotes, backslashes or control
    characters *)
Fixpoint repr (v : pyval) : string :=
  match v with
  | PNone => "None"
  | PStr s => "'" +:+ s +:+ "'"
  | PList l => "[" +:+ join ", " (map repr l) +:+ "]"
  | PDict d => "{" +:+ join ", " (map (fun kv => "'" +:+ kv.1 +:+ "': " +:+ repr kv.2) d)
               +:+ "}"
  end.

Definition runtime : PyRuntime :=
  Build_PyRuntime strptime strftime (mkdatetime 2024 6 15 0 0 0 0) repr.

End Model.

(* ===================================================================== *)
(** * Vocabulary of the specification *)
(* ===================================================================== *)

Module spec.
Import turnout_config turnout_scorer.

Section vocabulary.
Context `{PyRuntime}.

(** the stated registration date as the cleaner reads it: today's date, as
    [str] prints it, when the field is null or the marker ['null'] *)
Definition stated_reg_date (reg_date : option string) : string :=
  if is_null_marker reg_date then date_isoformat today else str_cell reg_date.

(** the date of an election of the configuration *)
Definition election_date (vhist : pydict) (election : string) : option datetime :=
  match dict_get vhist election with
  | Some (PStr s) => strptime s VHIST_DATE_FORMAT
  | _ => None
  end.

(** a raw vote-code cell that holds a value: neither null nor ['null'] *)
Definition recorded (c : option string) : bool := negb (is_null_marker c).

(** a configured election date that [strptime] accepts with the
    vote-history format, [MM-DD-YYYY] *)
Definition matches_vhist_format (elecdate : pyval) : bool :=
  match strptime (py_str elecdate) VHIST_DATE_FORMAT with
  | Some _ => true
  | None => false
  end.

(** the first election, in iteration order, whose date is not accepted *)
Definition first_offending (vhist : pydict) : option (string * pyval) :=
  List.find (fun kv => negb (matches_vhist_format kv.2)) vhist.

Definition is_value_error (e : exn) : bool :=
  match e with
  | ValueError _ => true
  | _ => false
  end.

(** [r] is not a raised [ValueError] *)
Definition no_value_error {A} (r : result A) : Prop :=
  match r with
  | Raise e => is_value_error e = false
  | Ok _ => True
  end.

(** the keys every configuration must have *)
Definition required_keys : list string :=
  (dict_keys REQUIRED_FIELDS_IN_CONFIG ++ [VOTE_HISTORIES; VOTED_VALUES])%list.

(** the group [group] of the configuration is a dict whose keys are
    exactly [subs] *)
Definition has_exact_subkeys (cfg : pydict) (group : string) (subs : list string) : Prop :=
  exists d, dict_get cfg group = Some (PDict d)
            /\ forall k, In k (dict_keys d) <-> In k subs.

(** a value that is neither [None] nor a list *)
Definition not_list (v : pyval) : Prop :=
  match v with
  | PStr _ | PDict _ => True
  | _ => False
  end.

(** the entry is absent, [None] or a list *)
Definition list_if_present (cfg : pydict) (k : string) : Prop :=
  match dict_get cfg k with
  | None | Some PNone | Some (PList _) => True
  | Some _ => False
  end.

(** what [TurnoutConfig] accepts *)
Definition valid_config (cfg : pydict) : Prop :=
  Forall (fun g => has_exact_subkeys cfg g.1 g.2) REQUIRED_FIELDS_IN_CONFIG
  /\ (exists vhist, dict_get cfg VOTE_HISTORIES = Some (PDict vhist)
                    /\ Forall (fun kv => matches_vhist_format kv.2 = true) vhist)
  /\ (exists vv, dict_get cfg VOTED_VALUES = Some vv)
  /\ Forall (list_if_present cfg) ELEMENTS_REQ_IN_VALUES_VF.

(** the dict comprehension of [_sort_vote_histories] *)
Definition parsed_histories (vhist : pydict) (dct : list (string * datetime)) : Prop :=
  Forall2 (fun kv kd => strptime_val kv.2 VHIST_DATE_FORMAT = Ok kd.2 /\ kd.1 = kv.1)
          vhist dct.

End vocabulary.

(** a cell of the table the cleaner produced: text, null, or a label *)
Definition label_or_text (c : cell) : Prop :=
  match c with
  | CNum _ => False
  | CInt n => n = 0 \/ n = 1
  | _ => True
  end.

(** a cell that holds no negative number *)
Definition nonneg_cell (c : cell) : Prop :=
  match c with
  | CNum q => (0 <= q)%Q
  | CInt n => 0 <= n
  | _ => True
  end.

(** the values of a column, one cell per voter *)
Definition column (t : DataFrame cell) (name : string) : list cell :=
  map (fun r => cell_get r name) (rows t).

(** the number a cell holds *)
Definition number_of (c : cell) : option Q :=
  match c with
  | CNum q => Some q
  | CInt n => Some (inject_Z n)
  | _ => None
  end.

(** [count(cleaned = 1)] and [count(cleaned is not null)] *)
Definition count_voted (col : list cell) : nat :=
  List.length (List.filter (fun c => bool_decide (c = CInt 1)) col).
Definition count_eligible (col : list cell) : nat :=
  List.length (List.filter (fun c => negb (bool_decide (c = CNull))) col).

Definition turnout_rate (col : list cell) : Q :=
  (inject_Z (Z.of_nat (count_voted col)) / inject_Z (Z.of_nat (count_eligible col)))%Q.

(** [cleaned_value * (1 - turnout_rate)], null for a null cleaned value *)
Definition weighted_vote (rate : Q) (cleaned : cell) : cell :=
  match cleaned with
  | CInt n => CNum (inject_Z n * (1 - rate))
  | _ => CNull
  end.

(** a cleaned vote: 1, 0 or null *)
Definition ternary (c : cell) : Prop := c = CNull \/ c = CInt 0 \/ c = CInt 1.

(** the weighted turnouts of the cohort of [r]: of the rows with the same
    effective registration date *)
Definition cohort_scores (t : DataFrame cell) (r : gmap string cell) : list Q :=
  omap (fun r' => number_of (cell_get r' WEIGHTED_TURNOUT_FIELD))
       (partition_of t EFF_REG_DATE_FIELD (cell_get r EFF_REG_DATE_FIELD)).

(** [m] is the maximum of [l] *)
Definition is_max (m : Q) (l : list Q) : Prop :=
  In m l /\ Forall (fun x => (x <= m)%Q) l.

Definition cohort_max (t : DataFrame cell) (r : gmap string cell) (m : Q) : Prop :=
  is_max m (cohort_scores t r).

(** what [_normalize_turnout] does to a row *)
Definition normalized_from (t : DataFrame cell) (r r' : gmap string cell) : Prop :=
  exists w, num_of_cell (cell_get r WEIGHTED_TURNOUT_FIELD) = Ok w
            /\ r' = delete "max_to"
                      (<[NORMALIZED_TURNOUT_FIELD :=
                           normalized_cell w (Qmax_list (cohort_scores t r))]>
                         (<["max_to" := cell_of_num (Qmax_list (cohort_scores t r))]> r)).

(** a cell that holds no number outside [0, 1] *)
Definition unit_cell (c : cell) : Prop :=
  match c with
  | CNum q => (0 <= q <= 1)%Q
  | CInt n => 0 <= n <= 1
  | _ => True
  end.

(** the names of the columns the pipeline writes, for the elections of the
    configuration *)
Definition written_columns (elections : list string) : list string :=
  (EFF_REG_DATE_FIELD :: WEIGHTED_TURNOUT_FIELD :: "max_to" :: NORMALIZED_TURNOUT_FIELD
   :: map (fun e => e +:+ "_cleaned") elections
   ++ map (fun e => weighted_col_name (e +:+ "_cleaned")) elections)%list.

End spec.

(* ===================================================================== *)
(** * Concrete inputs *)
(* ===================================================================== *)

Module Examples.
Import turnout_config turnout_scorer.

Definition groups (reg_date_format : string) : pydict :=
  [("voter_file", PDict [("bucket", PStr "b"); ("key_pattern", PStr "k")]);
   ("column_names", PDict [("dob_field", PStr "dob"); ("id_field", PStr "id");
                           ("party_field", PStr "party");
                           ("reg_date_field", PStr "reg")]);
   ("formats", PDict [("reg_date", PStr reg_date_format); ("dob", PStr "%Y-%m-%d")])].

(** a configuration without party filter; the elections are not listed in
    the order of their dates *)
Definition cfg0 : pydict :=
  (groups "%Y-%m-%d" ++
   [("vote_histories", PDict [("g18", PStr "11-06-2018"); ("g16", PStr "11-08-2016");
                              ("g20", PStr "11-03-2020")]);
    ("voted_values", PList [PStr "Y"]);
    ("s3_creds", PDict [])])%list.

(** the same with a party filter *)
Definition cfg_party (parties : list pyval) : pydict :=
  (cfg0 ++ [("parties_included", PList parties)])%list.

(** the date of [g16] is written year first *)
Definition cfg_bad_date : pydict :=
  (groups "%Y-%m-%d" ++
   [("vote_histories", PDict [("g18", PStr "11-06-2018"); ("g16", PStr "2016-11-08")]);
    ("voted_values", PList [PStr "Y"])])%list.

(** the same election date in a configuration without the required groups *)
Definition cfg_missing : pydict :=
  [("vote_histories", PDict [("g16", PStr "2016-11-08")]);
   ("voted_values", PList [PStr "Y"])].

(** [voted_values] is a string, not a list *)
Definition cfg_voted_str : pydict :=
  (groups "%Y-%m-%d" ++
   [("vote_histories", PDict [("g18", PStr "11-06-2018")]);
    ("voted_values", PStr "Y")])%list.

(** a valid configuration without [s3_creds] *)
Definition cfg_no_creds : pydict :=
  (groups "%Y-%m-%d" ++
   [("vote_histories", PDict [("g18", PStr "11-06-2018"); ("g16", PStr "11-08-2016")]);
    ("voted_values", PList [PStr "Y"])])%list.

(** the elections of the example of the specification *)
Definition vhist_example : pydict :=
  [("E2", PStr "01-01-2018"); ("E3", PStr "01-01-2020"); ("E1", PStr "01-01-2016")].
Definition cells_example (election : string) : option string :=
  if String.eqb election "E2" then Some "Y" else None.

Definition voter (id dob party reg : string) (g16 g18 g20 : option string)
  : gmap string (option string) :=
  list_to_map [("id", Some id); ("dob", Some dob); ("party", Some party);
               ("reg", Some reg); ("g16", g16); ("g18", g18); ("g20", g20);
               ("extra", Some "x")].

Definition file_columns : list string :=
  ["id"; "dob"; "party"; "reg"; "g16"; "g18"; "g20"; "extra"].

Definition df0 : DataFrame (option string) :=
  mkDataFrame file_columns
    [voter "1" "1980-01-01" "D" "2019-06-01" None (Some "Y") (Some "N");
     voter "2" "1981-01-01" "R" "2010-06-01" (Some "Y") (Some "Y") (Some "Y");
     voter "3" "1982-01-01" "R" "2010-06-01" (Some "N") (Some "N") (Some "Y")].

(** voter 2 appears twice; the rows differ in a column that is not kept *)
Definition df_dup : DataFrame (option string) :=
  mkDataFrame file_columns
    [voter "1" "1980-01-01" "D" "2019-06-01" None (Some "Y") (Some "N");
     voter "2" "1981-01-01" "R" "2010-06-01" (Some "Y") (Some "Y") (Some "Y");
     <["extra" := Some "y"]>
       (voter "2" "1981-01-01" "R" "2010-06-01" (Some "Y") (Some "Y") (Some "Y"))].

Definition df_empty : DataFrame (option string) := mkDataFrame file_columns [].

(** the configuration object that [TurnoutConfig(cfg)] constructs *)
Definition config_object (cfg : pydict) : TurnoutConfig :=
  mkTurnoutConfig cfg None true (PList [PStr "Y"]).

(** six voters; five are eligible for [g16] and two of them voted; the
    sixth has no record before [g18] and registered later *)
Definition df6 : DataFrame (option string) :=
  mkDataFrame file_columns
    [voter "1" "1980-01-01" "D" "2010-06-01" (Some "Y") (Some "Y") (Some "Y");
     voter "2" "1981-01-01" "R" "2010-06-01" (Some "Y") (Some "N") (Some "Y");
     voter "3" "1982-01-01" "R" "2010-06-01" (Some "N") (Some "N") (Some "Y");
     voter "4" "1983-01-01" "D" "2010-06-01" (Some "N") (Some "N") (Some "N");
     voter "5" "1984-01-01" "D" "2010-06-01" (Some "N") (Some "Y") (Some "N");
     voter "6" "1999-01-01" "D" "2019-06-01" None (Some "Y") (Some "N")].

Definition result_get {A} (default : A) (r : result A) : A :=
  match r with
  | Ok a => a
  | Raise _ => default
  end.

Definition no_scorer {V} : TurnoutScorer V :=
  mkTurnoutScorer (config_object []) [] 0 (mkDataFrame [] []).

#[local] Existing Instance Model.runtime.

(** the stages of a run on [df6] *)
Definition scorer6 : TurnoutScorer (option string) :=
  Eval vm_compute in result_get no_scorer (TurnoutScorer_init cfg0 df6 6).
Definition cleaned6 : TurnoutScorer cell :=
  Eval vm_compute in result_get no_scorer (_clean_voting_record scorer6).
Definition weighted6 : TurnoutScorer cell :=
  Eval vm_compute in result_get no_scorer (_add_weighted_vote cleaned6).
Definition final6 : TurnoutScorer cell :=
  Eval vm_compute in result_get no_scorer (compute_normalized_turnout scorer6).
Definition voter1_final6 : gmap string cell :=
  Eval vm_compute in default ∅ (rows (voters_df final6) !! 0%nat).
Definition max1_final6 : Q :=
  Eval vm_compute in default 0%Q (Qmax_list (spec.cohort_scores (voters_df final6)
                                               voter1_final6)).

(** the cohort of the specification: raw scores 1.2, 0.6 and 0.0, and a
    voter of another cohort *)
Definition scored_row (eff : string) (w : Q) : gmap string cell :=
  list_to_map [(EFF_REG_DATE_FIELD, CStr eff); (WEIGHTED_TURNOUT_FIELD, CNum w)].

Definition scored : TurnoutScorer cell :=
  mkTurnoutScorer (config_object cfg0) [] 6
    (mkDataFrame [EFF_REG_DATE_FIELD; WEIGHTED_TURNOUT_FIELD]
       [scored_row "2016-11-08" (12 # 10); scored_row "2016-11-08" (6 # 10);
        scored_row "2016-11-08" 0; scored_row "2018-11-06" (1 # 3)]).
Definition normalized : TurnoutScorer cell :=
  Eval vm_compute in result_get no_scorer (_normalize_turnout scored).
Definition voter1_normalized : gmap string cell :=
  Eval vm_compute in default ∅ (rows (voters_df normalized) !! 0%nat).

Definition voter2_normalized : gmap string cell :=
  Eval vm_compute in default ∅ (rows (voters_df normalized) !! 1%nat).

(** one voter, whose date of birth is not in the configured format *)
Definition df_bad_dob : DataFrame (option string) :=
  mkDataFrame file_columns
    [voter "1" "01/01/1980" "D" "2010-06-01" (Some "Y") (Some "Y") (Some "Y")].

(** the raw scores of the run on [df6] *)
Definition turnout6 : TurnoutScorer cell :=
  Eval vm_compute in result_get no_scorer (_add_weighted_turnout cleaned6).

(** no voter is eligible for [g16]: all registered later and none has a
    record of it *)
Definition df_late : DataFrame (option string) :=
  mkDataFrame file_columns
    [voter "1" "1980-01-01" "D" "2017-06-01" None (Some "Y") (Some "N");
     voter "2" "1981-01-01" "R" "2017-06-01" None (Some "N") (Some "Y")].
Definition cleaned_late : TurnoutScorer cell :=
  Eval vm_compute in
    result_get no_scorer (let* s := TurnoutScorer_init cfg0 df_late 6 in
                          _clean_voting_record s).

(** every voter voted in [g18] *)
Definition df_unanimous : DataFrame (option string) :=
  mkDataFrame file_columns
    [voter "1" "1980-01-01" "D" "2010-06-01" (Some "Y") (Some "Y") (Some "Y");
     voter "2" "1981-01-01" "R" "2010-06-01" (Some "Y") (Some "Y") (Some "N");
     voter "3" "1982-01-01" "R" "2010-06-01" (Some "N") (Some "Y") (Some "Y")].
Definition scorer_unanimous : TurnoutScorer (option string) :=
  Eval vm_compute in result_get no_scorer (TurnoutScorer_init cfg0 df_unanimous 6).
Definition cleaned_unanimous : TurnoutScorer cell :=
  Eval vm_compute in result_get no_scorer (_clean_voting_record scorer_unanimous).
Definition weighted_unanimous : TurnoutScorer cell :=
  Eval vm_compute in result_get no_scorer (_add_weighted_vote cleaned_unanimous).

(** two elections named [p] and [p_cleaned_x]: one voter in four voted in
    [p], two in four voted in [p_cleaned_x] *)
Definition cfg_clash : pydict :=
  (groups "%Y-%m-%d" ++
   [("vote_histories", PDict [("p", PStr "11-08-2016");
                              ("p_cleaned_x", PStr "11-06-2018")]);
    ("voted_values", PList [PStr "Y"]);
    ("s3_creds", PDict [])])%list.

Definition voter_clash (id dob : string) (p p_cleaned_x : option string)
  : gmap string (option string) :=
  list_to_map [("id", Some id); ("dob", Some dob); ("party", Some "D");
               ("reg", Some "2010-06-01"); ("p", p); ("p_cleaned_x", p_cleaned_x)].

Definition df_clash : DataFrame (option string) :=
  mkDataFrame ["id"; "dob"; "party"; "reg"; "p"; "p_cleaned_x"]
    [voter_clash "1" "1980-01-01" (Some "Y") (Some "Y");
     voter_clash "2" "1981-01-01" (Some "N") (Some "Y");
     voter_clash "3" "1982-01-01" (Some "N") (Some "N");
     voter_clash "4" "1983-01-01" (Some "N") (Some "N")].
Definition scorer_clash : TurnoutScorer (option string) :=
  Eval vm_compute in result_get no_scorer (TurnoutScorer_init cfg_clash df_clash 6).
Definition cleaned_clash : TurnoutScorer cell :=
  Eval vm_compute in result_get no_scorer (_clean_voting_record scorer_clash).
Definition weighted_clash : TurnoutScorer cell :=
  Eval vm_compute in result_get no_scorer (_add_weighted_vote cleaned_clash).

End Examples.

(* ===================================================================== *)
(** * Properties *)
(* ===================================================================== *)

#[local] Open Scope Z_scope.

(** ** The order on datetimes *)

Lemma lex_compare_antisym (a b : list Z) :
  lex_compare a b = CompOpp (lex_compare b a).
Proof.
  revert b; induction a as [|x a IH]; intros [|y b]; simpl; try reflexivity.
  rewrite (Z.compare_antisym y x).
  destruct (y ?= x); simpl; auto.
Qed.

Lemma lex_compare_refl (a : list Z) : lex_compare a a = Eq.
Proof. induction a as [|x a IH]; simpl; [|rewrite Z.compare_refl]; auto. Qed.

Lemma lex_compare_trans_le (a b c : list Z) :
  lex_compare a b <> Gt -> lex_compare b c <> Gt -> lex_compare a c <> Gt.
Proof.
  revert b c; induction a as [|x a IH]; intros [|y b] [|z c]; simpl;
    try congruence.
  destruct (Z.compare_spec x y), (Z.compare_spec y z), (Z.compare_spec x z);
    try congruence; try lia; eauto.
Qed.

Lemma dt_ltb_leb (a b : datetime) : dt_ltb a b = negb (dt_leb b a).
Proof.
  unfold dt_ltb, dt_leb, dt_compare.
  rewrite (lex_compare_antisym (dt_fields b)).
  destruct (lex_compare (dt_fields a) (dt_fields b)); reflexivity.
Qed.

Lemma dt_le_refl (a : datetime) : dt_le a a.
Proof. unfold dt_le, dt_leb, dt_compare. now rewrite lex_compare_refl. Qed.

Lemma dt_le_total (a b : datetime) : dt_le a b \/ dt_le b a.
Proof.
  unfold dt_le, dt_leb, dt_compare.
  rewrite (lex_compare_antisym (dt_fields b)).
  destruct (lex_compare (dt_fields a) (dt_fields b)); simpl; auto.
Qed.

Lemma dt_le_trans (a b c : datetime) : dt_le a b -> dt_le b c -> dt_le a c.
Proof.
  unfold dt_le, dt_leb, dt_compare. intros Hab Hbc.
  pose proof (lex_compare_trans_le (dt_fields a) (dt_fields b) (dt_fields c)) as T.
  destruct (lex_compare (dt_fields a) (dt_fields b));
    destruct (lex_compare (dt_fields b) (dt_fields c));
    destruct (lex_compare (dt_fields a) (dt_fields c));
    try reflexivity; try discriminate; exfalso; apply T; congruence.
Qed.

(** [dt_min] is the earlier of its arguments. *)
Lemma dt_min_spec (a b : datetime) :
  (dt_min a b = a \/ dt_min a b = b) /\ dt_le (dt_min a b) a /\ dt_le (dt_min a b) b.
Proof.
  unfold dt_min. destruct (dt_leb a b) eqn:E.
  - split; [auto|]. split; [apply dt_le_refl | exact E].
  - split; [auto|]. split; [|apply dt_le_refl].
    destruct (dt_le_total a b) as [L|L]; [unfold dt_le in L; congruence | exact L].
Qed.

Lemma dt_min_le_iff (a b d : datetime) :
  dt_le (dt_min a b) d <-> dt_le a d \/ dt_le b d.
Proof.
  destruct (dt_min_spec a b) as ([E|E] & La & Lb); split.
  - intros L; rewrite E in L; now left.
  - intros [L|L]; [exact (dt_le_trans _ _ _ La L) | exact (dt_le_trans _ _ _ Lb L)].
  - intros L; rewrite E in L; now right.
  - intros [L|L]; [exact (dt_le_trans _ _ _ La L) | exact (dt_le_trans _ _ _ Lb L)].
Qed.

(** the reassignment [if eff_reg_date < reg_date: reg_date = eff_reg_date]
    computes the earlier date *)
Lemma earlier_is_dt_min (reg eff : datetime) :
  dt_leb (if dt_ltb eff reg then eff else reg) =
  dt_leb (dt_min reg eff).
Proof.
  rewrite dt_ltb_leb. unfold dt_min.
  destruct (dt_leb reg eff); reflexivity.
Qed.

(** ** The vote record cleaner *)

Section cleaner.
Import turnout_config turnout_scorer spec.
Context `{PyRuntime}.

Lemma clean_voting_record_parsed fmt values vote eff reg edate d r e :
  strptime edate VHIST_DATE_FORMAT = Some d ->
  strptime (stated_reg_date reg) fmt = Some r ->
  strptime (str_cell eff) fmt = Some e ->
  clean_voting_record fmt (PList values) vote eff reg edate =
  Ok (if dt_leb (dt_min r e) d
      then Some (if py_in vote values then 1 else 0) else None).
Proof.
  intros Hd Hr He. unfold clean_voting_record.
  fold (stated_reg_date reg). rewrite Hd, Hr, He.
  rewrite earlier_is_dt_min.
  destruct (dt_leb (dt_min r e) d); reflexivity.
Qed.

Lemma clean_voting_record_unparsed fmt values vote eff reg edate d :
  strptime edate VHIST_DATE_FORMAT = Some d ->
  strptime (stated_reg_date reg) fmt = None \/ strptime (str_cell eff) fmt = None ->
  clean_voting_record fmt values vote eff reg edate = Ok None.
Proof.
  intros Hd Hn. unfold clean_voting_record.
  fold (stated_reg_date reg). rewrite Hd.
  destruct (strptime (stated_reg_date reg) fmt); [|reflexivity].
  destruct Hn as [Hn|Hn]; [discriminate|]. now rewrite Hn.
Qed.

(** the cleaner returns 0, 1 or null, whatever the row *)
Lemma clean_voting_record_ternary fmt values vote eff reg edate v :
  clean_voting_record fmt values vote eff reg edate = Ok v ->
  v = None \/ v = Some 0 \/ v = Some 1.
Proof.
  unfold clean_voting_record.
  destruct (strptime edate _); [|discriminate].
  destruct (strptime _ fmt); [|intros [= <-]; auto].
  destruct (strptime _ fmt); [|intros [= <-]; auto].
  destruct (dt_leb _ _); [|intros [= <-]; auto].
  destruct (py_contains values vote) as [[|]|]; simpl; intros [= <-]; auto.
Qed.

(** C1.  For a voter and an election whose configured date parses, with the
    eligibility date the earlier of the parsed stated registration date and
    the parsed effective registration date: the cleaner returns 1 when the
    eligibility date is on or before the election date and the vote code is
    among the voted values, 0 when it is on or before the election date and
    the code is not among them, null when the eligibility date is after the
    election date, and null (not an exception) when the stated or the
    effective registration date does not parse with the registration-date
    format. *)
Theorem C1_clean_voting_record_label fmt values vote eff reg edate d :
  strptime edate VHIST_DATE_FORMAT = Some d ->
  let label := clean_voting_record fmt (PList values) vote eff reg edate in
  (forall r e,
      strptime (stated_reg_date reg) fmt = Some r ->
      strptime (str_cell eff) fmt = Some e ->
      (dt_le (dt_min r e) d -> py_in vote values = true -> label = Ok (Some 1))
      /\ (dt_le (dt_min r e) d -> py_in vote values = false -> label = Ok (Some 0))
      /\ (~ dt_le (dt_min r e) d -> label = Ok None))
  /\ (strptime (stated_reg_date reg) fmt = None
      \/ strptime (str_cell eff) fmt = None -> label = Ok None).
Proof.
  intros Hd label. split.
  - intros r e Hr He. unfold label.
    rewrite (clean_voting_record_parsed _ _ _ _ _ _ _ _ _ Hd Hr He).
    unfold dt_le. repeat split.
    + intros -> ->. reflexivity.
    + intros -> ->. reflexivity.
    + intros Hn. destruct (dt_leb (dt_min r e) d); [now destruct Hn | reflexivity].
  - intros Hn. exact (clean_voting_record_unparsed _ _ _ _ _ _ _ Hd Hn).
Qed.

(** X25.  With a null stated registration date, when today's date as [str]
    prints it parses with the registration-date format, the effective
    registration date alone decides: an election on or after it gets a 0/1
    label. *)
Lemma clean_voting_record_null_reg_date fmt values vote eff reg edate d t e :
  is_null_marker reg = true ->
  strptime edate VHIST_DATE_FORMAT = Some d ->
  strptime (date_isoformat today) fmt = Some t ->
  strptime (str_cell eff) fmt = Some e ->
  dt_le e d ->
  clean_voting_record fmt (PList values) vote eff reg edate =
  Ok (Some (if py_in vote values then 1 else 0)).
Proof.
  intros Hn Hd Ht He Hle.
  assert (Hr : strptime (stated_reg_date reg) fmt = Some t)
    by (unfold stated_reg_date; now rewrite Hn).
  rewrite (clean_voting_record_parsed _ _ _ _ _ _ _ _ _ Hd Hr He).
  assert (L : dt_le (dt_min t e) d) by (apply dt_min_le_iff; now right).
  unfold dt_le in L. now rewrite L.
Qed.

(** X26.  With a null stated registration date, when today's date as [str]
    prints it does not parse with the registration-date format, every label
    of the voter is null. *)
Lemma clean_voting_record_null_reg_date_lost fmt values vote eff reg edate d :
  is_null_marker reg = true ->
  strptime edate VHIST_DATE_FORMAT = Some d ->
  strptime (date_isoformat today) fmt = None ->
  clean_voting_record fmt values vote eff reg edate = Ok None.
Proof.
  intros Hn Hd Ht. apply (clean_voting_record_unparsed _ _ _ _ _ _ _ Hd).
  left. unfold stated_reg_date. now rewrite Hn.
Qed.

End cleaner.

(** the example of the specification: stated date 2019-06-01, effective date
    2018-01-01, election of 2018-11-06, code "Y" *)
Lemma C1_witness :
  turnout_scorer.clean_voting_record (H := Model.runtime) "%Y-%m-%d"
    (PList [PStr "Y"]) (Some "Y") (Some "2018-01-01") (Some "2019-06-01")
    "11-06-2018" = Ok (Some 1).
Proof.
  destruct (C1_clean_voting_record_label (H := Model.runtime) "%Y-%m-%d"
              [PStr "Y"] (Some "Y") (Some "2018-01-01") (Some "2019-06-01")
              "11-06-2018" (mkdatetime 2018 11 6 0 0 0 0) eq_refl) as [P _].
  destruct (P (mkdatetime 2019 6 1 0 0 0 0) (mkdatetime 2018 1 1 0 0 0 0)
              eq_refl eq_refl) as [P1 _].
  apply P1; reflexivity.
Defined.

(** the same voter and an election before the eligibility date *)
Example clean_voting_record_not_yet_eligible :
  turnout_scorer.clean_voting_record (H := Model.runtime) "%Y-%m-%d"
    (PList [PStr "Y"]) (Some "Y") (Some "2018-01-01") (Some "2019-06-01")
    "01-01-2017" = Ok None.
Proof. reflexivity. Qed.

(** C6.  A null stated registration date and the registration-date format
    [%m/%d/%Y]: the effective registration date (2018-01-01) is before the
    election (2018-11-06) and the code is a voted value, and the label is
    null: [str(datetime.date.today())] is in ISO format and does not parse
    with the configured format. *)
Theorem C6_null_reg_date_label_lost :
  Model.strptime "01/01/2018" "%m/%d/%Y" = Some (mkdatetime 2018 1 1 0 0 0 0)
  /\ Model.strptime "11-06-2018" turnout_config.VHIST_DATE_FORMAT
     = Some (mkdatetime 2018 11 6 0 0 0 0)
  /\ dt_le (mkdatetime 2018 1 1 0 0 0 0) (mkdatetime 2018 11 6 0 0 0 0)
  /\ turnout_scorer.clean_voting_record (H := Model.runtime) "%m/%d/%Y"
       (PList [PStr "Y"]) (Some "Y") (Some "01/01/2018") None "11-06-2018"
     = Ok None.
Proof. repeat split. Qed.

(** ** Results of loops *)

Lemma Ok_inj {A} (a b : A) : Ok a = Ok b -> a = b.
Proof. congruence. Qed.

Lemma rbind_Ok {A B} (m : result A) (f : A -> result B) (b : B) :
  rbind m f = Ok b -> exists a, m = Ok a /\ f a = Ok b.
Proof. destruct m as [a|e]; simpl; [eauto | discriminate]. Qed.

(** splits a hypothesis [let* x := m in k = Ok b] *)
Ltac bind_inv E x Ex :=
  apply rbind_Ok in E; destruct E as (x & Ex & E).

Section loops.
Import turnout_config.
Context {A B : Type}.

Lemma mapM_Ok (f : A -> result B) (l : list A) (l' : list B) :
  mapM f l = Ok l' -> Forall2 (fun x y => f x = Ok y) l l'.
Proof.
  revert l'; induction l as [|x l IH]; simpl; intros l' E.
  - injection E as <-. constructor.
  - destruct (f x) as [y|] eqn:Ef; simpl in E; [|discriminate].
    destruct (mapM f l) as [ys|]; simpl in E; [|discriminate].
    injection E as <-. constructor; auto.
Qed.

End loops.

(** ** The stable sort *)

Section sorted_properties.
Import turnout_scorer.
Context {A K : Type} (key : A -> K) (leb : K -> K -> bool).
Hypothesis leb_total : forall a b, leb a b = false -> leb b a = true.
Hypothesis leb_trans : forall a b c, leb a b = true -> leb b c = true -> leb a c = true.

Let R (a b : A) : Prop := leb (key a) (key b) = true.

Lemma insert_sorted_Permutation (x : A) (l : list A) :
  Permutation (insert_sorted key leb x l) (x :: l).
Proof.
  induction l as [|y l IH]; simpl; [reflexivity|].
  destruct (leb (key x) (key y)); [reflexivity|].
  rewrite IH. apply perm_swap.
Qed.

Lemma sorted_Permutation (l : list A) : Permutation (sorted key leb l) l.
Proof.
  induction l as [|x l IH]; simpl; [reflexivity|].
  rewrite insert_sorted_Permutation. now constructor.
Qed.

Lemma insert_sorted_StronglySorted (x : A) (l : list A) :
  StronglySorted R l -> StronglySorted R (insert_sorted key leb x l).
Proof.
  induction 1 as [|y l Hs IH Hy]; simpl.
  - repeat constructor.
  - destruct (leb (key x) (key y)) eqn:E.
    + constructor; [constructor; assumption|].
      constructor; [exact E|].
      eapply Forall_impl; [exact Hy|]. intros z Hz. exact (leb_trans _ _ _ E Hz).
    + constructor; [exact IH|].
      rewrite insert_sorted_Permutation.
      constructor; [exact (leb_total _ _ E) | exact Hy].
Qed.

Lemma sorted_StronglySorted (l : list A) : StronglySorted R (sorted key leb l).
Proof.
  induction l as [|x l IH]; simpl; [constructor|].
  now apply insert_sorted_StronglySorted.
Qed.

End sorted_properties.

Lemma StronglySorted_impl_In {A} (R R' : A -> A -> Prop) (l : list A) :
  (forall a b, In a l -> In b l -> R a b -> R' a b) ->
  StronglySorted R l -> StronglySorted R' l.
Proof.
  intros HR. induction 1 as [|x l Hs IH Hx]; constructor.
  - apply IH. intros a b Ha Hb. apply HR; right; assumption.
  - rewrite List.Forall_forall in *. intros y Hy.
    apply HR; [left; reflexivity | right; assumption | apply Hx, Hy].
Qed.

Lemma key_leb_total (a b : option datetime) :
  turnout_scorer.key_leb a b = false -> turnout_scorer.key_leb b a = true.
Proof.
  destruct a as [x|], b as [y|]; simpl; try congruence.
  intros E. destruct (dt_le_total x y) as [L|L]; unfold dt_le in L; congruence.
Qed.

Lemma key_leb_trans (a b c : option datetime) :
  turnout_scorer.key_leb a b = true -> turnout_scorer.key_leb b c = true ->
  turnout_scorer.key_leb a c = true.
Proof.
  destruct a as [x|], b as [y|], c as [z|]; simpl; try congruence.
  apply dt_le_trans.
Qed.

(** ** The effective registration date *)

Section effective_date.
Import turnout_config turnout_scorer spec.
Context `{PyRuntime}.

Lemma strptime_val_Ok v fmt d :
  strptime_val v fmt = Ok d <-> exists s, v = PStr s /\ strptime s fmt = Some d.
Proof.
  unfold strptime_val. split.
  - destruct v as [|s| |]; try discriminate.
    destruct (strptime s fmt) eqn:E; [|discriminate].
    intros [= <-]. eauto.
  - intros (s & -> & ->). reflexivity.
Qed.

Lemma sort_vote_histories_Ok vhist svh :
  _sort_vote_histories vhist = Ok svh ->
  exists dct, parsed_histories vhist dct
              /\ svh = sorted (dict_get dct) key_leb (dict_keys dct).
Proof.
  unfold _sort_vote_histories. intros E.
  destruct (mapM _ vhist) as [dct|] eqn:M; simpl in E; [|discriminate].
  injection E as <-. exists dct. split; [|reflexivity].
  apply mapM_Ok in M. unfold parsed_histories.
  eapply Forall2_impl; [exact M|]. intros [k v] [k' d]; simpl.
  destruct (strptime_val v VHIST_DATE_FORMAT); simpl; [|discriminate].
  intros [= <- <-]. auto.
Qed.

Lemma parsed_histories_keys vhist dct :
  parsed_histories vhist dct -> dict_keys dct = dict_keys vhist.
Proof.
  induction 1 as [|[k v] [k' d] l l' [_ E] _ IH]; simpl in *; [reflexivity|].
  now rewrite E, IH.
Qed.

Lemma parsed_histories_get vhist dct k :
  parsed_histories vhist dct -> dict_get dct k = election_date vhist k.
Proof.
  unfold election_date.
  induction 1 as [|[k1 v] [k2 d] l l' [P E] _ IH]; simpl in *; [reflexivity|].
  subst k2. destruct (String.eqb k1 k); [|exact IH].
  apply strptime_val_Ok in P as (s & -> & ->). reflexivity.
Qed.

Lemma dict_get_is_Some {V} (d : list (string * V)) k :
  In k (dict_keys d) -> exists v, dict_get d k = Some v.
Proof.
  induction d as [|[k' v] d IH]; simpl; [tauto|].
  destruct (String.eqb_spec k' k); [eauto|].
  intros [E|I]; [congruence | auto].
Qed.

Lemma election_date_item vhist e d fmt :
  election_date vhist e = Some d ->
  (let* v := dict_item vhist e in strptime_val v VHIST_DATE_FORMAT) = Ok d
  /\ (let* d := (let* v := dict_item vhist e in strptime_val v VHIST_DATE_FORMAT) in
      strftime d fmt) = strftime d fmt.
Proof.
  unfold election_date, dict_item.
  destruct (dict_get vhist e) as [[|s| |]|]; try discriminate.
  simpl. intros ->. auto.
Qed.

Lemma first_election_date_find svh vhist (cellof : string -> option string) pre suf :
  svh = (pre ++ suf)%list ->
  first_election_date svh vhist (map cellof suf) (List.length pre) =
  match List.find (fun e => recorded (cellof e)) suf with
  | Some e => let* v := dict_item vhist e in strptime_val v VHIST_DATE_FORMAT
  | None => Ok today
  end.
Proof.
  revert pre; induction suf as [|e suf IH]; intros pre E; simpl; [reflexivity|].
  unfold recorded at 1. destruct (negb (is_null_marker (cellof e))).
  - unfold list_item. subst svh. rewrite list_lookup_middle by reflexivity.
    reflexivity.
  - specialize (IH (pre ++ [e])%list).
    rewrite length_app in IH. simpl in IH.
    replace (List.length pre + 1)%nat with (S (List.length pre)) in IH by lia.
    apply IH. rewrite <- app_assoc. exact E.
Qed.

Lemma find_first_sorted {A} (R : A -> A -> Prop) (P : A -> bool) l e :
  StronglySorted R l -> List.find P l = Some e ->
  forall e', In e' l -> P e' = true -> e' = e \/ R e e'.
Proof.
  induction 1 as [|x l Hs IH Hx]; simpl; [discriminate|].
  destruct (P x) eqn:Px.
  - intros [= <-] e' [<-|I] _; [now left|].
    right. rewrite List.Forall_forall in Hx. now apply Hx.
  - intros F e' [<-|I] Pe; [congruence|]. now apply IH.
Qed.

(** C2.  The elections are scanned in ascending order of their dates (the
    scan order is a sorted permutation of the configured elections).  The
    effective registration date is the date of the first election in that
    order whose raw vote-code cell is neither null nor ['null'] (so no
    election with such a cell is older), it is today's date when there is no
    such election, and it is printed with the registration-date format. *)
Theorem C2_effective_regis_date vhist svh fmt (cellof : string -> option string) :
  _sort_vote_histories vhist = Ok svh ->
  Permutation svh (dict_keys vhist)
  /\ StronglySorted
       (fun a b => exists da db, election_date vhist a = Some da
                                 /\ election_date vhist b = Some db /\ dt_le da db) svh
  /\ (forall e, List.find (fun e => recorded (cellof e)) svh = Some e ->
        exists d, election_date vhist e = Some d
                  /\ effective_regis_date svh vhist fmt (map cellof svh) = strftime d fmt
                  /\ forall e' d', In e' svh -> recorded (cellof e') = true ->
                                   election_date vhist e' = Some d' -> dt_le d d')
  /\ (List.find (fun e => recorded (cellof e)) svh = None ->
        effective_regis_date svh vhist fmt (map cellof svh) = strftime today fmt).
Proof.
  intros S. destruct (sort_vote_histories_Ok _ _ S) as (dct & P & ->).
  pose proof (parsed_histories_keys _ _ P) as Keys.
  set (svh := sorted (dict_get dct) key_leb (dict_keys dct)).
  assert (Perm : Permutation svh (dict_keys vhist)).
  { unfold svh. rewrite sorted_Permutation. now rewrite Keys. }
  assert (Dates : forall e, In e svh -> exists d, election_date vhist e = Some d).
  { intros e I. rewrite <- (parsed_histories_get _ _ e P).
    apply dict_get_is_Some. rewrite Keys.
    apply (Permutation_in _ Perm I). }
  assert (Sorted : StronglySorted
            (fun a b => exists da db, election_date vhist a = Some da
                          /\ election_date vhist b = Some db /\ dt_le da db) svh).
  { eapply StronglySorted_impl_In;
      [|exact (sorted_StronglySorted (dict_get dct) key_leb
                 key_leb_total key_leb_trans (dict_keys dct))].
    intros a b Ia Ib. cbv beta zeta. rewrite !(parsed_histories_get _ _ _ P).
    destruct (Dates a Ia) as [da ->], (Dates b Ib) as [db ->].
    simpl. intros L. exists da, db. auto. }
  pose proof (first_election_date_find svh vhist cellof [] svh eq_refl) as F.
  simpl in F. repeat split; [exact Perm | exact Sorted | |].
  - intros e Fe.
    destruct (Dates e (proj1 (List.find_some _ _ Fe))) as [d Ed].
    exists d. split; [exact Ed|]. split.
    + unfold effective_regis_date. rewrite F, Fe.
      apply (election_date_item _ _ _ fmt Ed).
    + intros e' d' I' Re' Ed'.
      destruct (find_first_sorted _ _ _ _ Sorted Fe e' I' Re') as [->|(da & db & A & B & L)].
      * assert (d' = d) as -> by congruence. apply dt_le_refl.
      * congruence.
  - intros Fn. unfold effective_regis_date. now rewrite F, Fn.
Qed.

End effective_date.

(** ** Validation of the election dates *)

Section config_validation.
Import turnout_config spec.
Context `{PyRuntime}.

Lemma check_election_dates_spec vhist :
  check_election_dates vhist =
  match first_offending vhist with
  | Some (elec, _) => Raise (ValueError (date_format_msg elec))
  | None => Ok tt
  end.
Proof.
  unfold first_offending.
  induction vhist as [|[elec elecdate] vhist IH]; simpl; [reflexivity|].
  unfold matches_vhist_format at 1. simpl.
  destruct (strptime (py_str elecdate) VHIST_DATE_FORMAT); simpl; auto.
Qed.

Lemma no_value_error_bind {A B} (m : result A) (f : A -> result B) :
  no_value_error m -> (forall a, m = Ok a -> no_value_error (f a)) ->
  no_value_error (rbind m f).
Proof. destruct m; simpl; auto. Qed.

Lemma check_required_fields_no_value_error cfg :
  no_value_error (check_required_fields cfg).
Proof. unfold check_required_fields. case_decide; simpl; auto. Qed.

Lemma dict_item_no_value_error {V} (d : list (string * V)) k :
  no_value_error (dict_item d k).
Proof. unfold dict_item. destruct (dict_get d k); simpl; auto. Qed.

Lemma check_sub_dicts_no_value_error reqs cfg :
  no_value_error (check_sub_dicts reqs cfg).
Proof.
  induction reqs as [|[req_field vlues] reqs IH]; simpl; [exact I|].
  apply no_value_error_bind; [apply dict_item_no_value_error|].
  intros [|s|l|sub] _; simpl; auto.
  case_decide; simpl; auto.
Qed.

Lemma check_lists_no_value_error elms cfg :
  no_value_error (check_lists elms cfg).
Proof.
  induction elms as [|e elms IH]; simpl; [exact I|].
  destruct (dict_get cfg e) as [[|s|l|d]|]; simpl; auto.
Qed.

Lemma TurnoutConfig_init_dates cfg vhist :
  checks_before_dates cfg = Ok tt ->
  dict_get cfg VOTE_HISTORIES = Some (PDict vhist) ->
  TurnoutConfig_init cfg =
  (check_election_dates vhist >>
   check_lists ELEMENTS_REQ_IN_VALUES_VF cfg >>
   let* vv := dict_item cfg "voted_values" in
   Ok {| config := cfg; _parties_included := None;
         _filter_on_parties := true; voted_values := vv |}).
Proof.
  intros Hc Hv. unfold TurnoutConfig_init, _validated_config, check_vote_histories.
  rewrite Hc. unfold dict_item at 1. rewrite Hv. simpl.
  destruct (check_election_dates vhist) as [[]|]; reflexivity.
Qed.

(** C8, as the code has it.  For a configuration that passes the checks
    made before the election dates are looked at (the required top-level
    keys, the three groups being dicts with exactly their sub-keys) and
    whose [vote_histories] is a dict: when some election date is not
    accepted by [strptime] with [%m-%d-%Y], construction fails with the
    [ValueError] whose message names the first such election in iteration
    order.  For every configuration: when all election dates are accepted,
    construction raises no [ValueError]. *)
Theorem C8_election_date_format cfg :
  (forall vhist elec elecdate,
      checks_before_dates cfg = Ok tt ->
      dict_get cfg VOTE_HISTORIES = Some (PDict vhist) ->
      first_offending vhist = Some (elec, elecdate) ->
      TurnoutConfig_init cfg = Raise (ValueError (date_format_msg elec))
      /\ In (elec, elecdate) vhist
      /\ matches_vhist_format elecdate = false
      /\ exists pre post, date_format_msg elec = pre +:+ elec +:+ post)
  /\ ((forall vhist, dict_get cfg VOTE_HISTORIES = Some (PDict vhist) ->
        first_offending vhist = None) ->
      no_value_error (TurnoutConfig_init cfg)).
Proof.
  split.
  - intros vhist elec elecdate Hc Hv Hf.
    rewrite (TurnoutConfig_init_dates _ _ Hc Hv), check_election_dates_spec, Hf.
    split; [reflexivity|].
    apply List.find_some in Hf as [Hi Hm]. simpl in Hm.
    split; [exact Hi|]. split; [now destruct (matches_vhist_format elecdate)|].
    eexists "date format for ", _. reflexivity.
  - intros Hall. unfold TurnoutConfig_init.
    apply no_value_error_bind.
    + unfold _validated_config. apply no_value_error_bind.
      * unfold checks_before_dates. apply no_value_error_bind.
        -- apply check_required_fields_no_value_error.
        -- intros _ _. apply check_sub_dicts_no_value_error.
      * intros _ _. apply no_value_error_bind.
        -- unfold check_vote_histories.
           apply no_value_error_bind; [apply dict_item_no_value_error|].
           intros [|s|l|vhist] Hv; simpl; auto.
           rewrite check_election_dates_spec, (Hall vhist); [exact I|].
           unfold dict_item in Hv.
           destruct (dict_get cfg VOTE_HISTORIES); congruence.
        -- intros _ _. apply check_lists_no_value_error.
    + intros _ _. apply no_value_error_bind.
      * apply dict_item_no_value_error.
      * intros vv _. exact I.
Qed.

End config_validation.

Lemma C8_witness :
  turnout_config.TurnoutConfig_init (H := Model.runtime) Examples.cfg_bad_date
  = Raise (ValueError (turnout_config.date_format_msg "g16")).
Proof.
  apply (proj1 (C8_election_date_format (H := Model.runtime) Examples.cfg_bad_date)
           [("g18", PStr "11-06-2018"); ("g16", PStr "2016-11-08")]
           "g16" (PStr "2016-11-08")).
  - vm_compute. reflexivity.
  - reflexivity.
  - reflexivity.
Defined.

(** C8, as stated, fails: a configuration whose election date does not match
    and which lacks required keys is refused with a [KeyError], not with the
    format error. *)
Lemma C8_counterexample :
  dict_get Examples.cfg_missing turnout_config.VOTE_HISTORIES
  = Some (PDict [("g16", PStr "2016-11-08")])
  /\ spec.matches_vhist_format (H := Model.runtime) (PStr "2016-11-08") = false
  /\ (exists msg, turnout_config.TurnoutConfig_init (H := Model.runtime)
                    Examples.cfg_missing = Raise (KeyError msg))
  /\ spec.no_value_error
       (turnout_config.TurnoutConfig_init (H := Model.runtime) Examples.cfg_missing).
Proof.
  split; [reflexivity|]. split; [reflexivity|]. split.
  - eexists. vm_compute. reflexivity.
  - vm_compute. reflexivity.
Qed.

(** [strptime] with [%m-%d-%Y] also accepts months and days of one digit,
    and refuses a day that the month does not have *)
Example vhist_format_accepts :
  spec.matches_vhist_format (H := Model.runtime) (PStr "1-5-2016") = true
  /\ spec.matches_vhist_format (H := Model.runtime) (PStr "02-30-2016") = false.
Proof. split; reflexivity. Qed.

(** the example of the specification: elections E1 (2016-01-01),
    E2 (2018-01-01), E3 (2020-01-01) and the codes null, "Y", null *)
Lemma C2_witness :
  turnout_scorer._sort_vote_histories (H := Model.runtime) Examples.vhist_example
  = Ok ["E1"; "E2"; "E3"]
  /\ turnout_scorer.effective_regis_date (H := Model.runtime) ["E1"; "E2"; "E3"]
       Examples.vhist_example "%Y-%m-%d" [None; Some "Y"; None]
     = Ok "2018-01-01".
Proof.
  assert (S : turnout_scorer._sort_vote_histories (H := Model.runtime)
                Examples.vhist_example = Ok ["E1"; "E2"; "E3"])
    by (vm_compute; reflexivity).
  split; [exact S|].
  destruct (C2_effective_regis_date (H := Model.runtime) Examples.vhist_example
              ["E1"; "E2"; "E3"] "%Y-%m-%d" Examples.cells_example S)
    as (_ & _ & Hf & _).
  destruct (Hf "E2" eq_refl) as (d & Ed & Eq & _).
  change (map Examples.cells_example ["E1"; "E2"; "E3"])
    with [None; Some "Y"; None] in Eq.
  rewrite Eq. vm_compute in Ed. injection Ed as <-. reflexivity.
Defined.

(** ** Preprocessing *)

Lemma length_remove_dups_le {A} `{EqDecision A} (l : list A) :
  (List.length (remove_dups l) <= List.length l)%nat.
Proof.
  induction l as [|x l IH]; simpl; [lia|].
  case_decide; simpl; lia.
Qed.

Lemma length_remove_dups_NoDup {A} `{EqDecision A} (l : list A) :
  List.length (remove_dups l) = List.length l -> NoDup l.
Proof.
  induction l as [|x l IH]; simpl; [constructor|].
  pose proof (length_remove_dups_le l).
  case_decide; simpl; intros E; [lia|].
  constructor; [assumption | apply IH; lia].
Qed.

Lemma withColumn_length {V} (df df' : DataFrame V) name expr :
  withColumn df name expr = Ok df' ->
  List.length (rows df') = List.length (rows df).
Proof.
  unfold withColumn.
  destruct (turnout_config.mapM _ _) as [rows'|] eqn:M; simpl; [|discriminate].
  intros [= <-]. simpl. apply mapM_Ok, Forall2_length in M. auto.
Qed.

Section preprocessing.
Import turnout_config turnout_scorer spec.
Context `{PyRuntime}.

Lemma preprocess_select_locals c df vdf pti pf c2 :
  _preprocess_vf_select c df = Ok (vdf, pti, pf, c2) ->
  (forall c1, parties_included c = Ok (None, c1) -> pti = None /\ pf = None)
  /\ (forall v c1, parties_included c = Ok (Some v, c1) ->
        pti = Some v /\ exists f, pf = Some f).
Proof.
  unfold _preprocess_vf_select.
  destruct (validate_against_voter_file _ _); simpl; [|discriminate].
  destruct (columns_to_keep c); simpl; [|discriminate].
  destruct (select df _); simpl; [|discriminate].
  destruct (parties_included c) as [[[v|] c1]|] eqn:P; simpl; [| |discriminate].
  - assert (P1 : parties_included c1 = Ok (Some v, c1)).
    { unfold parties_included in P |- *.
      destruct (_parties_included c) eqn:Pc.
      - injection P as <- <-. now rewrite Pc.
      - destruct (_filter_on_parties c); [|discriminate].
        destruct (config_get _ _); [|discriminate].
        destruct (py_len _); simpl in P; [|discriminate].
        destruct (_ =? _)%nat; [discriminate|].
        injection P as <- <-. reflexivity. }
    rewrite P1. simpl.
    destruct (column_name c1 "party_field") as [f|]; simpl; [|discriminate].
    destruct (filter_isin _ f v); simpl; [|discriminate].
    intros [= <- <- <- <-]. split; [discriminate|].
    intros v' c1' [= <- <-]. eauto.
  - intros [= <- <- <- <-]. split; [auto | discriminate].
Qed.

(** the party filter is off when [parties_included] is absent, null or the
    empty list *)
Lemma parties_included_disabled c :
  _parties_included c = None -> _filter_on_parties c = true ->
  config_get (turnout_config.config c) "parties_included" = None
  \/ config_get (turnout_config.config c) "parties_included" = Some (PList []) ->
  exists c1, parties_included c = Ok (None, c1).
Proof.
  intros Pn Pf G. unfold parties_included. rewrite Pn, Pf.
  destruct G as [-> | ->]; simpl; eauto.
Qed.

(** C9.  When the table obtained by the projection and the party filter has
    two equal rows, preprocessing raises the [RuntimeError] about duplicates:
    the year of birth is not computed, the scorer is not constructed and a
    run raises.  When preprocessing returns, the table has exactly the rows
    of the filtered table: none was removed. *)
Theorem C9_duplicate_rows_abort c df vdf pti pf c2 :
  _preprocess_vf_select c df = Ok (vdf, pti, pf, c2) ->
  (~ NoDup (rows vdf) ->
     _preprocess_vf c df = Raise (RuntimeError duplicates_msg)
     /\ forall cfg n, TurnoutConfig_init cfg = Ok c ->
                      raises (TurnoutScorer_init cfg df n) /\ raises (run cfg df))
  /\ (forall out c', _preprocess_vf c df = Ok (out, c') ->
        NoDup (rows vdf) /\ List.length (rows out) = List.length (rows vdf)).
Proof.
  intros S. unfold _preprocess_vf. rewrite S. simpl. unfold count, distinct. simpl.
  split.
  - intros ND.
    assert (P : _preprocess_vf c df = Raise (RuntimeError duplicates_msg)).
    { unfold _preprocess_vf. rewrite S. simpl. unfold count, distinct. simpl.
      destruct (rows vdf) as [|r rs] eqn:R; [destruct ND; constructor|].
      rewrite <- R in *. replace (List.length (rows vdf) =? 0)%nat with false
        by (rewrite R; reflexivity).
      destruct (Nat.eqb_spec (List.length (remove_dups (rows vdf)))
                  (List.length (rows vdf))) as [E|E]; [|reflexivity].
      destruct ND. now apply length_remove_dups_NoDup. }
    unfold _preprocess_vf in P. rewrite S in P. simpl in P.
    unfold count, distinct in P. simpl in P.
    split; [exact P|].
    intros cfg n I.
    assert (T : forall n, raises (TurnoutScorer_init cfg df n)).
    { clear n. intros n. unfold TurnoutScorer_init. rewrite I. simpl.
      destruct (s3_creds c); simpl; [|eexists; reflexivity].
      destruct (vote_histories_of c); simpl; [|eexists; reflexivity].
      unfold _preprocess_vf. rewrite S. simpl. unfold count, distinct. simpl.
      rewrite P. simpl. eexists; reflexivity. }
    split; [exact (T n)|]. destruct (T 6) as [e T6]. unfold run. rewrite T6.
    eexists; reflexivity.
  - intros out c'.
    destruct (List.length (rows vdf) =? 0)%nat.
    { destruct (local _ pti); simpl; [|discriminate].
      destruct (py_join _ _); simpl; [|discriminate].
      destruct (local _ pf); simpl; discriminate. }
    destruct (Nat.eqb_spec (List.length (remove_dups (rows vdf)))
                (List.length (rows vdf))) as [E|E]; simpl; [|discriminate].
    destruct (formats_dob c2); simpl; [|discriminate].
    destruct (column_name c2 "dob_field"); simpl; [|discriminate].
    destruct (resolve vdf _); simpl; [|discriminate].
    intros [= <- <-]. split; [now apply length_remove_dups_NoDup|].
    simpl. apply List.length_map.
Qed.

(** C10.  When the table obtained by the projection has no row,
    preprocessing raises, whether the party filter is on or off, and the
    year of birth is not computed.  With the filter off (the property
    [parties_included] is [None]) the exception is the [UnboundLocalError]
    of the local [parties_to_include], which only the filter branch
    assigns; with the filter on and a list of party names it is the
    [ValueError] that lists them. *)
Theorem C10_zero_rows_raise c df vdf pti pf c2 :
  _preprocess_vf_select c df = Ok (vdf, pti, pf, c2) ->
  count vdf = 0%nat ->
  raises (_preprocess_vf c df)
  /\ (forall c1, parties_included c = Ok (None, c1) ->
        _preprocess_vf c df = Raise (UnboundLocalError "parties_to_include"))
  /\ (_parties_included c = None -> _filter_on_parties c = true ->
      config_get (turnout_config.config c) "parties_included" = None
      \/ config_get (turnout_config.config c) "parties_included" = Some (PList []) ->
      _preprocess_vf c df = Raise (UnboundLocalError "parties_to_include"))
  /\ (forall l names c1 f,
        parties_included c = Ok (Some (PList l), c1) ->
        strs_of l = Ok names -> pf = Some f ->
        _preprocess_vf c df = Raise (ValueError (join "," names +:+ invalid_party_msg f))).
Proof.
  intros S Z. destruct (preprocess_select_locals _ _ _ _ _ _ S) as [Off On].
  unfold _preprocess_vf. rewrite S. simpl. rewrite Z. simpl.
  split; [|split; [|split]].
  - destruct (local _ pti); simpl; [|eexists; reflexivity].
    destruct (py_join _ _); simpl; [|eexists; reflexivity].
    destruct (local _ pf); simpl; eexists; reflexivity.
  - intros c1 P. destruct (Off c1 P) as [-> _]. reflexivity.
  - intros Pn Pf G.
    destruct (parties_included_disabled c Pn Pf G) as [c1 P].
    destruct (Off c1 P) as [-> _]. reflexivity.
  - intros l names c1 f P N ->. destruct (On _ _ P) as [-> _].
    simpl. rewrite N. reflexivity.
Qed.

End preprocessing.

Lemma C9_witness :
  turnout_scorer._preprocess_vf (H := Model.runtime)
    (Examples.config_object Examples.cfg0) Examples.df_dup
  = Raise (RuntimeError turnout_scorer.duplicates_msg).
Proof.
  destruct (turnout_scorer._preprocess_vf_select
              (Examples.config_object Examples.cfg0) Examples.df_dup)
    as [[[[vdf pti] pf] c2]|] eqn:S.
  - apply (C9_duplicate_rows_abort (H := Model.runtime) _ _ _ _ _ _ S).
    vm_compute in S. injection S as <- _ _ _. simpl.
    intros ND. apply NoDup_cons in ND as [_ ND].
    apply NoDup_cons in ND as [N _]. apply N. left.
  - vm_compute in S. discriminate S.
Defined.

Lemma C10_witness :
  turnout_scorer._preprocess_vf (H := Model.runtime)
    (Examples.config_object Examples.cfg0) Examples.df_empty
  = Raise (UnboundLocalError "parties_to_include").
Proof.
  destruct (turnout_scorer._preprocess_vf_select
              (Examples.config_object Examples.cfg0) Examples.df_empty)
    as [[[[vdf pti] pf] c2]|] eqn:S.
  - refine (proj1 (proj2 (proj2 (C10_zero_rows_raise (H := Model.runtime)
                                     _ _ _ _ _ _ S _))) _ _ _).
    + vm_compute in S. injection S as <- _ _ _. reflexivity.
    + reflexivity.
    + reflexivity.
    + left. reflexivity.
  - vm_compute in S. discriminate S.
Defined.

(** with the party filter on and no voter of the configured party, the
    descriptive error is raised *)
Example preprocess_invalid_party :
  turnout_scorer._preprocess_vf (H := Model.runtime)
    (Examples.config_object (Examples.cfg_party [PStr "G"; PStr "L"])) Examples.df0
  = Raise (ValueError ("G,L" +:+ turnout_scorer.invalid_party_msg "party")).
Proof. vm_compute. reflexivity. Qed.

(** ** The raw score *)

Section weighted_sum.
Import turnout_scorer spec.

Lemma Qsum_nil : Qsum [] = 0%Q.
Proof. reflexivity. Qed.

Lemma Qsum_cons (x : Q) (l : list Q) : Qsum (x :: l) = (x + Qsum l)%Q.
Proof. reflexivity. Qed.

Lemma py_sum_spec (l : list cell) (acc w : Q) :
  py_sum acc l = Ok w -> (w == acc + Qsum (omap number_of l))%Q.
Proof.
  revert acc; induction l as [|c l IH]; intros acc E.
  - simpl in E. injection E as <-. cbn [omap list_omap]. rewrite Qsum_nil. lra.
  - destruct c as [|s|n|q]; simpl in E; try discriminate;
      cbn [omap list_omap number_of]; rewrite Qsum_cons, (IH _ E); lra.
Qed.

Lemma number_of_filter_not_null (l : list cell) :
  omap number_of (List.filter not_null_cell l) = omap number_of l.
Proof.
  induction l as [|c l IH]; simpl; [reflexivity|].
  destruct c as [|s|n|q]; simpl.
  - exact IH.
  - destruct (negb (String.eqb s "null")); simpl; exact IH.
  - f_equal. exact IH.
  - f_equal. exact IH.
Qed.

Lemma get_weighted_sum_spec (arr : list cell) (w : Q) :
  get_weighted_sum arr = Ok w -> (w == Qsum (omap number_of arr))%Q.
Proof.
  unfold get_weighted_sum. intros E. apply py_sum_spec in E.
  rewrite number_of_filter_not_null in E. rewrite E. lra.
Qed.

Lemma py_sum_numbers (l : list (option Q)) (acc : Q) :
  exists w, py_sum acc (List.filter not_null_cell (map cell_of_num l)) = Ok w.
Proof.
  revert acc; induction l as [|[q|] l IH]; simpl; intros acc; eauto.
Qed.

Lemma number_of_cell_of_num (l : list (option Q)) :
  omap number_of (map cell_of_num l) = omap id l.
Proof.
  induction l as [|[q|] l IH]; simpl; [reflexivity | f_equal; exact IH | exact IH].
Qed.

(** on the weighted votes of a voter (numbers or nulls, one per election)
    [get_weighted_sum] returns the sum of the non-null values; nulls are
    left out of the sum; when all are null the result is the empty sum, 0 *)
Lemma get_weighted_sum_numbers (weighted : list (option Q)) :
  exists w, get_weighted_sum (map cell_of_num weighted) = Ok w
            /\ (w == Qsum (omap id weighted))%Q
            /\ List.filter not_null_cell (map cell_of_num weighted)
               = map CNum (omap id weighted)
            /\ (Forall (fun v => v = None) weighted -> w = 0%Q).
Proof.
  destruct (py_sum_numbers weighted 0) as [w E]. exists w.
  split; [exact E|]. split; [|split].
  - rewrite (get_weighted_sum_spec _ _ E), number_of_cell_of_num. reflexivity.
  - clear. induction weighted as [|[q|] l IH]; simpl;
      [reflexivity | f_equal; exact IH | exact IH].
  - intros A. unfold get_weighted_sum in E.
    assert (N : List.filter not_null_cell (map cell_of_num weighted) = []).
    { clear E. induction A as [|v l -> _ IH]; simpl; auto. }
    rewrite N in E. simpl in E. now injection E as <-.
Qed.

End weighted_sum.

Example get_weighted_sum_example :
  exists w, turnout_scorer.get_weighted_sum [CNum (3#5); CNull; CNum (1#2)] = Ok w
            /\ (w == 11 # 10)%Q.
Proof. eexists. split; reflexivity. Qed.

(** ** The turnout weights *)

Lemma list_ascii_of_string_app (a b : string) :
  list_ascii_of_string (a +:+ b)
  = (list_ascii_of_string a ++ list_ascii_of_string b)%list.
Proof. induction a as [|c a IH]; simpl; [reflexivity | now rewrite IH]. Qed.

(** a weighted column never has the name of a cleaned column *)
Lemma weighted_name_not_cleaned (a b : string) :
  a +:+ "_weighted" <> b +:+ "_cleaned".
Proof.
  intros E. apply (f_equal list_ascii_of_string) in E.
  rewrite !list_ascii_of_string_app in E.
  apply (f_equal (@List.rev ascii)) in E.
  rewrite !List.rev_app_distr in E. simpl in E. congruence.
Qed.

Lemma Forall2_compose {A B C} (P : A -> B -> Prop) (Q : B -> C -> Prop)
    (R : A -> C -> Prop) (l1 : list A) (l2 : list B) (l3 : list C) :
  (forall x y z, P x y -> Q y z -> R x z) ->
  Forall2 P l1 l2 -> Forall2 Q l2 l3 -> Forall2 R l1 l3.
Proof.
  intros HR H12; revert l3; induction H12 as [|x y l1 l2 Pxy _ IH];
    intros l3 H23; inversion H23; subst; constructor; eauto.
Qed.

Lemma Forall2_diagonal {A} (R : A -> A -> Prop) (l : list A) :
  (forall x, R x x) -> Forall2 R l l.
Proof. intros HR; induction l; constructor; auto. Qed.

Section weights.
Import turnout_config turnout_scorer spec.

Lemma num_of_cell_Ok c o :
  num_of_cell c = Ok o -> o = number_of c /\ forall s, c <> CStr s.
Proof.
  destruct c; simpl; intros E; try discriminate; injection E as <-;
    split; congruence.
Qed.

Lemma label_not_text_ternary c :
  label_or_text c -> (forall s, c <> CStr s) -> ternary c.
Proof.
  unfold ternary. destruct c as [|s|n|q]; simpl; intros L N.
  - auto.
  - now destruct (N s).
  - destruct L as [-> | ->]; auto.
  - destruct L.
Qed.

Lemma column_values_spec t name vals :
  column_values t name = Ok vals ->
  vals = omap number_of (column t name)
  /\ Forall (fun c => forall s, c <> CStr s) (column t name).
Proof.
  unfold column_values, column.
  destruct (mapM _ (rows t)) as [vs|] eqn:M; simpl; [|discriminate].
  intros [= <-]. apply mapM_Ok in M.
  induction M as [|r o rs os E _ [IH1 IH2]]; simpl; [split; [reflexivity|constructor]|].
  apply num_of_cell_Ok in E as [-> N].
  split; [|constructor; assumption].
  destruct (number_of (cell_get r name)); simpl; [f_equal|]; exact IH1.
Qed.

Lemma ternary_column_counts (col : list cell) :
  Forall ternary col ->
  (Qsum (omap number_of col) == inject_Z (Z.of_nat (count_voted col)))%Q
  /\ List.length (omap number_of col) = count_eligible col.
Proof.
  unfold count_voted, count_eligible.
  induction 1 as [|c col T _ [IH1 IH2]]; [split; reflexivity|].
  destruct T as [-> | [-> | ->]]; cbn [omap list_omap number_of List.filter
    bool_decide decide_rel negb List.length]; simpl bool_decide.
  - split; assumption.
  - rewrite Qsum_cons, IH1. split; [|simpl; now rewrite IH2].
    change (inject_Z 0) with 0%Q. lra.
  - rewrite Qsum_cons, IH1. split; [|simpl; now rewrite IH2].
    simpl List.length. rewrite Nat2Z.inj_succ, <- Z.add_1_l, inject_Z_plus.
    reflexivity.
Qed.

Lemma sql_div_Some a b f :
  sql_div a b = Some f -> f = (a / b)%Q /\ ~ (b == 0)%Q.
Proof.
  unfold sql_div. destruct (Qeq_bool b 0) eqn:E; [discriminate|].
  intros [= <-]. split; [reflexivity|].
  intros Z. apply Qeq_bool_iff in Z. congruence.
Qed.

(** [SUM/COUNT] over the non-null labels is the turnout rate *)
Lemma norm_fac_turnout_rate t election f :
  norm_fac t election = Ok (Some f) ->
  Forall label_or_text (column t election) ->
  Forall ternary (column t election)
  /\ (f == turnout_rate (column t election))%Q
  /\ (0 <= f <= 1)%Q.
Proof.
  unfold norm_fac. destruct (resolve t election); simpl; [|discriminate].
  destruct (column_values t election) as [vals|] eqn:V; simpl; [|discriminate].
  apply column_values_spec in V as [-> N]. intros E L.
  assert (T : Forall ternary (column t election)).
  { rewrite List.Forall_forall in *. intros c I.
    apply label_not_text_ternary; auto. }
  destruct (ternary_column_counts _ T) as [S C].
  split; [exact T|].
  destruct (omap number_of (column t election)) as [|v vs] eqn:O; [discriminate|].
  apply Ok_inj, sql_div_Some in E as [-> NZ]. rewrite C in NZ |- *.
  assert (Hf : (Qsum (v :: vs) / inject_Z (Z.of_nat (count_eligible (column t election)))
                == turnout_rate (column t election))%Q).
  { unfold turnout_rate. now rewrite S. }
  split; [exact Hf|]. rewrite Hf. unfold turnout_rate.
  assert (Le : (count_voted (column t election)
                <= count_eligible (column t election))%nat).
  { clear -T. unfold count_voted, count_eligible.
    induction T as [|c col Tc _ IH]; simpl; [lia|].
    destruct Tc as [-> | [-> | ->]]; simpl; lia. }
  assert (Pos : (0 < inject_Z (Z.of_nat (count_eligible (column t election))))%Q).
  { destruct (count_eligible (column t election)) eqn:K.
    - destruct NZ. reflexivity.
    - change 0%Q with (inject_Z 0). rewrite <- Zlt_Qlt. lia. }
  split.
  - apply Qle_shift_div_l; [exact Pos|]. rewrite Qmult_0_l.
    change 0%Q with (inject_Z 0). rewrite <- Zle_Qle. lia.
  - apply Qle_shift_div_r; [exact Pos|]. rewrite Qmult_1_l.
    rewrite <- Zle_Qle. lia.
Qed.

End weights.

Section weighting_loop.
Import turnout_config turnout_scorer spec.

Lemma add_weighted_column_rows t df election df' :
  add_weighted_column t df election = Ok df' ->
  exists f, norm_fac t election = Ok (Some f)
            /\ Forall2 (fun r r' => exists c,
                          times (cell_get r election) (1 - f) = Ok c
                          /\ r' = <[weighted_col_name election := c]> r)
                       (rows df) (rows df').
Proof.
  unfold add_weighted_column.
  destruct (norm_fac t election) as [[f|]|]; simpl; try discriminate.
  destruct (resolve df election); simpl; [|discriminate].
  unfold withColumn.
  destruct (mapM _ (rows df)) as [rows'|] eqn:M; simpl; [|discriminate].
  intros [= <-]. exists f. split; [reflexivity|]. simpl.
  apply mapM_Ok in M. eapply Forall2_impl; [exact M|].
  intros r r'. simpl.
  destruct (times (cell_get r election) (1 - f)) as [c|]; simpl; [|discriminate].
  intros [= <-]. eauto.
Qed.

(** the loop of [_add_weighted_vote]: what a row holds after it *)
Lemma add_weighted_columns_rows t elections :
  forall df df',
    add_weighted_columns t df elections = Ok df' ->
    (forall e1 e2, In e1 elections -> In e2 elections -> weighted_col_name e1 <> e2) ->
    List.NoDup (map weighted_col_name elections) ->
    (forall e, In e elections -> exists f, norm_fac t e = Ok (Some f))
    /\ Forall2 (fun r r' =>
               (forall k, ~ In k (map weighted_col_name elections) -> r' !! k = r !! k)
               /\ forall e f, In e elections -> norm_fac t e = Ok (Some f) ->
                    exists c, times (cell_get r e) (1 - f) = Ok c
                              /\ r' !! weighted_col_name e = Some c)
            (rows df) (rows df').
Proof.
  induction elections as [|e rest IH]; simpl; intros df df' E Sep ND.
  - injection E as <-. split; [tauto|].
    apply Forall2_diagonal. intros r. split; [auto | tauto].
  - destruct (add_weighted_column t df e) as [df1|] eqn:C; simpl in E; [|discriminate].
    destruct (add_weighted_column_rows _ _ _ _ C) as (f & Nf & Step).
    inversion ND as [|? ? Nin ND']; subst.
    assert (Sep' : forall e1 e2, In e1 rest -> In e2 rest -> weighted_col_name e1 <> e2)
      by (intros; apply Sep; now right).
    destruct (IH df1 df' E Sep' ND') as [Facs Rows]. split.
    { intros e0 [<-|I0]; eauto. }
    eapply Forall2_compose; [|exact Step|exact Rows].
    intros r r1 r' (c & Tc & ->) [Keep New]. split.
    + intros k Nk. rewrite Keep by tauto.
      apply lookup_insert_ne. intros <-. apply Nk. now left.
    + intros e0 f0 [<-|I0] N0.
      * assert (f0 = f) as -> by congruence.
        exists c. split; [exact Tc|].
        rewrite (Keep _ Nin). apply lookup_insert_eq.
      * destruct (New e0 f0 I0 N0) as (c0 & T0 & L0).
        exists c0. split; [|exact L0].
        unfold cell_get in *. rewrite lookup_insert_ne in T0; [exact T0|].
        apply Sep; [now left | now right].
Qed.

Lemma times_weighted_vote c f w :
  ternary c -> times c (1 - f) = Ok w -> w = weighted_vote f c.
Proof.
  intros [-> | [-> | ->]]; unfold times; simpl; intros E;
    apply Ok_inj in E; subst w; reflexivity.
Qed.

Lemma cleaned_fields_label_or_text `{PyRuntime} fmt vv rf elections r :
  forall acc acc',
    cleaned_fields fmt vv rf elections r acc = Ok acc' ->
    map_Forall (fun _ => label_or_text) acc ->
    map_Forall (fun _ => label_or_text) acc'.
Proof.
  induction elections as [|[election election_date] rest IH]; simpl; intros acc acc' E A.
  - now injection E as <-.
  - destruct (clean_voting_record _ _ _ _ _ _) as [v|] eqn:Cv; simpl in E; [|discriminate].
    apply (IH _ _ E). apply map_Forall_insert_2; [|exact A].
    destruct (clean_voting_record_ternary _ _ _ _ _ _ _ Cv) as [-> | [-> | ->]];
      simpl; auto.
Qed.

Lemma add_effective_reg_date_fields `{PyRuntime} (s s' : TurnoutScorer (option string)) :
  _add_effective_reg_date s = Ok s' ->
  vote_histories s' = vote_histories s /\ config s' = config s.
Proof.
  unfold _add_effective_reg_date.
  destruct (_sort_vote_histories _); simpl; [|discriminate].
  destruct (forM_ _ _); simpl; [|discriminate].
  destruct (formats_reg_date _); simpl; [|discriminate].
  destruct (withColumn _ _ _); simpl; [|discriminate].
  intros [= <-]. auto.
Qed.

(** the table with the cleaned columns holds text, nulls and labels *)
Lemma clean_voting_record_table `{PyRuntime} (s0 : TurnoutScorer (option string))
    (s : TurnoutScorer cell) :
  _clean_voting_record s0 = Ok s ->
  vote_histories s = vote_histories s0
  /\ Forall (map_Forall (fun _ => label_or_text)) (rows (voters_df s)).
Proof.
  unfold _clean_voting_record.
  destruct (_add_effective_reg_date s0) as [s1|] eqn:A; simpl; [|discriminate].
  apply add_effective_reg_date_fields in A as [Vh _].
  intros E. bind_inv E fmt Ef. bind_inv E rf Er. bind_inv E u Eu.
  bind_inv E rows' M. injection E as <-. simpl. split; [exact Vh|].
  apply mapM_Ok in M. clear -M.
  induction M as [|r r' rs rs' E _ IH]; constructor; [|exact IH].
  apply (cleaned_fields_label_or_text _ _ _ _ _ _ _ E).
  apply map_Forall_fmap. intros k [x|] _; exact I.
Qed.

Lemma column_label_or_text (t : DataFrame cell) name :
  Forall (map_Forall (fun _ => label_or_text)) (rows t) ->
  Forall label_or_text (column t name).
Proof.
  unfold column. induction 1 as [|r rs A _ IH]; simpl; constructor; [|exact IH].
  unfold cell_get. destruct (r !! name) as [c|] eqn:L; simpl; [|exact I].
  exact (A _ _ L).
Qed.

(** X12.  After the cleaned columns are added, [_add_weighted_vote] gives
    every election a weighted column: with the turnout rate of the election
    the number of voters whose cleaned value is 1 divided by the number of
    voters whose cleaned value is not null, the weighted vote of a voter is
    [cleaned value * (1 - turnout rate)] when the cleaned value is not null
    and null when it is null.  (The elections are supposed to get distinct
    weighted columns, as they do when no election name contains
    [_cleaned].) *)
Theorem weighted_vote_distinct_names `{PyRuntime} (s0 : TurnoutScorer (option string))
    (s s' : TurnoutScorer cell) (svh : list string) :
  _clean_voting_record s0 = Ok s ->
  _add_weighted_vote s = Ok s' ->
  _sort_vote_histories (vote_histories s) = Ok svh ->
  List.NoDup (map (fun vote => weighted_col_name (vote +:+ "_cleaned")) svh) ->
  forall vote, In vote svh ->
    let cleaned := vote +:+ "_cleaned" in
    Forall ternary (column (voters_df s) cleaned)
    /\ exists rate,
        (rate == turnout_rate (column (voters_df s) cleaned))%Q
        /\ Forall2 (fun r r' => r' !! weighted_col_name cleaned
                                = Some (weighted_vote rate (cell_get r cleaned)))
                   (rows (voters_df s)) (rows (voters_df s')).
Proof.
  intros Cl W S ND vote I cleaned.
  destruct (clean_voting_record_table _ _ Cl) as [_ Lab].
  unfold _add_weighted_vote in W. rewrite S in W. simpl in W.
  destruct (add_weighted_columns _ _ _) as [df|] eqn:L; simpl in W; [|discriminate].
  injection W as <-. simpl.
  apply add_weighted_columns_rows in L.
  - assert (Ic : In cleaned (map (fun vote => vote +:+ "_cleaned") svh))
      by (apply List.in_map_iff; eauto).
    destruct L as [Facs L].
    destruct (Facs _ Ic) as [f Nf].
    destruct (norm_fac_turnout_rate _ _ _ Nf (column_label_or_text _ _ Lab))
      as (T & Rate & _).
    split; [exact T|]. exists f. split; [exact Rate|].
    assert (Tr : Forall (fun r => ternary (cell_get r cleaned)) (rows (voters_df s))).
    { unfold column in T. now rewrite List.Forall_map in T. }
    clear -L Ic Nf Tr. revert Tr.
    induction L as [|r r' rs rs' [_ New] _ IH]; intros Tr; constructor.
    + destruct (New _ _ Ic Nf) as (c & T0 & L0).
      rewrite L0. f_equal. apply times_weighted_vote; [|exact T0].
      now inversion Tr.
    + apply IH. now inversion Tr.
  - intros e1 e2 _ I2. apply List.in_map_iff in I2 as (v2 & <- & _).
    apply weighted_name_not_cleaned.
  - now rewrite List.map_map.
Qed.

End weighting_loop.

(** ** The names of the weighted columns *)

Lemma append_String (c : ascii) (a b : string) :
  String c a +:+ b = String c (a +:+ b).
Proof. reflexivity. Qed.

Lemma append_Empty (b : string) : "" +:+ b = b.
Proof. reflexivity. Qed.

Lemma cleaned_no_straddle (c : ascii) (v : string) :
  String.prefix "_cleaned" (String c v) = false ->
  String.prefix "_cleaned" (String c (v +:+ "_cleaned")) = false.
Proof.
  cbn [String.prefix].
  destruct (ascii_dec "_" c); [subst | auto].
  do 7 (destruct v as [|? v]; rewrite ?append_String, ?append_Empty;
        cbn [String.prefix];
        match goal with
        | |- context [ascii_dec ?a ?b] =>
            destruct (ascii_dec a b); [try discriminate; subst | auto]
        end).
  intros P. destruct v; discriminate P.
Qed.

(** for an election whose name does not contain [_cleaned], the weighted
    column is [<election>_weighted] *)
Lemma weighted_col_name_plain (vote : string) :
  turnout_scorer.is_substring "_cleaned" vote = false ->
  turnout_scorer.weighted_col_name (vote +:+ "_cleaned") = vote +:+ "_weighted".
Proof.
  unfold turnout_scorer.weighted_col_name. intros N. f_equal.
  induction vote as [|c v IH]; [reflexivity|].
  cbn [turnout_scorer.is_substring] in N.
  destruct (String.prefix "_cleaned" (String c v)) eqn:P; [discriminate|].
  change (String c v +:+ "_cleaned") with (String c (v +:+ "_cleaned")).
  cbn [split_head]. rewrite (cleaned_no_straddle _ _ P).
  f_equal. apply IH. exact N.
Qed.

(** ** Normalization within the cohort *)

Section normalization.
Import turnout_config turnout_scorer spec.

Lemma omap_cons_eq {A B} (f : A -> option B) (x : A) (l : list A) :
  omap f (x :: l) = match f x with
                    | Some y => y :: omap f l
                    | None => omap f l
                    end.
Proof. reflexivity. Qed.

Lemma Qmax_cases (x y : Q) : Qmax x y = x \/ Qmax x y = y.
Proof.
  unfold Qmax, GenericMinMax.gmax. destruct (x ?= y)%Q; auto.
Qed.

Lemma fold_left_Qmax (l : list Q) :
  forall x, let m := fold_left Qmax l x in
            (m = x \/ In m l) /\ (x <= m)%Q /\ Forall (fun y => (y <= m)%Q) l.
Proof.
  induction l as [|y l IH]; simpl; intros x.
  - split; [auto|]. split; [apply Qle_refl | constructor].
  - destruct (IH (Qmax x y)) as (Hin & Hle & Hall).
    split; [|split].
    + destruct Hin as [E|I]; [|auto].
      rewrite E. destruct (Qmax_cases x y) as [-> | ->]; auto.
    + eapply Qle_trans; [apply Q.le_max_l | exact Hle].
    + constructor; [|exact Hall].
      eapply Qle_trans; [apply Q.le_max_r | exact Hle].
Qed.

Lemma Qmax_list_is_max (l : list Q) (m : Q) :
  Qmax_list l = Some m -> is_max m l.
Proof.
  destruct l as [|x l]; simpl; [discriminate|]. intros [= <-].
  destruct (fold_left_Qmax l x) as (Hin & Hle & Hall).
  split; [|constructor; assumption].
  destruct Hin as [-> | I]; [now left | now right].
Qed.

Lemma is_max_unique (l : list Q) (m m' : Q) :
  is_max m l -> is_max m' l -> (m == m')%Q.
Proof.
  intros [I A] [I' A']. rewrite List.Forall_forall in A, A'.
  apply Qle_antisym; auto.
Qed.

Lemma mapM_num_of_cell (rs : list (gmap string cell)) name vals :
  mapM (fun r => num_of_cell (cell_get r name)) rs = Ok vals ->
  omap id vals = omap (fun r => number_of (cell_get r name)) rs.
Proof.
  intros M. apply mapM_Ok in M.
  induction M as [|r o rs os E _ IH]; simpl; [reflexivity|].
  apply num_of_cell_Ok in E as [-> _].
  destruct (number_of (cell_get r name)); simpl; [f_equal|]; exact IH.
Qed.

Lemma max_to_of_spec t r max_to :
  max_to_of t EFF_REG_DATE_FIELD (cell_get r EFF_REG_DATE_FIELD) = Ok max_to ->
  max_to = Qmax_list (cohort_scores t r).
Proof.
  unfold max_to_of, cohort_scores. intros E. bind_inv E vals M.
  injection E as <-. now rewrite (mapM_num_of_cell _ _ _ M).
Qed.

Lemma normalize_turnout_rows (s s' : TurnoutScorer cell) :
  _normalize_turnout s = Ok s' ->
  Forall2 (normalized_from (voters_df s)) (rows (voters_df s)) (rows (voters_df s')).
Proof.
  unfold _normalize_turnout. intros E.
  bind_inv E u1 E1. bind_inv E u2 E2. bind_inv E u3 E3. bind_inv E u4 E4.
  bind_inv E rows' M. injection E as <-. simpl.
  apply mapM_Ok in M. eapply Forall2_impl; [exact M|].
  intros r r' N. unfold normalize_row in N.
  bind_inv N max_to Em. bind_inv N w Ew. injection N as <-.
  apply max_to_of_spec in Em as ->. exists w. auto.
Qed.

Lemma normalized_from_lookup t r r' :
  normalized_from t r r' ->
  cell_get r' WEIGHTED_TURNOUT_FIELD = cell_get r WEIGHTED_TURNOUT_FIELD
  /\ cell_get r' EFF_REG_DATE_FIELD = cell_get r EFF_REG_DATE_FIELD
  /\ exists w, num_of_cell (cell_get r WEIGHTED_TURNOUT_FIELD) = Ok w
               /\ r' !! NORMALIZED_TURNOUT_FIELD
                  = Some (normalized_cell w (Qmax_list (cohort_scores t r))).
Proof.
  intros (w & Ew & ->). unfold cell_get.
  assert (K : forall k x y (m : gmap string cell),
             k <> "max_to" -> k <> NORMALIZED_TURNOUT_FIELD ->
             delete "max_to" (<[NORMALIZED_TURNOUT_FIELD := x]> (<["max_to" := y]> m)) !! k
             = m !! k).
  { intros k x y m K1 K2.
    rewrite lookup_delete_ne, !lookup_insert_ne by congruence. reflexivity. }
  rewrite !K by discriminate.
  split; [reflexivity|]. split; [reflexivity|].
  exists w. split; [exact Ew|].
  rewrite lookup_delete_ne by discriminate. apply lookup_insert_eq.
Qed.

Lemma cohort_scores_rows (t t' : DataFrame cell) (r r' : gmap string cell) :
  Forall2 (fun a a' =>
             cell_get a' WEIGHTED_TURNOUT_FIELD = cell_get a WEIGHTED_TURNOUT_FIELD
             /\ cell_get a' EFF_REG_DATE_FIELD = cell_get a EFF_REG_DATE_FIELD)
          (rows t) (rows t') ->
  cell_get r' EFF_REG_DATE_FIELD = cell_get r EFF_REG_DATE_FIELD ->
  cohort_scores t' r' = cohort_scores t r.
Proof.
  unfold cohort_scores, partition_of. intros F ->.
  induction F as [|a a' l l' [Ew Ee] _ IH]; [reflexivity|].
  cbn [List.filter]. rewrite Ee. destruct (bool_decide _); [|exact IH].
  rewrite !omap_cons_eq, Ew, IH. reflexivity.
Qed.

Lemma Forall2_In_r {A B} (R : A -> B -> Prop) (l : list A) (l' : list B) (y : B) :
  Forall2 R l l' -> In y l' -> exists x, In x l /\ R x y.
Proof.
  induction 1 as [|a b l l' Rab _ IH]; simpl; [tauto|].
  intros [<-|I]; [eauto|]. destruct (IH I) as (x & Ix & Rx). eauto.
Qed.

Lemma own_score_in_cohort (t : DataFrame cell) (r : gmap string cell) (w : Q) :
  In r (rows t) -> number_of (cell_get r WEIGHTED_TURNOUT_FIELD) = Some w ->
  In w (cohort_scores t r).
Proof.
  unfold cohort_scores, partition_of. intros I N.
  induction (rows t) as [|a l IH]; [destruct I|].
  cbn [List.filter]. destruct I as [->|I].
  - rewrite bool_decide_true by reflexivity. rewrite omap_cons_eq, N. now left.
  - destruct (bool_decide _); [|auto].
    rewrite omap_cons_eq.
    destruct (number_of (cell_get a WEIGHTED_TURNOUT_FIELD)); [right|]; auto.
Qed.

(** the normalized turnout of a row of the result, in terms of the result *)
Lemma normalized_turnout_of_row (s s' : TurnoutScorer cell) (r' : gmap string cell) w :
  _normalize_turnout s = Ok s' ->
  In r' (rows (voters_df s')) ->
  cell_get r' WEIGHTED_TURNOUT_FIELD = CNum w ->
  exists m, cohort_max (voters_df s') r' m
            /\ In w (cohort_scores (voters_df s') r')
            /\ r' !! NORMALIZED_TURNOUT_FIELD = Some (cell_of_num (sql_div w m)).
Proof.
  intros N I W. pose proof (normalize_turnout_rows _ _ N) as F.
  destruct (Forall2_In_r _ _ _ _ F I) as (r & Ir & Nr).
  destruct (normalized_from_lookup _ _ _ Nr) as (Ew & Ee & w0 & Nw & L).
  assert (Sc : cohort_scores (voters_df s') r' = cohort_scores (voters_df s) r).
  { apply cohort_scores_rows; [|exact Ee].
    eapply Forall2_impl; [exact F|]. intros a a' Na.
    destruct (normalized_from_lookup _ _ _ Na) as (? & ? & _). auto. }
  rewrite W in Ew. rewrite <- Ew in Nw. simpl in Nw. injection Nw as <-.
  assert (Iw : In w (cohort_scores (voters_df s) r)).
  { apply own_score_in_cohort; [exact Ir|]. now rewrite <- Ew. }
  destruct (Qmax_list (cohort_scores (voters_df s) r)) as [m|] eqn:Q.
  - exists m. unfold cohort_max. rewrite Sc.
    split; [now apply Qmax_list_is_max|]. split; [exact Iw | exact L].
  - destruct (cohort_scores (voters_df s) r); [destruct Iw | discriminate Q].
Qed.

(** C5.  In the result of [_normalize_turnout], the normalized turnout of
    a voter is the weighted turnout of the voter divided by the maximum of
    the weighted turnouts of the voters with the same effective registration
    date (the SQL division: null when that maximum is 0). *)
Theorem C5_normalized_turnout (s s' : TurnoutScorer cell) (r' : gmap string cell) (w : Q) :
  _normalize_turnout s = Ok s' ->
  In r' (rows (voters_df s')) ->
  cell_get r' WEIGHTED_TURNOUT_FIELD = CNum w ->
  exists m, cohort_max (voters_df s') r' m
            /\ r' !! NORMALIZED_TURNOUT_FIELD = Some (cell_of_num (sql_div w m))
            /\ (~ (m == 0)%Q -> r' !! NORMALIZED_TURNOUT_FIELD = Some (CNum (w / m)))
            /\ ((m == 0)%Q -> r' !! NORMALIZED_TURNOUT_FIELD = Some CNull).
Proof.
  intros N I W.
  destruct (normalized_turnout_of_row _ _ _ _ N I W) as (m & M & _ & L).
  exists m. split; [exact M|]. split; [exact L|].
  unfold sql_div in L. split; intros Z.
  - destruct (Qeq_bool m 0) eqn:B; [|exact L].
    apply Qeq_bool_iff in B. contradiction.
  - apply Qeq_bool_iff in Z. now rewrite Z in L.
Qed.

End normalization.

(** ** Single precision *)

Lemma round_half_even_le (x : Q) (k : Z) :
  (x <= inject_Z k)%Q -> round_half_even x <= k.
Proof.
  unfold round_half_even, Qle. destruct x as [a b]. cbn [Qnum Qden inject_Z]. intros L.
  pose proof (Z.div_mod a (Zpos b) ltac:(lia)) as D.
  pose proof (Z.mod_pos_bound a (Zpos b) ltac:(lia)) as B.
  set (n := a / Zpos b) in *. set (r := a mod Zpos b) in *.
  assert (Pb : 0 < Zpos b) by lia. set (d := Zpos b) in *.
  clearbody n r d.
  assert (Hlt : 0 < r -> n + 1 <= k).
  { intros Pr. assert (n < k); [|lia]. apply (Z.mul_lt_mono_pos_l d); lia. }
  assert (Hle : n <= k) by (apply (Z.mul_le_mono_pos_l _ _ d); lia).
  destruct (Z.compare_spec (2 * r) d) as [E|E|E];
    [destruct (Z.even n)| |]; lia.
Qed.

Lemma round_half_even_nonneg (x : Q) : (0 <= x)%Q -> 0 <= round_half_even x.
Proof.
  unfold round_half_even, Qle. destruct x as [a b]. cbn [Qnum Qden inject_Z]. intros L.
  assert (0 <= a / Zpos b) by (apply Z.div_pos; lia).
  destruct (2 * (a mod Zpos b) ?= Zpos b); [destruct (Z.even _)| |]; lia.
Qed.

Lemma round_single_nonneg (x : Q) : (0 <= x)%Q -> (0 <= round_single x)%Q.
Proof.
  intros P. unfold round_single.
  set (e := Z.max (ilog2 x - 23) (-149)).
  destruct (0 <=? e)%Z eqn:Le.
  - apply Z.leb_le in Le. change 0%Q with (inject_Z 0). rewrite <- Zle_Qle.
    apply Z.mul_nonneg_nonneg; [|apply Z.pow_nonneg; lia].
    apply round_half_even_nonneg. apply Qle_shift_div_l.
    + change 0%Q with (inject_Z 0). rewrite <- Zlt_Qlt. apply Z.pow_pos_nonneg; lia.
    + now rewrite Qmult_0_l.
  - apply Z.leb_gt in Le.
    assert (Pp : 0 < 2 ^ (- e)) by (apply Z.pow_pos_nonneg; lia).
    apply Qle_shift_div_l.
    + change 0%Q with (inject_Z 0). now rewrite <- Zlt_Qlt.
    + rewrite Qmult_0_l. change 0%Q with (inject_Z 0). rewrite <- Zle_Qle.
      apply round_half_even_nonneg. apply Qmult_le_0_compat; [exact P|].
      change 0%Q with (inject_Z 0). rewrite <- Zle_Qle. lia.
Qed.


Lemma float32_nonneg (x : Q) : (0 <= x)%Q -> (0 <= float32 x)%Q.
Proof.
  intros P. unfold float32.
  assert (P' : (0 <= Qred x)%Q) by (now rewrite Qred_correct).
  destruct (Qnum (Qred x)) eqn:N.
  - apply Qle_refl.
  - rewrite Qred_correct. now apply round_single_nonneg.
  - unfold Qle in P'. simpl in P'. rewrite N in P'. lia.
Qed.

Lemma ilog2_large (x : Q) :
  (0 < x)%Q -> 24 <= ilog2 x -> (inject_Z (2 ^ 24) <= x)%Q.
Proof.
  unfold ilog2, Qlt, Qle. destruct x as [a b]. cbn [Qnum Qden inject_Z]. intros P L.
  destruct (Z.leb_spec (Zpos b) a) as [Lb|Lb].
  - assert (Q1 : 0 < a / Zpos b) by (apply Z.div_str_pos; lia).
    pose proof (Z.log2_spec _ Q1) as [S _].
    assert (2 ^ 24 <= 2 ^ Z.log2 (a / Zpos b)) by (apply Z.pow_le_mono_r; lia).
    pose proof (Z.mul_div_le a (Zpos b) ltac:(lia)). nia.
  - pose proof (Z.log2_up_nonneg ((Zpos b + a - 1) / a)). lia.
Qed.

Lemma float32_le_int (x : Q) (n : Z) :
  (0 <= x)%Q -> (x <= inject_Z n)%Q -> n <= 2 ^ 24 -> (float32 x <= inject_Z n)%Q.
Proof.
  intros P L Hn. unfold float32.
  assert (P' : (0 <= Qred x)%Q) by (now rewrite Qred_correct).
  assert (L' : (Qred x <= inject_Z n)%Q) by (now rewrite Qred_correct).
  destruct (Qnum (Qred x)) eqn:N.
  - eapply Qle_trans; [exact P | exact L].
  - rewrite Qred_correct. set (y := Qred x) in *.
    assert (Py : (0 < y)%Q) by (unfold Qlt; simpl; rewrite N; lia).
    destruct (Z.le_gt_cases 24 (ilog2 y)) as [Big|Small].
    + pose proof (ilog2_large _ Py Big) as G.
      assert (Ey : (x == inject_Z (2 ^ 24))%Q).
      { apply Qle_antisym.
        - eapply Qle_trans; [exact L|]. now rewrite <- Zle_Qle.
        - now rewrite <- (Qred_correct x). }
      assert (En : n = 2 ^ 24).
      { apply Z.le_antisymm; [exact Hn|]. rewrite Zle_Qle.
        eapply Qle_trans; [exact G | exact L']. }
      subst n. unfold y. rewrite (Qred_complete _ _ Ey). vm_compute. discriminate.
    + unfold round_single.
      set (e := Z.max (ilog2 y - 23) (-149)).
      assert (He : e <= 0) by (unfold e; lia).
      destruct (Z.leb_spec 0 e) as [Le|Le].
      * assert (e = 0) as -> by lia. rewrite Z.pow_0_r, Z.mul_1_r.
        rewrite <- Zle_Qle. apply round_half_even_le.
        change (inject_Z 1) with 1%Q. unfold Qdiv.
        change (/ 1)%Q with 1%Q. now rewrite Qmult_1_r.
      * assert (Pp : 0 < 2 ^ (- e)) by (apply Z.pow_pos_nonneg; lia).
        apply Qle_shift_div_r.
        { change 0%Q with (inject_Z 0). now rewrite <- Zlt_Qlt. }
        rewrite <- inject_Z_mult, <- Zle_Qle. apply round_half_even_le.
        rewrite inject_Z_mult. apply Qmult_le_compat_r; [exact L'|].
        change 0%Q with (inject_Z 0). rewrite <- Zle_Qle. lia.
  - unfold Qle in P'. simpl in P'. rewrite N in P'. lia.
Qed.

(** ** The bounds of the normalized turnout *)

Section bounds.
Import turnout_config turnout_scorer spec.

Lemma label_or_text_nonneg (c : cell) : label_or_text c -> nonneg_cell c.
Proof. destruct c as [|s|n|q]; simpl; [auto | auto | lia | tauto]. Qed.

Lemma cell_get_nonneg (r : gmap string cell) name :
  map_Forall (fun _ => nonneg_cell) r -> nonneg_cell (cell_get r name).
Proof.
  intros A. unfold cell_get. destruct (r !! name) as [c|] eqn:L; simpl; [|exact I].
  exact (A _ _ L).
Qed.

Lemma number_of_nonneg (c : cell) (q : Q) :
  nonneg_cell c -> number_of c = Some q -> (0 <= q)%Q.
Proof.
  destruct c as [|s|n|x]; simpl; intros N E; try discriminate; injection E as <-.
  - change 0%Q with (inject_Z 0). now rewrite <- Zle_Qle.
  - exact N.
Qed.

Lemma times_nonneg (c w : cell) (f : Q) :
  nonneg_cell c -> (0 <= f <= 1)%Q -> times c (1 - f) = Ok w -> nonneg_cell w.
Proof.
  intros N F E. unfold times in E. bind_inv E v Ev.
  apply num_of_cell_Ok in Ev as [-> _]. injection E as <-.
  destruct (number_of c) as [q|] eqn:Q; simpl; [|exact I].
  pose proof (number_of_nonneg _ _ N Q).
  apply Qmult_le_0_compat; [assumption | lra].
Qed.

Lemma add_weighted_columns_nonneg t elections :
  Forall (map_Forall (fun _ => label_or_text)) (rows t) ->
  forall df df',
    add_weighted_columns t df elections = Ok df' ->
    Forall (map_Forall (fun _ => nonneg_cell)) (rows df) ->
    Forall (map_Forall (fun _ => nonneg_cell)) (rows df').
Proof.
  intros Lab. induction elections as [|e rest IH]; simpl; intros df df' E A.
  - now injection E as <-.
  - bind_inv E df1 C. apply (IH _ _ E).
    destruct (add_weighted_column_rows _ _ _ _ C) as (f & Nf & Step).
    destruct (norm_fac_turnout_rate _ _ _ Nf (column_label_or_text _ _ Lab))
      as (_ & _ & F).
    clear -Step A F. induction Step as [|r r' rs rs' (c & T & ->) _ IHs];
      [constructor|].
    inversion A as [|? ? Ar Ars]; subst. constructor; [|auto].
    apply map_Forall_insert_2; [|exact Ar].
    exact (times_nonneg _ _ _ (cell_get_nonneg _ _ Ar) F T).
Qed.

Lemma Qsum_nonneg (l : list Q) : Forall (fun q => (0 <= q)%Q) l -> (0 <= Qsum l)%Q.
Proof.
  induction 1 as [|q l Hq _ IH]; [rewrite Qsum_nil; lra|].
  rewrite Qsum_cons. lra.
Qed.

Lemma get_weighted_sum_nonneg (r : gmap string cell) (fields : list string) (w : Q) :
  map_Forall (fun _ => nonneg_cell) r ->
  get_weighted_sum (array_of cell_get fields r) = Ok w -> (0 <= w)%Q.
Proof.
  intros A E. rewrite (get_weighted_sum_spec _ _ E).
  apply Qsum_nonneg. unfold array_of. clear E.
  induction fields as [|k fields IH]; [constructor|].
  cbn [map]. rewrite omap_cons_eq.
  destruct (number_of (cell_get r k)) as [q|] eqn:Q; [|exact IH].
  constructor; [|exact IH].
  exact (number_of_nonneg _ _ (cell_get_nonneg _ _ A) Q).
Qed.

(** the raw scores of the pipeline are not negative *)
Lemma add_weighted_turnout_nonneg `{PyRuntime} (s1 s2 : TurnoutScorer cell) :
  Forall (map_Forall (fun _ => label_or_text)) (rows (voters_df s1)) ->
  _add_weighted_turnout s1 = Ok s2 ->
  Forall (fun r => exists w, r !! WEIGHTED_TURNOUT_FIELD = Some (CNum w) /\ (0 <= w)%Q)
         (rows (voters_df s2)).
Proof.
  intros Lab E. unfold _add_weighted_turnout in E.
  bind_inv E s W. bind_inv E svh Hsort. bind_inv E u Hres. bind_inv E df C.
  injection E as <-. simpl.
  unfold _add_weighted_vote in W. bind_inv W svh' Hsort'. bind_inv W df1 L.
  injection W as <-. simpl in *.
  assert (A : Forall (map_Forall (fun _ => nonneg_cell)) (rows df1)).
  { apply (add_weighted_columns_nonneg _ _ Lab _ _ L).
    eapply Forall_impl; [exact Lab|]. intros r Ar k c Lk.
    apply label_or_text_nonneg. exact (Ar _ _ Lk). }
  unfold withColumn in C. bind_inv C rows' M. injection C as <-. simpl.
  apply mapM_Ok in M. clear -M A.
  induction M as [|r r' rs rs' E _ IH]; [constructor|].
  inversion A as [|? ? Ar Ars]; subst. constructor; [|auto].
  bind_inv E c Ec. injection E as <-. bind_inv Ec w Ew. injection Ec as <-.
  exists (float32 w). split; [apply lookup_insert_eq|].
  apply float32_nonneg. exact (get_weighted_sum_nonneg _ _ _ Ar Ew).
Qed.

(** C7.  In the result of the pipeline, for every voter whose cohort has a
    strictly positive maximum weighted turnout, the normalized turnout is a
    number between 0 and 1. *)
Theorem C7_normalized_turnout_bounds `{PyRuntime} (s0 : TurnoutScorer (option string))
    (s' : TurnoutScorer cell) (r' : gmap string cell) (m : Q) :
  compute_normalized_turnout s0 = Ok s' ->
  In r' (rows (voters_df s')) ->
  cohort_max (voters_df s') r' m ->
  (0 < m)%Q ->
  exists q, r' !! NORMALIZED_TURNOUT_FIELD = Some (CNum q) /\ (0 <= q <= 1)%Q.
Proof.
  intros E I M Pos. unfold compute_normalized_turnout in E.
  bind_inv E s1 Cl. bind_inv E s2 W.
  destruct (clean_voting_record_table _ _ Cl) as [_ Lab].
  pose proof (add_weighted_turnout_nonneg _ _ Lab W) as NN.
  pose proof (normalize_turnout_rows _ _ E) as F.
  destruct (Forall2_In_r _ _ _ _ F I) as (r & Ir & Nr).
  rewrite List.Forall_forall in NN.
  destruct (NN r Ir) as (w & Lw & Hw).
  destruct (normalized_from_lookup _ _ _ Nr) as (Ew & _).
  assert (Cw : cell_get r' WEIGHTED_TURNOUT_FIELD = CNum w).
  { rewrite Ew. unfold cell_get. now rewrite Lw. }
  destruct (normalized_turnout_of_row _ _ _ _ E I Cw) as (m' & M' & Iw & L).
  pose proof (is_max_unique _ _ _ M M') as Em.
  assert (Pos' : (0 < m')%Q) by (now rewrite <- Em).
  assert (Le : (w <= m')%Q).
  { destruct M' as [_ A]. rewrite List.Forall_forall in A. now apply A. }
  exists (w / m')%Q. split.
  - rewrite L. unfold sql_div. destruct (Qeq_bool m' 0) eqn:B; [|reflexivity].
    apply Qeq_bool_iff in B. rewrite B in Pos'. now apply Qlt_irrefl in Pos'.
  - split.
    + apply Qle_shift_div_l; [exact Pos' | lra].
    + apply Qle_shift_div_r; [exact Pos' | lra].
Qed.

End bounds.

(** ** The raw score *)

Section raw_score.
Import turnout_config turnout_scorer spec.




End raw_score.

(** ** The pipeline on the concrete inputs *)

Section witnesses.
Import turnout_config turnout_scorer spec.
#[local] Existing Instance Model.runtime.

(** the election [g16] of [Examples.df6] has turnout rate 0.4: the weighted
    vote is [cleaned * (1 - rate)], that is 0.6 for a cleaned 1 *)
Lemma weighted_vote_distinct_names_witness :
  exists rate,
    (rate == 4 # 10)%Q
    /\ Forall2 (fun r r' => r' !! weighted_col_name "g16_cleaned"
                            = Some (weighted_vote rate (cell_get r "g16_cleaned")))
               (rows (voters_df Examples.cleaned6)) (rows (voters_df Examples.weighted6)).
Proof.
  assert (Cl : _clean_voting_record Examples.scorer6 = Ok Examples.cleaned6)
    by (vm_compute; reflexivity).
  assert (W : _add_weighted_vote Examples.cleaned6 = Ok Examples.weighted6)
    by (vm_compute; reflexivity).
  assert (Hs : _sort_vote_histories (vote_histories Examples.cleaned6)
               = Ok ["g16"; "g18"; "g20"]) by (vm_compute; reflexivity).
  assert (ND : List.NoDup (map (fun vote => weighted_col_name (vote +:+ "_cleaned"))
                             ["g16"; "g18"; "g20"])).
  { vm_compute. repeat constructor; simpl; intuition congruence. }
  destruct (weighted_vote_distinct_names Examples.scorer6 Examples.cleaned6 Examples.weighted6
              ["g16"; "g18"; "g20"] Cl W Hs ND "g16" (or_introl eq_refl))
    as [_ (rate & Hr & F)].
  exists rate. split; [|exact F].
  rewrite Hr. vm_compute. reflexivity.
Defined.

(** C3.  Two elections named [p] and [p_cleaned_x].  In [p] one eligible
    voter in four voted, so the turnout rate is 1/4 and the weighted vote of
    the first voter, whose cleaned value is 1, should be 3/4.  The name of
    a weighted column is [election.split('_cleaned')[0] + '_weighted'], and
    for the cleaned column [p_cleaned_x_cleaned] of the second election that
    is [p_weighted] again: the second election writes over the weighted
    votes of the first.  [_add_weighted_vote] returns, the column
    [p_weighted] of the first voter holds 1/2, the weighted vote of
    [p_cleaned_x], there is no column [p_cleaned_x_weighted], and the run
    ends with the [AnalysisException] of [_add_weighted_turnout], which
    looks for it. *)
Theorem C3_weighted_vote_name_clash :
  TurnoutScorer_init Examples.cfg_clash Examples.df_clash 6 = Ok Examples.scorer_clash
  /\ _clean_voting_record Examples.scorer_clash = Ok Examples.cleaned_clash
  /\ _add_weighted_vote Examples.cleaned_clash = Ok Examples.weighted_clash
  /\ column (voters_df Examples.cleaned_clash) "p_cleaned"
     = [CInt 1; CInt 0; CInt 0; CInt 0]
  /\ (turnout_rate (column (voters_df Examples.cleaned_clash) "p_cleaned") == 1 # 4)%Q
  /\ (exists q, weighted_vote (1 # 4) (CInt 1) = CNum q /\ (q == 3 # 4)%Q)
  /\ weighted_col_name "p_cleaned" = "p_weighted"
  /\ weighted_col_name "p_cleaned_x_cleaned" = "p_weighted"
  /\ (exists r' q,
        rows (voters_df Examples.weighted_clash) !! 0%nat = Some r'
        /\ r' !! "p_cleaned" = Some (CInt 1)
        /\ r' !! "p_weighted" = Some (CNum q)
        /\ (q == 1 # 2)%Q /\ ~ (q == 3 # 4)%Q
        /\ r' !! "p_cleaned_x_weighted" = None)
  /\ exists msg, run Examples.cfg_clash Examples.df_clash = Raise (AnalysisException msg).
Proof.
  split; [vm_compute; reflexivity|].
  split; [vm_compute; reflexivity|].
  split; [vm_compute; reflexivity|].
  split; [vm_compute; reflexivity|].
  split; [vm_compute; reflexivity|].
  split; [eexists; split; [reflexivity | vm_compute; reflexivity]|].
  split; [vm_compute; reflexivity|].
  split; [vm_compute; reflexivity|].
  split.
  - eexists _, _. split; [reflexivity|].
    split; [vm_compute; reflexivity|].
    split; [vm_compute; reflexivity|].
    split; [vm_compute; reflexivity|].
    split; [intros E; vm_compute in E; discriminate E|].
    vm_compute. reflexivity.
  - eexists. vm_compute. reflexivity.
Qed.

Example weighted_vote_at_rate_04 :
  exists a b,
    weighted_vote (4 # 10) (CInt 1) = CNum a /\ (a == 6 # 10)%Q
    /\ weighted_vote (4 # 10) (CInt 0) = CNum b /\ (b == 0)%Q
    /\ weighted_vote (4 # 10) CNull = CNull.
Proof. eexists _, _. repeat split. Qed.

Example weighted6_g16_column :
  column (voters_df Examples.weighted6) "g16_weighted"
  = [CNum (3 # 5); CNum (3 # 5); CNum (0 # 5); CNum (0 # 5); CNum (0 # 5); CNull].
Proof. vm_compute. reflexivity. Qed.

Lemma C5_witness :
  exists m, cohort_max (voters_df Examples.normalized) Examples.voter1_normalized m
            /\ Examples.voter1_normalized !! NORMALIZED_TURNOUT_FIELD
               = Some (cell_of_num (sql_div (12 # 10) m)).
Proof.
  destruct (C5_normalized_turnout Examples.scored Examples.normalized
              Examples.voter1_normalized (12 # 10)) as (m & M & L & _).
  - vm_compute. reflexivity.
  - left. reflexivity.
  - vm_compute. reflexivity.
  - exists m. split; assumption.
Defined.

(** the cohort with raw scores 1.2, 0.6 and 0.0 gets 1.0, 0.5 and 0.0 *)
Example normalized_cohort :
  Forall2 (fun c q => exists x, c = CNum x /\ (x == q)%Q)
          (firstn 3 (column (voters_df Examples.normalized) NORMALIZED_TURNOUT_FIELD))
          [1; 1 # 2; 0]%Q.
Proof.
  vm_compute firstn.
  repeat constructor; eexists; (split; [reflexivity | vm_compute; reflexivity]).
Qed.



Lemma C7_witness :
  exists q, Examples.voter1_final6 !! NORMALIZED_TURNOUT_FIELD = Some (CNum q)
            /\ (0 <= q <= 1)%Q.
Proof.
  apply (C7_normalized_turnout_bounds Examples.scorer6 Examples.final6
           Examples.voter1_final6 Examples.max1_final6).
  - vm_compute. reflexivity.
  - left. reflexivity.
  - unfold cohort_max, is_max.
    assert (E : cohort_scores (voters_df Examples.final6) Examples.voter1_final6
                = Examples.max1_final6 :: tl (cohort_scores (voters_df Examples.final6)
                                                Examples.voter1_final6))
      by (vm_compute; reflexivity).
    split; [rewrite E; now left|].
    vm_compute. repeat constructor; discriminate.
  - vm_compute. reflexivity.
Defined.

End witnesses.

(* ===================================================================== *)
(** * Further properties of the configuration *)
(* ===================================================================== *)

Section config_acceptance.
Import turnout_config spec.
Context `{PyRuntime}.

Lemma dict_get_Some_In {V} (d : list (string * V)) k v :
  dict_get d k = Some v -> In k (dict_keys d).
Proof.
  induction d as [|[k' v'] d IH]; simpl; [discriminate|].
  destruct (String.eqb_spec k' k); [auto|]. intros E. right. auto.
Qed.

Lemma dict_get_None_iff {V} (d : list (string * V)) k :
  dict_get d k = None <-> ~ In k (dict_keys d).
Proof.
  split.
  - intros N I. destruct (dict_get_is_Some d k I) as [v E]. congruence.
  - intros N. destruct (dict_get d k) as [v|] eqn:E; [|reflexivity].
    destruct N. exact (dict_get_Some_In _ _ _ E).
Qed.

Lemma check_required_fields_Ok cfg :
  check_required_fields cfg = Ok tt
  <-> Forall (fun k => In k (dict_keys cfg)) required_keys.
Proof.
  unfold check_required_fields, SET_REQ_FIELDS. fold required_keys.
  rewrite List.Forall_forall. case_decide as D; split.
  - discriminate.
  - intros A. destruct D. apply set_eq. intros k.
    rewrite elem_of_intersection, !elem_of_list_to_set, !list_elem_of_In.
    split; [tauto|]. intros I. split; [exact I | auto].
  - intros _ k I.
    assert (E : k ∈ (list_to_set required_keys ∩ list_to_set (dict_keys cfg) : gset string)).
    { rewrite D. apply elem_of_list_to_set, list_elem_of_In, I. }
    apply elem_of_intersection in E as [_ E].
    apply elem_of_list_to_set, list_elem_of_In in E. exact E.
  - reflexivity.
Qed.

Lemma check_required_fields_raises cfg :
  check_required_fields cfg = Ok tt
  \/ exists msg, check_required_fields cfg = Raise (KeyError msg).
Proof. unfold check_required_fields. case_decide; eauto. Qed.

Lemma check_sub_dicts_Ok reqs cfg :
  check_sub_dicts reqs cfg = Ok tt
  <-> Forall (fun g => has_exact_subkeys cfg g.1 g.2) reqs.
Proof.
  induction reqs as [|[g subs] reqs IH]; simpl.
  - split; [constructor | reflexivity].
  - rewrite List.Forall_cons_iff, <- IH. unfold dict_item, has_exact_subkeys. simpl.
    destruct (dict_get cfg g) as [[|s|l|d]|]; simpl;
      try (split; [discriminate | intros [(d' & E & _) _]; discriminate]).
    case_decide as D; split.
    + discriminate.
    + intros [(d' & E & K) _]. injection E as <-. destruct D.
      apply set_eq. intros k. rewrite !elem_of_list_to_set, !list_elem_of_In. apply K.
    + intros E. split; [|exact E]. exists d. split; [reflexivity|].
      intros k.
      rewrite <- !list_elem_of_In, <- !(elem_of_list_to_set (C := gset string)).
      now rewrite D.
    + tauto.
Qed.

Lemma first_offending_None vhist :
  first_offending vhist = None
  <-> Forall (fun kv => matches_vhist_format kv.2 = true) vhist.
Proof.
  unfold first_offending. induction vhist as [|kv vhist IH]; simpl.
  - split; [constructor | reflexivity].
  - rewrite List.Forall_cons_iff, <- IH.
    destruct (matches_vhist_format kv.2); simpl; split; try tauto; try discriminate.
    intros [E _]. discriminate.
Qed.

Lemma check_lists_Ok elms cfg :
  check_lists elms cfg = Ok tt <-> Forall (list_if_present cfg) elms.
Proof.
  induction elms as [|e elms IH]; simpl.
  - split; [constructor | reflexivity].
  - rewrite List.Forall_cons_iff, <- IH. unfold list_if_present.
    destruct (dict_get cfg e) as [[|s|l|d]|]; split; try tauto; try discriminate.
Qed.

Lemma init_accepted_valid cfg c : TurnoutConfig_init cfg = Ok c -> valid_config cfg.
Proof.
  unfold valid_config. intros E. unfold TurnoutConfig_init, _validated_config in E.
  bind_inv E u Ev. bind_inv E vv Evv. bind_inv Ev u1 Eb. bind_inv Ev u2 Eh.
  destruct u, u1, u2. unfold checks_before_dates in Eb. bind_inv Eb u3 Er.
  apply check_sub_dicts_Ok in Eb. apply check_lists_Ok in Ev.
  split; [exact Eb|]. split; [|split; [|exact Ev]].
  - unfold check_vote_histories, dict_item in Eh.
    destruct (dict_get cfg VOTE_HISTORIES) as [[|s|l|vhist]|]; try discriminate.
    simpl in Eh. exists vhist. split; [reflexivity|].
    apply first_offending_None. rewrite check_election_dates_spec in Eh.
    destruct (first_offending vhist) as [[e d]|]; [discriminate | reflexivity].
  - unfold dict_item in Evv. unfold VOTED_VALUES.
    destruct (dict_get cfg "voted_values") as [vv'|]; [eauto | discriminate].
Qed.

Lemma valid_init_accepted cfg : valid_config cfg -> exists c, TurnoutConfig_init cfg = Ok c.
Proof.
  intros (G & (vhist & Ev & Ed) & (vv & Evv) & L).
  assert (R : check_required_fields cfg = Ok tt).
  { apply check_required_fields_Ok. unfold required_keys.
    rewrite List.Forall_app. split.
    - rewrite List.Forall_forall in *. intros k Ik.
      apply List.in_map_iff in Ik as (g & <- & Ig).
      destruct (G g Ig) as (d & E & _). exact (dict_get_Some_In _ _ _ E).
    - repeat constructor; eapply dict_get_Some_In; eassumption. }
  apply check_sub_dicts_Ok in G. apply check_lists_Ok in L.
  apply first_offending_None in Ed.
  eexists. unfold TurnoutConfig_init, _validated_config, checks_before_dates,
    check_vote_histories, dict_item.
  rewrite R. cbn [rbind]. rewrite G. cbn [rbind]. rewrite Ev. cbn [rbind].
  rewrite check_election_dates_spec, Ed. cbn [rbind]. rewrite L. cbn [rbind].
  change "voted_values" with VOTED_VALUES. rewrite Evv. reflexivity.
Qed.

Lemma init_accepted_fields cfg c :
  TurnoutConfig_init cfg = Ok c ->
  turnout_config.config c = cfg /\ _parties_included c = None
  /\ _filter_on_parties c = true
  /\ dict_get cfg VOTED_VALUES = Some (voted_values c).
Proof.
  intros E. unfold TurnoutConfig_init in E. bind_inv E u Ev. bind_inv E vv Evv.
  injection E as <-. simpl. repeat split.
  unfold dict_item in Evv. change VOTED_VALUES with "voted_values".
  destruct (dict_get cfg "voted_values"); congruence.
Qed.

(** X1.  [TurnoutConfig(cfg)] succeeds exactly when the three groups are
    dicts with exactly their sub-keys, [vote_histories] is a dict whose
    dates are all accepted, [voted_values] is present, and [voted_values]
    and [parties_included] are lists when present and not [None]; the object
    then holds the configuration unchanged, with the party filter not yet
    resolved.  [s3_creds] plays no part. *)
Theorem TurnoutConfig_init_accepts cfg :
  ((exists c, TurnoutConfig_init cfg = Ok c) <-> valid_config cfg)
  /\ forall c, TurnoutConfig_init cfg = Ok c ->
       turnout_config.config c = cfg /\ _parties_included c = None
       /\ _filter_on_parties c = true
       /\ dict_get cfg VOTED_VALUES = Some (voted_values c).
Proof.
  split; [split|].
  - intros [c E]. exact (init_accepted_valid _ _ E).
  - apply valid_init_accepted.
  - apply init_accepted_fields.
Qed.

(** X2.  When a required top-level key is absent, construction fails with a
    [KeyError], whatever else the configuration holds: the presence check
    comes first. *)
Theorem TurnoutConfig_init_missing_key cfg k :
  In k required_keys -> dict_get cfg k = None ->
  exists msg, TurnoutConfig_init cfg = Raise (KeyError msg).
Proof.
  intros I N. unfold TurnoutConfig_init, _validated_config, checks_before_dates.
  destruct (check_required_fields_raises cfg) as [E | [msg E]].
  - apply check_required_fields_Ok in E. rewrite List.Forall_forall in E.
    apply dict_get_None_iff in N. destruct N. auto.
  - exists msg. now rewrite E.
Qed.

(** X3.  In a configuration whose groups and election dates pass, a
    [voted_values] that is neither [None] nor a list is refused with the
    [TypeError] naming it; when [voted_values] passes, a [parties_included]
    that is present and neither [None] nor a list is refused with the
    [TypeError] naming it. *)
Theorem TurnoutConfig_init_not_list cfg vhist :
  checks_before_dates cfg = Ok tt ->
  dict_get cfg VOTE_HISTORIES = Some (PDict vhist) ->
  first_offending vhist = None ->
  (forall v, dict_get cfg VOTED_VALUES = Some v -> not_list v ->
             TurnoutConfig_init cfg = Raise (TypeError (not_list_msg VOTED_VALUES)))
  /\ (forall v, list_if_present cfg VOTED_VALUES ->
                dict_get cfg "parties_included" = Some v -> not_list v ->
                TurnoutConfig_init cfg
                = Raise (TypeError (not_list_msg "parties_included"))).
Proof.
  intros Hc Hv Hd.
  rewrite (TurnoutConfig_init_dates _ _ Hc Hv), check_election_dates_spec, Hd.
  unfold ELEMENTS_REQ_IN_VALUES_VF, list_if_present. simpl. split.
  - intros v -> N. destruct v; simpl in N; try contradiction; reflexivity.
  - intros v Lv -> N.
    destruct (dict_get cfg VOTED_VALUES) as [[|s|l|d]|]; simpl in Lv;
      try contradiction; destruct v; simpl in N; try contradiction; reflexivity.
Qed.

End config_acceptance.

Section config_object.
Import turnout_config turnout_scorer spec.
Context `{PyRuntime}.

(** X4.  The property [parties_included] is cached: an access leaves the
    configuration and [voted_values] untouched, and a second access returns
    the same value and changes nothing.  On a fresh object the value is
    [None] exactly when the entry is absent, [None] or empty. *)
Theorem parties_included_cached c v c1 :
  parties_included c = Ok (v, c1) ->
  parties_included c1 = Ok (v, c1)
  /\ turnout_config.config c1 = turnout_config.config c
  /\ voted_values c1 = voted_values c
  /\ (_parties_included c = None -> _filter_on_parties c = true ->
      (v = None <->
       config_get (turnout_config.config c) "parties_included" = None
       \/ exists x, config_get (turnout_config.config c) "parties_included" = Some x
                    /\ py_len x = Ok 0%nat)).
Proof.
  unfold parties_included.
  destruct (_parties_included c) as [p|] eqn:P.
  { intros [= <- <-]. rewrite P. repeat split; discriminate. }
  destruct (_filter_on_parties c) eqn:F.
  2:{ intros [= <- <-]. rewrite P, F. repeat split; discriminate. }
  destruct (config_get (turnout_config.config c) "parties_included") as [x|] eqn:G.
  2:{ intros [= <- <-]. simpl. repeat split; auto. }
  destruct (py_len x) as [n|] eqn:L; simpl; [|discriminate].
  destruct (Nat.eqb_spec n 0) as [->|N]; intros [= <- <-]; simpl.
  - repeat split; eauto.
  - repeat split; try discriminate.
    intros [E | (x' & E & L')]; [discriminate|].
    injection E as <-. rewrite L in L'. injection L' as ->. now destruct N.
Qed.

(** X5.  Validation does not look at [s3_creds]: a configuration that
    [TurnoutConfig] accepts and that has no [s3_creds] (or has [None])
    makes the construction of the scorer fail with a [KeyError], before the
    voter file is looked at; a value that is not a dict gives a
    [TypeError]. *)
Theorem TurnoutScorer_init_s3_creds cfg c df n :
  TurnoutConfig_init cfg = Ok c ->
  (config_get cfg "s3_creds" = None ->
   TurnoutScorer_init cfg df n = Raise (KeyError "you need s3_creds in the config"))
  /\ (forall v, config_get cfg "s3_creds" = Some v -> (forall d, v <> PDict d) ->
      TurnoutScorer_init cfg df n
      = Raise (TypeError " s3_creds should be a dictionary with the s3 credentials ")).
Proof.
  intros I. destruct (init_accepted_fields cfg c I) as (Ec & _).
  unfold TurnoutScorer_init. rewrite I. cbn [rbind]. unfold s3_creds. rewrite Ec.
  split.
  - intros ->. reflexivity.
  - intros v -> N. destruct v as [|s|l|d]; try reflexivity. now destruct (N d).
Qed.

Lemma accepted_sub_item cfg c g subs f :
  TurnoutConfig_init cfg = Ok c ->
  In (g, subs) REQUIRED_FIELDS_IN_CONFIG -> In f subs ->
  exists v, sub_item c g f = Ok v.
Proof.
  intros I Ig If. destruct (init_accepted_fields cfg c I) as (Ec & _).
  destruct (init_accepted_valid cfg c I) as (G & _).
  rewrite List.Forall_forall in G.
  destruct (G _ Ig) as (d & Ed & K). simpl in Ed, K.
  unfold sub_item, dict_item. rewrite Ec, Ed. cbn [rbind].
  destruct (dict_get_is_Some d f (proj2 (K f) If)) as [v ->]. eauto.
Qed.

Lemma accepted_vote_histories cfg c :
  TurnoutConfig_init cfg = Ok c ->
  exists vhist, vote_histories_of c = Ok vhist
                /\ dict_get cfg VOTE_HISTORIES = Some (PDict vhist)
                /\ Forall (fun kv => matches_vhist_format kv.2 = true) vhist.
Proof.
  intros I. destruct (init_accepted_fields cfg c I) as (Ec & _).
  destruct (init_accepted_valid cfg c I) as (_ & (vhist & Ev & A) & _).
  exists vhist. split; [|split; [exact Ev | exact A]].
  unfold vote_histories_of, dict_item. rewrite Ec, Ev. reflexivity.
Qed.

(** X6.  On an accepted configuration the accessors of the groups do not
    fail: the four column names, the two formats, the bucket and the key
    pattern of the voter file, and the election dict are all there. *)
Theorem accepted_config_accessors cfg c :
  TurnoutConfig_init cfg = Ok c ->
  Forall (fun f => exists v, sub_item c "column_names" f = Ok v)
         ["dob_field"; "id_field"; "party_field"; "reg_date_field"]
  /\ (exists f, formats_reg_date c = Ok f) /\ (exists f, formats_dob c = Ok f)
  /\ (exists b, voter_file_bucket c = Ok b) /\ (exists k, voter_file_key c = Ok k)
  /\ (exists vhist, vote_histories_of c = Ok vhist
                    /\ dict_get cfg VOTE_HISTORIES = Some (PDict vhist)).
Proof.
  intros I. pose proof (accepted_sub_item cfg c) as S.
  split; [|split; [|split; [|split; [|split]]]].
  - rewrite List.Forall_forall. intros f If.
    eapply S; [exact I| |exact If]. simpl. auto.
  - unfold formats_reg_date.
    destruct (S "formats" ["reg_date"; "dob"] "reg_date") as [v ->]; simpl; eauto.
  - unfold formats_dob.
    destruct (S "formats" ["reg_date"; "dob"] "dob") as [v ->]; simpl; eauto.
  - apply (S "voter_file" ["bucket"; "key_pattern"]); simpl; auto.
  - apply (S "voter_file" ["bucket"; "key_pattern"]); simpl; auto.
  - destruct (accepted_vote_histories cfg c I) as (vhist & V & Ev & _). eauto.
Qed.

End config_object.

(* ===================================================================== *)
(** * Further properties of preprocessing *)
(* ===================================================================== *)

Section loops_more.
Import turnout_config.
Context {A B : Type}.

Lemma forM__Ok_iff (f : A -> result unit) (l : list A) :
  forM_ f l = Ok tt <-> Forall (fun x => f x = Ok tt) l.
Proof.
  induction l as [|x l IH]; simpl.
  - split; [constructor | reflexivity].
  - rewrite List.Forall_cons_iff, <- IH.
    destruct (f x) as [[]|]; simpl; split; try tauto; try discriminate;
      try (intros [E _]; discriminate).
Qed.

Lemma mapM_exists (f : A -> result B) (l : list A) :
  Forall (fun x => exists y, f x = Ok y) l -> exists l', mapM f l = Ok l'.
Proof.
  induction 1 as [|x l [y E] _ [l' IH]]; simpl; [eauto|].
  rewrite E, IH. simpl. eauto.
Qed.

(** a loop whose body raises only [ValueError]s raises one when the body
    fails on some element *)
Lemma mapM_raises_ValueError (f : A -> result B) (l : list A) :
  (forall x e, f x = Raise e -> spec.is_value_error e = true) ->
  Exists (fun x => exists e, f x = Raise e) l ->
  exists msg, mapM f l = Raise (ValueError msg).
Proof.
  intros V. induction 1 as [x l [e E] | x l _ IH]; simpl.
  - rewrite E. simpl. specialize (V _ _ E). destruct e; try discriminate. eauto.
  - destruct (f x) as [y|e] eqn:E; simpl.
    + destruct IH as [msg ->]. simpl. eauto.
    + specialize (V _ _ E). destruct e; try discriminate. eauto.
Qed.

End loops_more.

Lemma NoDup_length_remove_dups {A} `{EqDecision A} (l : list A) :
  NoDup l -> List.length (remove_dups l) = List.length l.
Proof.
  induction 1 as [|x l Nx _ IH]; simpl; [reflexivity|].
  case_decide; [contradiction|]. simpl. now rewrite IH.
Qed.

Lemma resolve_Ok {V} (df : DataFrame V) (name : string) :
  In name (columns df) -> List.NoDup (columns df) -> resolve df name = Ok tt.
Proof.
  intros I N. unfold resolve.
  rewrite (proj1 (List.NoDup_count_occ' string_dec (columns df)) N name I).
  reflexivity.
Qed.

Lemma select_Ok {V} (df vdf : DataFrame V) (cols : list string) :
  select df cols = Ok vdf ->
  columns vdf = cols
  /\ rows vdf = map (fun r => filter (fun kv => kv.1 ∈ cols) r) (rows df).
Proof.
  unfold select. intros E. bind_inv E u Eu. injection E as <-. auto.
Qed.

Section preprocessing_more.
Import turnout_config turnout_scorer spec.

(** X7.  When [validate_against_voter_file] accepts the loaded table and
    the table has no two columns of the same name, the columns to keep are
    all columns of the table and the projection on them succeeds, with the
    same number of rows. *)
Theorem validate_then_select (c : TurnoutConfig) (df : DataFrame (option string)) :
  validate_against_voter_file c (columns df) = Ok tt ->
  List.NoDup (columns df) ->
  exists keep vdf,
    columns_to_keep c = Ok keep
    /\ Forall (fun k => In k (columns df)) keep
    /\ select df keep = Ok vdf
    /\ columns vdf = keep
    /\ List.length (rows vdf) = List.length (rows df).
Proof.
  intros E ND. unfold validate_against_voter_file in E.
  bind_inv E vhist Ev. bind_inv E u E1. destruct u.
  apply forM__Ok_iff in E1, E.
  assert (K : Forall (fun k => In k (columns df)) (dict_keys vhist)).
  { eapply Forall_impl; [exact E1|]. intros k. simpl.
    case_decide as D; [intros _; now apply list_elem_of_In | discriminate]. }
  assert (F : Forall (fun f => exists name, column_name c f = Ok name
                                            /\ In name (columns df))
                     ["dob_field"; "id_field"; "party_field"; "reg_date_field"]).
  { eapply Forall_impl; [exact E|]. intros f. simpl.
    destruct (column_name c f) as [name|]; simpl; [|discriminate].
    case_decide as D; [|discriminate]. intros _. exists name.
    split; [reflexivity | now apply list_elem_of_In]. }
  destruct (mapM_exists (column_name c) _
              (Forall_impl _ _ _ F (fun f '(ex_intro _ n (conj En _)) =>
                                      ex_intro _ n En))) as [names M].
  assert (Fn : Forall (fun k => In k (columns df)) names).
  { apply mapM_Ok in M. clear -M F. revert F.
    induction M as [|f n fs ns En _ IH]; intros F; [constructor|].
    inversion F as [|? ? (n' & En' & In') F']; subst.
    constructor; [congruence | auto]. }
  assert (All : Forall (fun k => In k (columns df)) (names ++ dict_keys vhist)%list)
    by (apply List.Forall_app; auto).
  exists (names ++ dict_keys vhist)%list.
  assert (S : turnout_config.forM_ (resolve df) (names ++ dict_keys vhist)%list = Ok tt).
  { apply forM__Ok_iff. eapply Forall_impl; [exact All|].
    intros k Ik. now apply resolve_Ok. }
  eexists. unfold columns_to_keep. rewrite M. cbn [rbind]. rewrite Ev. cbn [rbind].
  split; [reflexivity|]. split; [exact All|].
  unfold select. rewrite S. cbn [rbind]. split; [reflexivity|].
  simpl. split; [reflexivity | apply length_map].
Qed.

(** the projection keeps the named columns of every row as they are and
    drops every other column *)
Lemma select_rows {V} (df vdf : DataFrame V) (cols : list string) :
  select df cols = Ok vdf ->
  columns vdf = cols
  /\ Forall2 (fun r r' => (forall k, In k cols -> r' !! k = r !! k)
                          /\ (forall k, ~ In k cols -> r' !! k = None))
             (rows df) (rows vdf).
Proof.
  intros E. apply select_Ok in E as [Ec Er]. split; [exact Ec|].
  rewrite Er. clear. induction (rows df) as [|r rs IH]; simpl; constructor; [|exact IH].
  split; intros k Ik.
  - destruct (r !! k) as [x|] eqn:L.
    + apply map_lookup_filter_Some. split; [exact L|]. simpl.
      now apply list_elem_of_In.
    + apply map_lookup_filter_None. now left.
  - apply map_lookup_filter_None. right. intros x _ I. simpl in I.
    apply Ik. now apply list_elem_of_In.
Qed.

(** X9.  After the selection step of [_preprocess_vf]: with the party
    filter on, the table consists of the projected rows whose party cell is
    one of the configured values, in their order (a null party is dropped);
    with the filter off it is the projected table. *)
Theorem preprocess_party_filter c df vdf pti pf c2 :
  _preprocess_vf_select c df = Ok (vdf, pti, pf, c2) ->
  exists keep proj,
    columns_to_keep c = Ok keep /\ select df keep = Ok proj
    /\ (forall c1, parties_included c = Ok (None, c1) -> vdf = proj)
    /\ (forall v c1, parties_included c = Ok (Some v, c1) ->
          exists f, pf = Some f
            /\ rows vdf = List.filter
                            (fun r => match text_get r f with
                                      | Some s => py_in (Some s) (isin_values v)
                                      | None => false
                                      end) (rows proj)
            /\ Forall (fun r => exists s, text_get r f = Some s
                                          /\ py_in (Some s) (isin_values v) = true)
                      (rows vdf)).
Proof.
  intros E. pose proof (preprocess_select_locals _ _ _ _ _ _ E) as [Off On].
  unfold _preprocess_vf_select in E.
  bind_inv E u Ev. bind_inv E keep Ek. bind_inv E proj Es.
  exists keep, proj. split; [exact Ek|]. split; [exact Es|].
  bind_inv E x Ep. destruct x as [[v|] c1].
  - split; [intros c1' P; rewrite Ep in P; discriminate|].
    intros v' c1' P. rewrite Ep in P. injection P as <- <-.
    bind_inv E y Ep2. destruct y as [p' c2'].
    bind_inv E f Ef. bind_inv E vdf' Efl. injection E as <- <- <- <-.
    destruct (On _ _ Ep) as [-> _].
    unfold filter_isin in Efl. bind_inv Efl u' Er. injection Efl as <-.
    exists f. split; [reflexivity|]. simpl. split; [reflexivity|].
    rewrite List.Forall_forall. intros r Ir.
    apply List.filter_In in Ir as [_ Hr].
    destruct (text_get r f) as [s|]; [eauto | discriminate].
  - injection E as <- <- <- <-. split; [reflexivity|].
    intros v c1' P. rewrite Ep in P. discriminate.
Qed.

(** what [get_year_ob] returns *)
Lemma get_year_ob_spec `{PyRuntime} fmt (date_input : option string) y :
  get_year_ob fmt date_input = Ok y ->
  (is_null_marker date_input = true /\ y = str_of_Z (year today - 18))
  \/ (exists s d, date_input = Some s /\ s <> "null"
                  /\ strptime s fmt = Some d /\ y = str_of_Z (year d)).
Proof.
  unfold get_year_ob. destruct (is_null_marker date_input) eqn:N; simpl.
  - intros [= <-]. auto.
  - destruct date_input as [s|]; [|discriminate]. simpl in *.
    destruct (strptime s fmt) as [d|] eqn:P; [|discriminate].
    intros [= <-]. right. exists s, d. repeat split; auto.
    intros ->. discriminate.
Qed.

(** X10.  When preprocessing returns, every row of the table after the
    selection step is there, in order, and the schema has the column
    [year_of_birth].  [_preprocess_vf] does not run the udf that fills it;
    where the udf has a value the cell holds it: the current year minus 18
    when the date of birth is null or ['null'], the year read with the
    configured format when the date of birth parses.  Outside
    [year_of_birth] a row is unchanged. *)
Theorem preprocess_year_of_birth `{PyRuntime} c df vdf pti pf c2 out c' :
  _preprocess_vf_select c df = Ok (vdf, pti, pf, c2) ->
  _preprocess_vf c df = Ok (out, c') ->
  c' = c2
  /\ In YEAR_OF_BIRTH_FIELD (columns out)
  /\ exists fmt fld,
      formats_dob c2 = Ok fmt /\ column_name c2 "dob_field" = Ok fld
      /\ Forall2 (fun r r' =>
                    (forall k, k <> YEAR_OF_BIRTH_FIELD -> r' !! k = r !! k)
                    /\ (is_null_marker (text_get r fld) = true ->
                        r' !! YEAR_OF_BIRTH_FIELD
                        = Some (Some (str_of_Z (year today - 18))))
                    /\ (forall s d, text_get r fld = Some s -> s <> "null" ->
                                    strptime s fmt = Some d ->
                                    r' !! YEAR_OF_BIRTH_FIELD
                                    = Some (Some (str_of_Z (year d)))))
                 (rows vdf) (rows out).
Proof.
  intros S E. unfold _preprocess_vf in E. rewrite S in E. cbn [rbind] in E.
  unfold _preprocess_vf_checks in E.
  destruct (count vdf =? 0)%nat.
  { bind_inv E a Ea. bind_inv E b Eb. bind_inv E d Ed. discriminate. }
  destruct (negb _); [discriminate|].
  bind_inv E fmt Ef. bind_inv E fld El. bind_inv E u Er.
  injection E as <- <-. split; [reflexivity|]. cbn [withColumn_lazy columns rows].
  split.
  - case_decide as D; [now apply list_elem_of_In|].
    apply List.in_or_app. right. now left.
  - exists fmt, fld. split; [exact Ef|]. split; [exact El|].
    induction (rows vdf) as [|r rs IH]; cbn [map]; constructor; [|exact IH].
    split; [|split].
    + intros k Nk.
      destruct (get_year_ob fmt (text_get r fld)); cbn [rbind];
        [apply lookup_insert_ne | apply lookup_delete_ne]; congruence.
    + intros N. unfold get_year_ob. rewrite N. cbn [negb rbind].
      apply lookup_insert_eq.
    + intros s d Es Ns Ps. unfold get_year_ob. rewrite Es. cbn [is_null_marker str_cell].
      destruct (String.eqb_spec s "null") as [->|_]; [now destruct Ns|].
      cbn [negb]. rewrite Ps. cbn [rbind]. apply lookup_insert_eq.
Qed.

(** X11.  A date of birth that does not parse does not stop preprocessing:
    the udf of [year_of_birth] is not run when the column is added.  When
    the table after the selection step has rows, none twice, and the
    date-of-birth column resolves, [_preprocess_vf] returns, whatever the
    dates of birth, with one row per row of that table. *)
Theorem preprocess_bad_dob_deferred `{PyRuntime} c df vdf pti pf c2 fmt fld :
  _preprocess_vf_select c df = Ok (vdf, pti, pf, c2) ->
  rows vdf <> [] -> NoDup (rows vdf) ->
  formats_dob c2 = Ok fmt -> column_name c2 "dob_field" = Ok fld ->
  resolve vdf fld = Ok tt ->
  exists out, _preprocess_vf c df = Ok (out, c2)
              /\ List.length (rows out) = List.length (rows vdf).
Proof.
  intros S NE ND Ef El Er. unfold _preprocess_vf. rewrite S. cbn [rbind].
  unfold _preprocess_vf_checks, count, distinct. cbn [rows].
  destruct (rows vdf) as [|r0 rs] eqn:R; [now destruct NE|]. rewrite <- R in *.
  replace (List.length (rows vdf) =? 0)%nat with false by (rewrite R; reflexivity).
  rewrite (NoDup_length_remove_dups _ ND), Nat.eqb_refl. cbn [negb].
  rewrite Ef, El. cbn [rbind]. rewrite Er. cbn [rbind].
  eexists. split; [reflexivity|]. cbn [withColumn_lazy rows]. apply List.length_map.
Qed.

End preprocessing_more.

(* ===================================================================== *)
(** * Further properties of the election order and of the cleaner *)
(* ===================================================================== *)

Section order_and_cleaner.
Import turnout_config turnout_scorer spec.
Context `{PyRuntime}.

(** X13.  On an accepted configuration whose election dates are strings
    the sort of the elections does not fail, and it lists every election
    once for each time the configuration does. *)
Theorem accepted_config_sorts cfg c vhist :
  TurnoutConfig_init cfg = Ok c ->
  vote_histories_of c = Ok vhist ->
  Forall (fun kv => exists s, kv.2 = PStr s) vhist ->
  exists svh, _sort_vote_histories vhist = Ok svh
              /\ Permutation svh (dict_keys vhist).
Proof.
  intros I V Str.
  destruct (accepted_vote_histories _ _ I) as (vh' & V' & _ & Acc).
  assert (vh' = vhist) as -> by congruence.
  assert (M : exists dct, mapM (fun kv => let* d := strptime_val kv.2 VHIST_DATE_FORMAT in
                                          Ok (kv.1, d)) vhist = Ok dct).
  { apply mapM_exists. clear -Str Acc. induction Str as [|kv l [s Es] _ IH];
      [constructor|]. inversion Acc as [|? ? Am Al]; subst.
    constructor; [|auto]. unfold matches_vhist_format in Am. rewrite Es in *. simpl in *.
    destruct (strptime s VHIST_DATE_FORMAT); [|discriminate]. simpl. eauto. }
  destruct M as [dct M]. unfold _sort_vote_histories. rewrite M. cbn [rbind].
  eexists. split; [reflexivity|].
  rewrite sorted_Permutation.
  apply mapM_Ok in M. clear -M. induction M as [|[k v] [k' d] l l' E _ IH]; simpl;
    [reflexivity|].
  simpl in E. destruct (strptime_val v VHIST_DATE_FORMAT); simpl in E; [|discriminate].
  injection E as <- <-. now constructor.
Qed.

(** X14.  Eligibility only grows with the election date: when a voter gets
    a 0/1 label for an election, the same voter gets a 0/1 label, 1 exactly
    for a voted value, for every election held on the same day or later. *)
Theorem eligibility_monotone fmt values vote1 vote2 eff reg edate1 edate2 d1 d2 b :
  strptime edate1 VHIST_DATE_FORMAT = Some d1 ->
  strptime edate2 VHIST_DATE_FORMAT = Some d2 ->
  dt_le d1 d2 ->
  clean_voting_record fmt (PList values) vote1 eff reg edate1 = Ok (Some b) ->
  clean_voting_record fmt (PList values) vote2 eff reg edate2
  = Ok (Some (if py_in vote2 values then 1 else 0)).
Proof.
  intros P1 P2 L E.
  destruct (strptime (stated_reg_date reg) fmt) as [r|] eqn:Pr.
  2:{ rewrite (clean_voting_record_unparsed _ _ _ _ _ _ _ P1 (or_introl Pr)) in E.
      discriminate. }
  destruct (strptime (str_cell eff) fmt) as [e|] eqn:Pe.
  2:{ rewrite (clean_voting_record_unparsed _ _ _ _ _ _ _ P1 (or_intror Pe)) in E.
      discriminate. }
  rewrite (clean_voting_record_parsed _ _ _ _ _ _ _ _ _ P1 Pr Pe) in E.
  rewrite (clean_voting_record_parsed _ _ _ _ _ _ _ _ _ P2 Pr Pe).
  destruct (dt_leb (dt_min r e) d1) eqn:L1; [|discriminate].
  assert (L2 : dt_le (dt_min r e) d2) by (eapply dt_le_trans; [exact L1 | exact L]).
  unfold dt_le in L2. now rewrite L2.
Qed.

(** the effective registration date of a voter with a recorded vote: the
    date of an election, not later than any election with a recorded vote *)
Lemma effective_date_earliest vhist svh fmt (cellof : string -> option string) e' d' :
  _sort_vote_histories vhist = Ok svh ->
  In e' svh -> recorded (cellof e') = true -> election_date vhist e' = Some d' ->
  exists e d, In e svh /\ election_date vhist e = Some d /\ dt_le d d'
              /\ effective_regis_date svh vhist fmt (map cellof svh) = strftime d fmt.
Proof.
  intros S I' R' D'. destruct (sort_vote_histories_Ok _ _ S) as (dct & P & ->).
  pose proof (parsed_histories_keys _ _ P) as Keys.
  set (svh := sorted (dict_get dct) key_leb (dict_keys dct)) in *.
  assert (Dates : forall e, In e svh -> exists d, election_date vhist e = Some d).
  { intros e I. rewrite <- (parsed_histories_get _ _ e P).
    apply dict_get_is_Some. rewrite Keys.
    refine (Permutation_in _ _ I). unfold svh. rewrite sorted_Permutation.
    now rewrite Keys. }
  assert (Sorted : StronglySorted
            (fun a b => exists da db, election_date vhist a = Some da
                          /\ election_date vhist b = Some db /\ dt_le da db) svh).
  { eapply StronglySorted_impl_In;
      [|exact (sorted_StronglySorted (dict_get dct) key_leb
                 key_leb_total key_leb_trans (dict_keys dct))].
    intros a b Ia Ib. cbv beta zeta. rewrite !(parsed_histories_get _ _ _ P).
    destruct (Dates a Ia) as [da ->], (Dates b Ib) as [db ->].
    simpl. intros L. exists da, db. auto. }
  pose proof (first_election_date_find svh vhist cellof [] svh eq_refl) as F.
  simpl in F.
  destruct (List.find (fun e => recorded (cellof e)) svh) as [e|] eqn:Fe.
  2:{ pose proof (List.find_none _ _ Fe e' I') as N. simpl in N. congruence. }
  destruct (Dates e (proj1 (List.find_some _ _ Fe))) as [d Ed].
  exists e, d. split; [exact (proj1 (List.find_some _ _ Fe))|].
  split; [exact Ed|]. split.
  - destruct (find_first_sorted _ _ _ _ Sorted Fe e' I' R')
      as [->|(da & db & Ea & Eb & L)].
    + assert (d' = d) as -> by congruence. apply dt_le_refl.
    + congruence.
  - unfold effective_regis_date. rewrite F.
    apply (election_date_item _ _ _ fmt Ed).
Qed.

(** X15.  No recorded vote is cleaned to null: for a voter with a recorded
    vote-code in an election, when the stated registration date parses (or
    is null and today's ISO date parses) and the effective registration date
    reads back from its text as the date it was printed from, the cleaned
    label of that election is 1 for a voted value and 0 otherwise. *)
Theorem recorded_vote_is_labelled vhist svh fmt values
    (cellof : string -> option string) reg e edate effstr r :
  _sort_vote_histories vhist = Ok svh ->
  In e svh -> recorded (cellof e) = true ->
  dict_get vhist e = Some (PStr edate) ->
  effective_regis_date svh vhist fmt (map cellof svh) = Ok effstr ->
  (forall e0 d0, In e0 svh -> election_date vhist e0 = Some d0 ->
                 strftime d0 fmt = Ok effstr -> strptime effstr fmt = Some d0) ->
  strptime (stated_reg_date reg) fmt = Some r ->
  clean_voting_record fmt (PList values) (cellof e) (Some effstr) reg edate
  = Ok (Some (if py_in (cellof e) values then 1 else 0)).
Proof.
  intros S I R Eg Eff Round Pr.
  assert (D : exists d, election_date vhist e = Some d
                        /\ strptime edate VHIST_DATE_FORMAT = Some d).
  { destruct (sort_vote_histories_Ok _ _ S) as (dct & P & ->).
    assert (Ik : In e (dict_keys dct)).
    { refine (Permutation_in _ _ I). apply sorted_Permutation. }
    destruct (dict_get_is_Some dct e Ik) as [d Ed].
    rewrite (parsed_histories_get _ _ e P) in Ed. exists d. split; [exact Ed|].
    unfold election_date in Ed. now rewrite Eg in Ed. }
  destruct D as (d & Ed & Pd).
  destruct (effective_date_earliest _ _ fmt cellof _ _ S I R Ed)
    as (e0 & d0 & I0 & E0 & L0 & Eq).
  rewrite Eff in Eq. symmetry in Eq.
  pose proof (Round _ _ I0 E0 Eq) as Pe.
  rewrite (clean_voting_record_parsed fmt values (cellof e) (Some effstr) reg edate
             d r d0 Pd Pr Pe).
  assert (L : dt_le (dt_min r d0) d) by (apply dt_min_le_iff; now right).
  unfold dt_le in L. now rewrite L.
Qed.

End order_and_cleaner.

(* ===================================================================== *)
(** * Further properties of the weights and of the raw score *)
(* ===================================================================== *)

Lemma Forall2_Forall_r {A B} (R : A -> B -> Prop) (P : A -> Prop) (Q : B -> Prop)
    (l : list A) (l' : list B) :
  (forall x y, R x y -> P x -> Q y) -> Forall2 R l l' -> Forall P l -> Forall Q l'.
Proof.
  intros HQ F. induction F as [|x y l l' Rxy _ IH]; intros HP; [constructor|].
  inversion HP; subst. constructor; eauto.
Qed.

Section weights_more.
Import turnout_config turnout_scorer spec.

Lemma add_weighted_columns_factors t elections :
  forall df df', add_weighted_columns t df elections = Ok df' ->
    forall e, In e elections -> exists f, norm_fac t e = Ok (Some f).
Proof.
  induction elections as [|e rest IH]; simpl; intros df df' E e0 I0; [destruct I0|].
  bind_inv E df1 C. destruct (add_weighted_column_rows _ _ _ _ C) as (f & Nf & _).
  destruct I0 as [<-|I0]; eauto.
Qed.

Lemma count_eligible_pos (col : list cell) :
  omap number_of col <> [] -> (0 < count_eligible col)%nat.
Proof.
  unfold count_eligible. induction col as [|c col IH];
    [intros N; destruct N; reflexivity|].
  rewrite omap_cons_eq. cbn [List.filter].
  destruct c as [|s|n|q]; simpl; intros N; try lia. exact (IH N).
Qed.

Lemma column_values_all_null t name :
  count_eligible (column t name) = 0%nat -> column_values t name = Ok [].
Proof.
  unfold count_eligible, column_values, column.
  induction (rows t) as [|r rs IH]; [reflexivity|].
  cbn [map List.filter mapM]. destruct (cell_get r name) eqn:C; simpl; try discriminate.
  intros E. specialize (IH E).
  destruct (mapM _ rs) as [vs|]; simpl in *; [|discriminate]. exact IH.
Qed.

(** X16.  [_add_weighted_vote] succeeds only when every election has a
    voter whose cleaned value is not null. *)
Theorem weighted_vote_needs_eligible `{PyRuntime} (s s' : TurnoutScorer cell) svh :
  _add_weighted_vote s = Ok s' ->
  _sort_vote_histories (vote_histories s) = Ok svh ->
  forall vote, In vote svh ->
    (0 < count_eligible (column (voters_df s) (vote +:+ "_cleaned")))%nat.
Proof.
  intros W S vote I. unfold _add_weighted_vote in W. rewrite S in W. cbn [rbind] in W.
  bind_inv W df L.
  destruct (add_weighted_columns_factors _ _ _ _ L (vote +:+ "_cleaned")) as [f Nf].
  { apply List.in_map_iff. eauto. }
  unfold norm_fac in Nf. bind_inv Nf u R. bind_inv Nf vals V.
  apply column_values_spec in V as [-> _].
  apply count_eligible_pos. intros E. rewrite E in Nf. discriminate.
Qed.

(** X17.  When the cleaned column of the earliest election holds only
    nulls, the rate of the election is null and [_add_weighted_vote] fails
    with the [TypeError] of [1. - None]; no column is added. *)
Theorem weighted_vote_no_eligible `{PyRuntime} (s : TurnoutScorer cell) vote rest :
  _sort_vote_histories (vote_histories s) = Ok (vote :: rest) ->
  resolve (voters_df s) (vote +:+ "_cleaned") = Ok tt ->
  count_eligible (column (voters_df s) (vote +:+ "_cleaned")) = 0%nat ->
  _add_weighted_vote s
  = Raise (TypeError "unsupported operand type(s) for -: 'float' and 'NoneType'").
Proof.
  intros S R HZ. unfold _add_weighted_vote. rewrite S.
  cbn [rbind map add_weighted_columns].
  unfold add_weighted_column, norm_fac. rewrite R. cbn [rbind].
  rewrite (column_values_all_null _ _ HZ). reflexivity.
Qed.

(** the weighted columns of the pipeline, election by election *)
Lemma pipeline_weighted_votes `{PyRuntime} (s0 : TurnoutScorer (option string))
    (s s' : TurnoutScorer cell) (svh : list string) vote :
  _clean_voting_record s0 = Ok s ->
  _add_weighted_vote s = Ok s' ->
  _sort_vote_histories (vote_histories s) = Ok svh ->
  List.NoDup (map (fun vote => weighted_col_name (vote +:+ "_cleaned")) svh) ->
  In vote svh ->
  Forall ternary (column (voters_df s) (vote +:+ "_cleaned"))
  /\ exists rate,
      (rate == turnout_rate (column (voters_df s) (vote +:+ "_cleaned")))%Q
      /\ Forall2 (fun r r' => r' !! weighted_col_name (vote +:+ "_cleaned")
                              = Some (weighted_vote rate (cell_get r (vote +:+ "_cleaned"))))
                 (rows (voters_df s)) (rows (voters_df s')).
Proof.
  intros Cl W S ND I. set (cleaned := vote +:+ "_cleaned").
  destruct (clean_voting_record_table _ _ Cl) as [_ Lab].
  unfold _add_weighted_vote in W. rewrite S in W. simpl in W.
  destruct (add_weighted_columns _ _ _) as [df|] eqn:L; simpl in W; [|discriminate].
  injection W as <-. simpl.
  apply add_weighted_columns_rows in L.
  - assert (Ic : In cleaned (map (fun vote => vote +:+ "_cleaned") svh))
      by (apply List.in_map_iff; eauto).
    destruct L as [Facs L].
    destruct (Facs _ Ic) as [f Nf].
    destruct (norm_fac_turnout_rate _ _ _ Nf (column_label_or_text _ _ Lab))
      as (T & Rate & _).
    split; [exact T|]. exists f. split; [exact Rate|].
    assert (Tr : Forall (fun r => ternary (cell_get r cleaned)) (rows (voters_df s))).
    { unfold column in T. now rewrite List.Forall_map in T. }
    clear -L Ic Nf Tr. revert Tr.
    induction L as [|r r' rs rs' [_ New] _ IH]; intros Tr; constructor.
    + destruct (New _ _ Ic Nf) as (c & T0 & L0).
      rewrite L0. f_equal. apply times_weighted_vote; [|exact T0].
      now inversion Tr.
    + apply IH. now inversion Tr.
  - intros e1 e2 _ I2. apply List.in_map_iff in I2 as (v2 & <- & _).
    apply weighted_name_not_cleaned.
  - now rewrite List.map_map.
Qed.

Lemma count_voted_pos (col : list cell) : In (CInt 1) col -> (0 < count_voted col)%nat.
Proof.
  unfold count_voted. induction col as [|c col IH]; [intros []|].
  cbn [List.filter]. intros [->|I].
  - rewrite bool_decide_true by reflexivity. simpl. lia.
  - destruct (bool_decide _); simpl; [lia | auto].
Qed.

Lemma count_voted_le_eligible (col : list cell) :
  (count_voted col <= count_eligible col)%nat.
Proof.
  unfold count_voted, count_eligible. induction col as [|c col IH]; [reflexivity|].
  cbn [List.filter].
  destruct (bool_decide_reflect (c = CInt 1)) as [->|N]; simpl; [lia|].
  destruct (negb _); simpl; lia.
Qed.

Lemma turnout_rate_unanimous (col : list cell) :
  In (CInt 1) col -> count_voted col = count_eligible col -> (turnout_rate col == 1)%Q.
Proof.
  intros I E. unfold turnout_rate. rewrite <- E.
  pose proof (count_voted_pos _ I) as P.
  unfold Qdiv. apply Qmult_inv_r. intros HZ.
  unfold Qeq in HZ. simpl in HZ. lia.
Qed.

(** X18.  An election in which every eligible voter voted, or none did,
    adds nothing to any score: each of its weighted votes is null or 0. *)
Theorem unanimous_election_weighs_nothing `{PyRuntime} (s0 : TurnoutScorer (option string))
    (s s' : TurnoutScorer cell) (svh : list string) vote :
  _clean_voting_record s0 = Ok s ->
  _add_weighted_vote s = Ok s' ->
  _sort_vote_histories (vote_histories s) = Ok svh ->
  List.NoDup (map (fun vote => weighted_col_name (vote +:+ "_cleaned")) svh) ->
  In vote svh ->
  count_voted (column (voters_df s) (vote +:+ "_cleaned"))
  = count_eligible (column (voters_df s) (vote +:+ "_cleaned"))
  \/ count_voted (column (voters_df s) (vote +:+ "_cleaned")) = 0%nat ->
  Forall (fun r' => r' !! weighted_col_name (vote +:+ "_cleaned") = Some CNull
                    \/ exists q, r' !! weighted_col_name (vote +:+ "_cleaned")
                                 = Some (CNum q) /\ (q == 0)%Q)
         (rows (voters_df s')).
Proof.
  intros Cl W S ND I U.
  destruct (pipeline_weighted_votes _ _ _ _ _ Cl W S ND I) as (T & rate & Hr & F).
  set (cleaned := vote +:+ "_cleaned") in *.
  assert (One : In (CInt 1) (column (voters_df s) cleaned) -> (rate == 1)%Q).
  { intros I1. destruct U as [U|U].
    - rewrite Hr. now apply turnout_rate_unanimous.
    - pose proof (count_voted_pos _ I1). lia. }
  assert (Tr : Forall (fun r => ternary (cell_get r cleaned)
                                /\ (cell_get r cleaned = CInt 1 -> (rate == 1)%Q))
                      (rows (voters_df s))).
  { rewrite List.Forall_forall. intros r Ir.
    assert (Ic : In (cell_get r cleaned) (column (voters_df s) cleaned))
      by (unfold column; apply List.in_map_iff; eauto).
    split.
    - rewrite List.Forall_forall in T. auto.
    - intros E. apply One. now rewrite <- E. }
  refine (Forall2_Forall_r _ _ _ _ _ _ F Tr).
  intros r r' L [[E | [E | E]] R1]; rewrite E in L; simpl in L.
  - now left.
  - right. eexists. split; [exact L|]. change (inject_Z 0) with 0%Q. lra.
  - right. eexists. split; [exact L|]. rewrite (R1 E). change (inject_Z 1) with 1%Q. lra.
Qed.

Lemma label_or_text_unit (c : cell) : label_or_text c -> unit_cell c.
Proof. destruct c as [|s|n|q]; simpl; [auto | auto | lia | tauto]. Qed.

Lemma cell_get_unit (r : gmap string cell) name :
  map_Forall (fun _ => unit_cell) r -> unit_cell (cell_get r name).
Proof.
  intros A. unfold cell_get. destruct (r !! name) as [c|] eqn:L; simpl; [|exact I].
  exact (A _ _ L).
Qed.

Lemma number_of_unit (c : cell) (q : Q) :
  unit_cell c -> number_of c = Some q -> (0 <= q <= 1)%Q.
Proof.
  destruct c as [|s|n|x]; simpl; intros N E; try discriminate; injection E as <-.
  - split; [change 0%Q with (inject_Z 0) | change 1%Q with (inject_Z 1)];
      rewrite <- Zle_Qle; lia.
  - exact N.
Qed.

Lemma times_unit (c w : cell) (f : Q) :
  unit_cell c -> (0 <= f <= 1)%Q -> times c (1 - f) = Ok w -> unit_cell w.
Proof.
  intros N F E. unfold times in E. bind_inv E v Ev.
  apply num_of_cell_Ok in Ev as [-> _]. injection E as <-.
  destruct (number_of c) as [q|] eqn:Q; simpl; [|exact I].
  pose proof (number_of_unit _ _ N Q). split.
  - apply Qmult_le_0_compat; lra.
  - apply Qle_trans with (1 * (1 - f))%Q; [apply Qmult_le_compat_r; lra | lra].
Qed.

Lemma add_weighted_columns_unit t elections :
  Forall (map_Forall (fun _ => label_or_text)) (rows t) ->
  forall df df',
    add_weighted_columns t df elections = Ok df' ->
    Forall (map_Forall (fun _ => unit_cell)) (rows df) ->
    Forall (map_Forall (fun _ => unit_cell)) (rows df').
Proof.
  intros Lab. induction elections as [|e rest IH]; simpl; intros df df' E A.
  - now injection E as <-.
  - bind_inv E df1 C. apply (IH _ _ E).
    destruct (add_weighted_column_rows _ _ _ _ C) as (f & Nf & Step).
    destruct (norm_fac_turnout_rate _ _ _ Nf (column_label_or_text _ _ Lab))
      as (_ & _ & F).
    clear -Step A F. induction Step as [|r r' rs rs' (c & T & ->) _ IHs];
      [constructor|].
    inversion A as [|? ? Ar Ars]; subst. constructor; [|auto].
    apply map_Forall_insert_2; [|exact Ar].
    exact (times_unit _ _ _ (cell_get_unit _ _ Ar) F T).
Qed.

Lemma get_weighted_sum_unit (r : gmap string cell) (fields : list string) (w : Q) :
  map_Forall (fun _ => unit_cell) r ->
  get_weighted_sum (array_of cell_get fields r) = Ok w ->
  (0 <= w <= inject_Z (Z.of_nat (List.length fields)))%Q.
Proof.
  intros A E. rewrite (get_weighted_sum_spec _ _ E). unfold array_of. clear E.
  induction fields as [|k fields IH]; [split; exact (Qle_refl 0)|].
  cbn [map]. rewrite omap_cons_eq. cbn [List.length].
  rewrite Nat2Z.inj_succ, <- Z.add_1_l, inject_Z_plus. change (inject_Z 1) with 1%Q.
  destruct (number_of (cell_get r k)) as [q|] eqn:Q; [|lra].
  pose proof (number_of_unit _ _ (cell_get_unit _ _ A) Q). rewrite Qsum_cons. lra.
Qed.

(** X19.  The raw score of every voter is a number between 0 and the
    number of elections: every weighted vote lies between 0 and 1, and
    storing the sum in single precision does not take it past the number of
    elections, an integer that single precision represents (up to [2^24]
    elections). *)
Theorem weighted_turnout_bounds `{PyRuntime} (s0 : TurnoutScorer (option string))
    (s1 s2 : TurnoutScorer cell) (svh : list string) :
  _clean_voting_record s0 = Ok s1 ->
  _add_weighted_turnout s1 = Ok s2 ->
  _sort_vote_histories (vote_histories s1) = Ok svh ->
  Z.of_nat (List.length svh) <= 2 ^ 24 ->
  Forall (fun r => exists w, r !! WEIGHTED_TURNOUT_FIELD = Some (CNum w)
                             /\ (0 <= w <= inject_Z (Z.of_nat (List.length svh)))%Q)
         (rows (voters_df s2)).
Proof.
  intros Cl E S Small. destruct (clean_voting_record_table _ _ Cl) as [_ Lab].
  unfold _add_weighted_turnout in E.
  bind_inv E s W. bind_inv E svh1 Hsort. bind_inv E u Hres. bind_inv E df C.
  injection E as <-. cbn [voters_df].
  unfold _add_weighted_vote in W. bind_inv W svh' Hsort'. bind_inv W df1 L.
  injection W as <-. cbn [voters_df vote_histories] in *.
  assert (svh1 = svh) as -> by congruence.
  assert (A : Forall (map_Forall (fun _ => unit_cell)) (rows df1)).
  { apply (add_weighted_columns_unit _ _ Lab _ _ L).
    eapply Forall_impl; [exact Lab|]. intros r Ar k c Lk.
    apply label_or_text_unit. exact (Ar _ _ Lk). }
  unfold withColumn in C. bind_inv C rows' M. injection C as <-. cbn [rows].
  apply mapM_Ok in M. clear -M A Small.
  induction M as [|r r' rs rs' E _ IH]; [constructor|].
  inversion A as [|? ? Ar Ars]; subst. constructor; [|auto].
  bind_inv E c Ec. injection E as <-. bind_inv Ec w Ew. injection Ec as <-.
  exists (float32 w). split; [apply lookup_insert_eq|].
  pose proof (get_weighted_sum_unit _ _ _ Ar Ew) as [B0 B1].
  rewrite List.length_map in B1.
  split; [now apply float32_nonneg | now apply float32_le_int].
Qed.

End weights_more.

(* ===================================================================== *)
(** * Further properties of the normalization *)
(* ===================================================================== *)

Section normalization_more.
Import turnout_config turnout_scorer spec.

Lemma In_omap {A B} (f : A -> option B) (l : list A) (y : B) :
  In y (omap f l) -> exists x, In x l /\ f x = Some y.
Proof.
  induction l as [|a l IH]; [intros []|].
  rewrite omap_cons_eq. destruct (f a) as [b|] eqn:E.
  - intros [<-|I]; [exists a; split; [now left | exact E]|].
    destruct (IH I) as (x & Ix & Ex). exists x. split; [now right | exact Ex].
  - intros I. destruct (IH I) as (x & Ix & Ex). exists x. split; [now right | exact Ex].
Qed.

Lemma cohort_scores_same_cohort (t : DataFrame cell) (r1 r2 : gmap string cell) :
  cell_get r1 EFF_REG_DATE_FIELD = cell_get r2 EFF_REG_DATE_FIELD ->
  cohort_scores t r1 = cohort_scores t r2.
Proof. unfold cohort_scores. now intros ->. Qed.

(** the normalized turnout of a row of the result whose raw score is a
    number *)
Lemma normalized_turnout_of_number (s s' : TurnoutScorer cell) (r' : gmap string cell) w :
  _normalize_turnout s = Ok s' ->
  In r' (rows (voters_df s')) ->
  number_of (cell_get r' WEIGHTED_TURNOUT_FIELD) = Some w ->
  exists m, cohort_max (voters_df s') r' m
            /\ r' !! NORMALIZED_TURNOUT_FIELD = Some (cell_of_num (sql_div w m)).
Proof.
  intros N I W. pose proof (normalize_turnout_rows _ _ N) as F.
  destruct (Forall2_In_r _ _ _ _ F I) as (r & Ir & Nr).
  destruct (normalized_from_lookup _ _ _ Nr) as (Ew & Ee & w0 & Nw & L).
  assert (Sc : cohort_scores (voters_df s') r' = cohort_scores (voters_df s) r).
  { apply cohort_scores_rows; [|exact Ee].
    eapply Forall2_impl; [exact F|]. intros a a' Na.
    destruct (normalized_from_lookup _ _ _ Na) as (? & ? & _). auto. }
  rewrite Ew in W. apply num_of_cell_Ok in Nw as [-> _]. rewrite W in L.
  assert (Iw : In w (cohort_scores (voters_df s) r))
    by (apply own_score_in_cohort; assumption).
  destruct (Qmax_list (cohort_scores (voters_df s) r)) as [m|] eqn:Q.
  - exists m. unfold cohort_max. rewrite Sc.
    split; [now apply Qmax_list_is_max | exact L].
  - destruct (cohort_scores (voters_df s) r); [destruct Iw | discriminate Q].
Qed.

Lemma sql_div_nonzero (w m : Q) : ~ (m == 0)%Q -> sql_div w m = Some (w / m)%Q.
Proof.
  intros NZ. unfold sql_div. destruct (Qeq_bool m 0) eqn:B; [|reflexivity].
  apply Qeq_bool_iff in B. contradiction.
Qed.

(** X20.  In every cohort whose highest raw score is not 0, some voter gets
    the normalized turnout 1: a voter who holds that highest score. *)
Theorem cohort_top_scores_one (s s' : TurnoutScorer cell) (r' : gmap string cell) (m : Q) :
  _normalize_turnout s = Ok s' ->
  In r' (rows (voters_df s')) ->
  cohort_max (voters_df s') r' m ->
  ~ (m == 0)%Q ->
  exists top q, In top (rows (voters_df s'))
                /\ cell_get top EFF_REG_DATE_FIELD = cell_get r' EFF_REG_DATE_FIELD
                /\ number_of (cell_get top WEIGHTED_TURNOUT_FIELD) = Some m
                /\ top !! NORMALIZED_TURNOUT_FIELD = Some (CNum q) /\ (q == 1)%Q.
Proof.
  intros N I M NZ. pose proof M as [Im _]. unfold cohort_scores, partition_of in Im.
  apply In_omap in Im as (top & It & Wt).
  apply List.filter_In in It as [It Ec]. apply bool_decide_eq_true in Ec.
  destruct (normalized_turnout_of_number _ _ _ _ N It Wt) as (m' & M' & L).
  assert (Em : (m == m')%Q).
  { apply (is_max_unique (cohort_scores (voters_df s') r')); [exact M|].
    unfold cohort_max in M'.
    now rewrite (cohort_scores_same_cohort _ _ _ Ec) in M'. }
  assert (NZ' : ~ (m' == 0)%Q) by (now rewrite <- Em).
  rewrite (sql_div_nonzero _ _ NZ') in L.
  exists top, (m / m')%Q. repeat split; try assumption.
  rewrite Em. unfold Qdiv. now apply Qmult_inv_r.
Qed.

(** X21.  Within a cohort whose highest raw score is positive the
    normalization keeps the order of the raw scores. *)
Theorem normalized_turnout_monotone (s s' : TurnoutScorer cell)
    (r1 r2 : gmap string cell) (w1 w2 m : Q) :
  _normalize_turnout s = Ok s' ->
  In r1 (rows (voters_df s')) -> In r2 (rows (voters_df s')) ->
  cell_get r1 EFF_REG_DATE_FIELD = cell_get r2 EFF_REG_DATE_FIELD ->
  number_of (cell_get r1 WEIGHTED_TURNOUT_FIELD) = Some w1 ->
  number_of (cell_get r2 WEIGHTED_TURNOUT_FIELD) = Some w2 ->
  cohort_max (voters_df s') r1 m -> (0 < m)%Q ->
  (w1 <= w2)%Q ->
  exists q1 q2, r1 !! NORMALIZED_TURNOUT_FIELD = Some (CNum q1)
                /\ r2 !! NORMALIZED_TURNOUT_FIELD = Some (CNum q2)
                /\ (q1 <= q2)%Q.
Proof.
  intros N I1 I2 Ec W1 W2 M Pos Le.
  destruct (normalized_turnout_of_number _ _ _ _ N I1 W1) as (m1 & M1 & L1).
  destruct (normalized_turnout_of_number _ _ _ _ N I2 W2) as (m2 & M2 & L2).
  unfold cohort_max in *. rewrite <- (cohort_scores_same_cohort _ _ _ Ec) in M2.
  pose proof (is_max_unique _ _ _ M1 M) as E1.
  pose proof (is_max_unique _ _ _ M2 M) as E2.
  assert (NZ1 : ~ (m1 == 0)%Q) by (rewrite E1; lra).
  assert (NZ2 : ~ (m2 == 0)%Q) by (rewrite E2; lra).
  rewrite (sql_div_nonzero _ _ NZ1) in L1. rewrite (sql_div_nonzero _ _ NZ2) in L2.
  exists (w1 / m1)%Q, (w2 / m2)%Q. split; [exact L1|]. split; [exact L2|].
  rewrite E1, E2. unfold Qdiv. apply Qmult_le_compat_r; [exact Le|].
  apply Qinv_le_0_compat. lra.
Qed.

End normalization_more.

(* ===================================================================== *)
(** * The stages of the pipeline row by row *)
(* ===================================================================== *)

Section stages.
Import turnout_config turnout_scorer spec.
Context `{PyRuntime}.

Lemma cleaned_name_inj (a b : string) : a +:+ "_cleaned" = b +:+ "_cleaned" -> a = b.
Proof.
  intros E. apply (f_equal list_ascii_of_string) in E.
  rewrite !list_ascii_of_string_app in E. apply List.app_inv_tail in E.
  rewrite <- (string_of_list_ascii_of_string a), <- (string_of_list_ascii_of_string b).
  now rewrite E.
Qed.

Lemma add_effective_reg_date_rows (s s' : TurnoutScorer (option string)) :
  _add_effective_reg_date s = Ok s' ->
  exists svh fmt,
    _sort_vote_histories (vote_histories s) = Ok svh
    /\ formats_reg_date (config s) = Ok fmt
    /\ Forall2 (fun r r' => exists d,
                   effective_regis_date svh (vote_histories s) fmt
                     (array_of text_get svh r) = Ok d
                   /\ r' = <[EFF_REG_DATE_FIELD := Some d]> r)
               (rows (voters_df s)) (rows (voters_df s')).
Proof.
  unfold _add_effective_reg_date. intros E.
  bind_inv E svh Es. bind_inv E u Er. bind_inv E fmt Ef. bind_inv E df W.
  injection E as <-. exists svh, fmt. split; [exact Es|]. split; [exact Ef|]. simpl.
  unfold withColumn in W. bind_inv W rows' M. injection W as <-. simpl.
  apply mapM_Ok in M. eapply Forall2_impl; [exact M|]. intros r r' E. simpl in E.
  bind_inv E v Ev. bind_inv Ev d Ed. injection Ev as <-. injection E as <-. eauto.
Qed.

Lemma cleaned_fields_lookup fmt vv rf elections r :
  forall acc acc',
    cleaned_fields fmt vv rf elections r acc = Ok acc' ->
    (forall k, ~ In k (map (fun e => e +:+ "_cleaned") (dict_keys elections)) ->
               acc' !! k = acc !! k)
    /\ (List.NoDup (dict_keys elections) ->
        forall e date, In (e, date) elections ->
          exists v, clean_voting_record fmt vv (text_get r e)
                      (text_get r EFF_REG_DATE_FIELD) (text_get r rf) (py_str date) = Ok v
                    /\ acc' !! (e +:+ "_cleaned") = Some (cell_of_int v)).
Proof.
  induction elections as [|[e0 d0] rest IH]; intros acc acc' E.
  - injection E as <-. split; [auto | intros _ e date []].
  - cbn [cleaned_fields] in E. bind_inv E v Ev. destruct (IH _ _ E) as [Keep New].
    cbn [dict_keys map fst]. split.
    + intros k Nk. rewrite Keep by (intros Ik; apply Nk; now right).
      apply lookup_insert_ne. intros <-. apply Nk. now left.
    + intros ND e date [Eq|I].
      * injection Eq as <- <-. exists v. split; [exact Ev|].
        rewrite Keep; [apply lookup_insert_eq|].
        inversion ND as [|? ? Nin _]; subst. intros Ik. apply Nin.
        apply List.in_map_iff in Ik as (e' & Ee & Ie'). apply cleaned_name_inj in Ee.
        now subst.
      * inversion ND as [|? ? _ ND']; subst. exact (New ND' e date I).
Qed.

Lemma clean_voting_record_rows (s0 : TurnoutScorer (option string)) (s : TurnoutScorer cell) :
  _clean_voting_record s0 = Ok s ->
  exists s1 fmt rf,
    _add_effective_reg_date s0 = Ok s1
    /\ formats_reg_date (config s0) = Ok fmt
    /\ column_name (config s0) "reg_date_field" = Ok rf
    /\ Forall2 (fun r r' => cleaned_fields fmt (voted_values (config s0)) rf
                              (vote_histories s0) r (inject_text <$> r) = Ok r')
               (rows (voters_df s1)) (rows (voters_df s)).
Proof.
  unfold _clean_voting_record. intros E. bind_inv E s1 A.
  destruct (add_effective_reg_date_fields _ _ A) as [Vh Cf].
  bind_inv E fmt Ef. bind_inv E rf Er. bind_inv E u Eu. bind_inv E rows' M.
  injection E as <-. simpl. apply mapM_Ok in M.
  rewrite Cf in Ef, Er. rewrite Vh, Cf in M.
  exists s1, fmt, rf. auto.
Qed.

Lemma add_weighted_columns_keep t elections :
  forall df df',
    add_weighted_columns t df elections = Ok df' ->
    Forall2 (fun r r' => forall k, ~ In k (map weighted_col_name elections) ->
                                   r' !! k = r !! k)
            (rows df) (rows df').
Proof.
  induction elections as [|e rest IH]; simpl; intros df df' E.
  - injection E as <-. apply Forall2_diagonal. auto.
  - bind_inv E df1 C. destruct (add_weighted_column_rows _ _ _ _ C) as (f & _ & Step).
    eapply Forall2_compose; [|exact Step|exact (IH _ _ E)].
    intros r r1 r' (c & _ & ->) Keep k Nk. rewrite Keep by tauto.
    apply lookup_insert_ne. intros <-. apply Nk. now left.
Qed.

Lemma add_weighted_turnout_rows (s1 s2 : TurnoutScorer cell) :
  _add_weighted_turnout s1 = Ok s2 ->
  exists svh,
    _sort_vote_histories (vote_histories s1) = Ok svh
    /\ Forall2 (fun r r' =>
                 forall k, k <> WEIGHTED_TURNOUT_FIELD ->
                           ~ In k (map (fun v => weighted_col_name (v +:+ "_cleaned")) svh) ->
                           r' !! k = r !! k)
               (rows (voters_df s1)) (rows (voters_df s2)).
Proof.
  intros E. unfold _add_weighted_turnout in E.
  bind_inv E s W. bind_inv E svh Hsort. bind_inv E u Hres. bind_inv E df C.
  injection E as <-. simpl.
  unfold _add_weighted_vote in W. bind_inv W svh' Hsort'. bind_inv W df1 L.
  injection W as <-. simpl in *.
  assert (svh' = svh) as -> by congruence.
  exists svh. split; [exact Hsort|].
  apply add_weighted_columns_keep in L. rewrite List.map_map in L.
  unfold withColumn in C. bind_inv C rows' M. injection C as <-. simpl.
  apply mapM_Ok in M.
  eapply Forall2_compose; [|exact L|exact M].
  intros r r1 r' Keep E k K1 K2. simpl in E.
  bind_inv E c Ec. injection E as <-.
  rewrite lookup_insert_ne by congruence. auto.
Qed.

Lemma sort_vote_histories_Permutation vhist svh :
  _sort_vote_histories vhist = Ok svh -> Permutation svh (dict_keys vhist).
Proof.
  intros S. destruct (sort_vote_histories_Ok _ _ S) as (dct & P & ->).
  rewrite sorted_Permutation. now rewrite (parsed_histories_keys _ _ P).
Qed.

(** X22.  The pipeline keeps the voters and every value of a column that
    it does not write itself: the rows of the result are, in some order
    (the window of the normalization regroups them), one per row of the
    scorer's table, and outside the written columns (the effective
    registration date, the cleaned and the weighted columns, the two scores
    and [max_to]) a row holds what the voter file held. *)
Theorem pipeline_keeps_voter_file_columns (s0 : TurnoutScorer (option string))
    (s' : TurnoutScorer cell) :
  compute_normalized_turnout s0 = Ok s' ->
  exists out,
    Permutation out (rows (voters_df s'))
    /\ Forall2 (fun r r' =>
                 forall k, ~ In k (written_columns (dict_keys (vote_histories s0))) ->
                           r' !! k = inject_text <$> (r !! k))
               (rows (voters_df s0)) out.
Proof.
  intros E. exists (rows (voters_df s')). split; [reflexivity|]. unfold compute_normalized_turnout in E. bind_inv E s1 Cl. bind_inv E s2 W.
  destruct (clean_voting_record_table _ _ Cl) as [Vh _].
  destruct (clean_voting_record_rows _ _ Cl) as (sa & fmt & rf & A & _ & _ & Fc).
  destruct (add_effective_reg_date_rows _ _ A) as (svh0 & fmt0 & _ & _ & Fa).
  destruct (add_weighted_turnout_rows _ _ W) as (svh & Hs & Fw).
  pose proof (normalize_turnout_rows _ _ E) as Fn.
  rewrite Vh in Hs. apply sort_vote_histories_Permutation in Hs.
  assert (F1 : Forall2 (fun r rc =>
                 forall k, k <> EFF_REG_DATE_FIELD ->
                   ~ In k (map (fun e => e +:+ "_cleaned") (dict_keys (vote_histories s0))) ->
                   rc !! k = inject_text <$> (r !! k))
               (rows (voters_df s0)) (rows (voters_df s1))).
  { eapply Forall2_compose; [|exact Fa|exact Fc].
    intros r r1 rc (d & _ & ->) C k K1 K2.
    rewrite (proj1 (cleaned_fields_lookup _ _ _ _ _ _ _ C) k K2).
    rewrite lookup_fmap, lookup_insert_ne by congruence. reflexivity. }
  assert (F2 : Forall2 (fun rc r' =>
                 forall k, k <> WEIGHTED_TURNOUT_FIELD -> k <> "max_to" ->
                   k <> NORMALIZED_TURNOUT_FIELD ->
                   ~ In k (map (fun v => weighted_col_name (v +:+ "_cleaned")) svh) ->
                   r' !! k = rc !! k)
               (rows (voters_df s1)) (rows (voters_df s'))).
  { eapply Forall2_compose; [|exact Fw|exact Fn].
    intros rc r2 r' Keep (w & _ & ->) k K1 K2 K3 K4.
    rewrite lookup_delete_ne, !lookup_insert_ne by congruence. auto. }
  eapply Forall2_compose; [|exact F1|exact F2].
  intros r rc r' G1 G2 k Nk. unfold written_columns in Nk. cbn [In] in Nk.
  rewrite G2, G1; try reflexivity; try (intros ->; apply Nk; auto 8).
  - intros Ik. apply Nk. do 4 right. apply List.in_or_app. now left.
  - intros Ik. apply Nk. do 4 right. apply List.in_or_app. right.
    apply List.in_map_iff in Ik as (v & <- & Iv). apply List.in_map_iff.
    exists v. split; [reflexivity|]. exact (Permutation_in _ Hs Iv).
Qed.

(** X23.  [_clean_voting_record] gives every election of the configuration
    a column [<election>_cleaned]: on every row it holds what the cleaner
    returns on the raw code of the election, the effective and the stated
    registration date of the row, and the configured date of the election
    (null for [None]). *)
Theorem clean_voting_record_columns (s0 : TurnoutScorer (option string))
    (s : TurnoutScorer cell) :
  _clean_voting_record s0 = Ok s ->
  List.NoDup (dict_keys (vote_histories s0)) ->
  exists s1 fmt rf,
    _add_effective_reg_date s0 = Ok s1
    /\ formats_reg_date (config s0) = Ok fmt
    /\ column_name (config s0) "reg_date_field" = Ok rf
    /\ Forall2 (fun r r' =>
                 forall e date, In (e, date) (vote_histories s0) ->
                   exists v, clean_voting_record fmt (voted_values (config s0))
                               (text_get r e) (text_get r EFF_REG_DATE_FIELD)
                               (text_get r rf) (py_str date) = Ok v
                             /\ r' !! (e +:+ "_cleaned") = Some (cell_of_int v))
               (rows (voters_df s1)) (rows (voters_df s)).
Proof.
  intros Cl ND.
  destruct (clean_voting_record_rows _ _ Cl) as (s1 & fmt & rf & A & Ef & Er & Fc).
  exists s1, fmt, rf. repeat split; try assumption.
  eapply Forall2_impl; [exact Fc|]. intros r r' C.
  exact (proj2 (cleaned_fields_lookup _ _ _ _ _ _ _ C) ND).
Qed.

End stages.

(* ===================================================================== *)
(** * The name of a weighted column *)
(* ===================================================================== *)

Lemma string_length_app (a b : string) :
  String.length (a +:+ b) = (String.length a + String.length b)%nat.
Proof.
  induction a as [|c a IH]; [reflexivity|]. rewrite append_String. simpl. now rewrite IH.
Qed.

Lemma prefix_app (p s x : string) :
  String.prefix p s = true -> String.prefix p (s +:+ x) = true.
Proof.
  revert p; induction s as [|b s IH]; intros [|a p].
  - destruct x; reflexivity.
  - discriminate.
  - rewrite append_String. reflexivity.
  - rewrite append_String. cbn [String.prefix].
    destruct (ascii_dec a b); [apply IH | discriminate].
Qed.

Lemma split_head_short (v x : string) :
  turnout_scorer.is_substring "_cleaned" v = true ->
  (String.length (split_head "_cleaned" (v +:+ x)) < String.length v)%nat.
Proof.
  induction v as [|c v IH]; intros S; [discriminate S|].
  cbn [turnout_scorer.is_substring] in S.
  destruct (String.prefix "_cleaned" (String c v)) eqn:P.
  - pose proof (prefix_app _ _ x P) as P'. rewrite append_String in P' |- *.
    cbn [split_head]. rewrite P'. simpl. lia.
  - specialize (IH S). rewrite append_String. cbn [split_head].
    destruct (String.prefix "_cleaned" (String c (v +:+ x))); simpl; lia.
Qed.

(** X24.  The weighted column of an election is named
    [<election>_weighted] exactly when the name of the election does not
    contain [_cleaned]; otherwise the name is cut at the first [_cleaned]. *)
Theorem weighted_col_name_iff (vote : string) :
  turnout_scorer.weighted_col_name (vote +:+ "_cleaned") = vote +:+ "_weighted"
  <-> turnout_scorer.is_substring "_cleaned" vote = false.
Proof.
  split; [|apply weighted_col_name_plain].
  intros E. destruct (turnout_scorer.is_substring "_cleaned" vote) eqn:S; [|reflexivity].
  apply (f_equal String.length) in E. unfold turnout_scorer.weighted_col_name in E.
  rewrite !string_length_app in E. pose proof (split_head_short vote "_cleaned" S). lia.
Qed.

(* ===================================================================== *)
(** * The configuration against the voter file *)
(* ===================================================================== *)

Section voter_file_validation.
Import turnout_config spec.

Lemma find_ext {A} (f g : A -> bool) (l : list A) :
  (forall a, f a = g a) -> List.find f l = List.find g l.
Proof.
  intros E. induction l as [|a l IH]; simpl; [reflexivity|].
  rewrite E, IH. reflexivity.
Qed.

Lemma forM__first_failure {A} (f : A -> result unit) (l : list A) (x : A) :
  List.find (fun a => match f a with Ok _ => false | Raise _ => true end) l = Some x ->
  turnout_config.forM_ f l = f x.
Proof.
  induction l as [|a l IH]; simpl; [discriminate|].
  destruct (f a) as [[]|e] eqn:E; simpl.
  - exact IH.
  - intros [= <-]. now rewrite E.
Qed.

(** X8.  [validate_against_voter_file] passes exactly when every election
    of the configuration and the four configured column names are columns
    of the voter file.  The elections are looked at first, in the order of
    the configuration: the first one that is not a column is the one the
    [KeyError] names. *)
Theorem validate_against_voter_file_columns (c : TurnoutConfig) (cols : list string) :
  (validate_against_voter_file c cols = Ok tt
   <-> exists vhist,
         vote_histories_of c = Ok vhist
         /\ Forall (fun k => In k cols) (dict_keys vhist)
         /\ Forall (fun f => exists name, column_name c f = Ok name /\ In name cols)
                   ["dob_field"; "id_field"; "party_field"; "reg_date_field"])
  /\ forall vhist k,
       vote_histories_of c = Ok vhist ->
       List.find (fun k => negb (bool_decide (k ∈ cols))) (dict_keys vhist) = Some k ->
       validate_against_voter_file c cols = Raise (KeyError (column_missing_msg k)).
Proof.
  unfold validate_against_voter_file. split; [split|].
  - intros E. bind_inv E vhist Ev. bind_inv E u E1. destruct u.
    apply forM__Ok_iff in E1, E. exists vhist. split; [exact Ev|]. split.
    + eapply Forall_impl; [exact E1|]. intros k. simpl.
      case_decide as D; [intros _; now apply list_elem_of_In | discriminate].
    + eapply Forall_impl; [exact E|]. intros f. simpl.
      destruct (column_name c f) as [name|]; simpl; [|discriminate].
      case_decide as D; [|discriminate]. intros _. exists name.
      split; [reflexivity | now apply list_elem_of_In].
  - intros (vhist & Ev & K & F). rewrite Ev. cbn [rbind].
    assert (E1 : turnout_config.forM_
                   (fun clm_name => if decide (clm_name ∈ cols) then Ok tt
                                    else Raise (KeyError (column_missing_msg clm_name)))
                   (dict_keys vhist) = Ok tt).
    { apply forM__Ok_iff. eapply Forall_impl; [exact K|]. intros k Ik. simpl.
      case_decide as D; [reflexivity|]. destruct D. now apply list_elem_of_In. }
    rewrite E1. cbn [rbind]. apply forM__Ok_iff.
    eapply Forall_impl; [exact F|]. intros f (name & -> & I). simpl.
    case_decide as D; [reflexivity|]. destruct D. now apply list_elem_of_In.
  - intros vhist k Ev Fk. rewrite Ev. cbn [rbind].
    rewrite (forM__first_failure _ _ k).
    + case_decide as D; [|reflexivity].
      apply List.find_some in Fk as [_ Fk].
      rewrite bool_decide_true in Fk by exact D. discriminate.
    + erewrite find_ext; [exact Fk|]. intros a. simpl.
      case_decide as D.
      * rewrite bool_decide_true by exact D. reflexivity.
      * rewrite bool_decide_false by exact D. reflexivity.
Qed.

End voter_file_validation.

(* ===================================================================== *)
(** * The further properties on the concrete inputs *)
(* ===================================================================== *)

Section extra_witnesses.
Import turnout_config turnout_scorer spec.
#[local] Existing Instance Model.runtime.

Lemma TurnoutConfig_init_accepts_witness : valid_config Examples.cfg0.
Proof.
  apply (proj1 (TurnoutConfig_init_accepts Examples.cfg0)).
  exists (Examples.config_object Examples.cfg0). vm_compute. reflexivity.
Defined.

Lemma TurnoutConfig_init_missing_key_witness :
  exists msg, TurnoutConfig_init Examples.cfg_missing = Raise (KeyError msg).
Proof.
  apply (TurnoutConfig_init_missing_key Examples.cfg_missing "voter_file").
  - left. reflexivity.
  - reflexivity.
Defined.

Lemma TurnoutConfig_init_not_list_witness :
  TurnoutConfig_init Examples.cfg_voted_str
  = Raise (TypeError (not_list_msg VOTED_VALUES)).
Proof.
  refine (proj1 (TurnoutConfig_init_not_list Examples.cfg_voted_str
                   [("g18", PStr "11-06-2018")] _ _ _) (PStr "Y") _ _).
  - vm_compute. reflexivity.
  - reflexivity.
  - vm_compute. reflexivity.
  - reflexivity.
  - exact I.
Defined.


Lemma parties_included_cached_witness :
  exists v c1,
    parties_included (Examples.config_object (Examples.cfg_party [PStr "R"])) = Ok (v, c1)
    /\ parties_included c1 = Ok (v, c1).
Proof.
  destruct (parties_included (Examples.config_object (Examples.cfg_party [PStr "R"])))
    as [[v c1]|] eqn:E.
  - exists v, c1. split; [reflexivity|].
    exact (proj1 (parties_included_cached _ _ _ E)).
  - vm_compute in E. discriminate E.
Defined.

Lemma TurnoutScorer_init_s3_creds_witness :
  TurnoutScorer_init Examples.cfg_no_creds Examples.df0 6
  = Raise (KeyError "you need s3_creds in the config").
Proof.
  refine (proj1 (TurnoutScorer_init_s3_creds Examples.cfg_no_creds
                   (Examples.config_object Examples.cfg_no_creds) Examples.df0 6 _) _).
  - vm_compute. reflexivity.
  - reflexivity.
Defined.

Lemma accepted_config_accessors_witness :
  (exists f, formats_reg_date (Examples.config_object Examples.cfg0) = Ok f)
  /\ (exists f, formats_dob (Examples.config_object Examples.cfg0) = Ok f).
Proof.
  destruct (accepted_config_accessors Examples.cfg0
              (Examples.config_object Examples.cfg0)) as (_ & R & D & _).
  - vm_compute. reflexivity.
  - split; assumption.
Defined.

Lemma file_columns_NoDup : List.NoDup Examples.file_columns.
Proof. repeat constructor; simpl; intuition congruence. Qed.

Lemma validate_then_select_witness :
  exists keep vdf,
    columns_to_keep (Examples.config_object Examples.cfg0) = Ok keep
    /\ Forall (fun k => In k (columns Examples.df0)) keep
    /\ select Examples.df0 keep = Ok vdf
    /\ columns vdf = keep
    /\ List.length (rows vdf) = List.length (rows Examples.df0).
Proof.
  apply (validate_then_select (Examples.config_object Examples.cfg0) Examples.df0).
  - vm_compute. reflexivity.
  - exact file_columns_NoDup.
Defined.

Lemma preprocess_party_filter_witness :
  exists vdf pti pf c2,
    _preprocess_vf_select (Examples.config_object (Examples.cfg_party [PStr "R"]))
      Examples.df0 = Ok (vdf, pti, pf, c2)
    /\ Forall (fun r => exists s, text_get r "party" = Some s
                                  /\ py_in (Some s) [PStr "R"] = true) (rows vdf).
Proof.
  destruct (_preprocess_vf_select (Examples.config_object (Examples.cfg_party [PStr "R"]))
              Examples.df0) as [[[[vdf pti] pf] c2]|] eqn:S.
  - exists vdf, pti, pf, c2. split; [reflexivity|].
    destruct (preprocess_party_filter _ _ _ _ _ _ S) as (keep & proj & _ & _ & _ & On).
    edestruct (On (PList [PStr "R"])) as (f & Ef & _ & F); [reflexivity|].
    vm_compute in S. injection S as _ _ <- _. injection Ef as <-. exact F.
  - vm_compute in S. discriminate S.
Defined.

Lemma preprocess_year_of_birth_witness :
  exists out c', _preprocess_vf (Examples.config_object Examples.cfg0) Examples.df0
                 = Ok (out, c')
                 /\ In YEAR_OF_BIRTH_FIELD (columns out).
Proof.
  destruct (_preprocess_vf_select (Examples.config_object Examples.cfg0) Examples.df0)
    as [[[[vdf pti] pf] c2]|] eqn:S; [|vm_compute in S; discriminate S].
  destruct (_preprocess_vf (Examples.config_object Examples.cfg0) Examples.df0)
    as [[out c']|] eqn:E; [|vm_compute in E; discriminate E].
  exists out, c'. split; [reflexivity|].
  exact (proj1 (proj2 (preprocess_year_of_birth _ _ _ _ _ _ _ _ S E))).
Defined.


Lemma preprocess_bad_dob_deferred_witness :
  exists out c',
    _preprocess_vf (Examples.config_object Examples.cfg0) Examples.df_bad_dob
    = Ok (out, c')
    /\ List.length (rows out) = 1%nat.
Proof.
  destruct (_preprocess_vf_select (Examples.config_object Examples.cfg0)
              Examples.df_bad_dob) as [[[[vdf pti] pf] c2]|] eqn:S;
    [|vm_compute in S; discriminate S].
  pose proof S as S'. vm_compute in S'. injection S' as <- <- <- <-.
  destruct (preprocess_bad_dob_deferred _ _ _ _ _ _ "%Y-%m-%d" "dob" S)
    as (out & E & L).
  - discriminate.
  - apply NoDup_singleton.
  - reflexivity.
  - reflexivity.
  - reflexivity.
  - exists out. eexists. split; [exact E | exact L].
Defined.

Lemma accepted_config_sorts_witness :
  exists svh, _sort_vote_histories
                [("g18", PStr "11-06-2018"); ("g16", PStr "11-08-2016");
                 ("g20", PStr "11-03-2020")] = Ok svh
              /\ Permutation svh ["g18"; "g16"; "g20"].
Proof.
  apply (accepted_config_sorts Examples.cfg0 (Examples.config_object Examples.cfg0)).
  - vm_compute. reflexivity.
  - reflexivity.
  - repeat constructor; eexists; reflexivity.
Defined.

Lemma eligibility_monotone_witness :
  clean_voting_record "%Y-%m-%d" (PList [PStr "Y"]) (Some "N") (Some "2018-01-01")
    (Some "2019-06-01") "11-03-2020"
  = Ok (Some (if py_in (Some "N") [PStr "Y"] then 1 else 0)).
Proof.
  apply (eligibility_monotone "%Y-%m-%d" [PStr "Y"] (Some "Y") (Some "N")
           (Some "2018-01-01") (Some "2019-06-01") "11-06-2018" "11-03-2020"
           (mkdatetime 2018 11 6 0 0 0 0) (mkdatetime 2020 11 3 0 0 0 0) 1).
  - vm_compute. reflexivity.
  - vm_compute. reflexivity.
  - vm_compute. reflexivity.
  - vm_compute. reflexivity.
Defined.

Lemma recorded_vote_is_labelled_witness :
  clean_voting_record "%Y-%m-%d" (PList [PStr "Y"]) (Examples.cells_example "E2")
    (Some "2018-01-01") (Some "2019-06-01") "01-01-2018"
  = Ok (Some (if py_in (Examples.cells_example "E2") [PStr "Y"] then 1 else 0)).
Proof.
  apply (recorded_vote_is_labelled Examples.vhist_example ["E1"; "E2"; "E3"]
           "%Y-%m-%d" [PStr "Y"] Examples.cells_example (Some "2019-06-01") "E2"
           "01-01-2018" "2018-01-01" (mkdatetime 2019 6 1 0 0 0 0)).
  - vm_compute. reflexivity.
  - right. left. reflexivity.
  - reflexivity.
  - reflexivity.
  - vm_compute. reflexivity.
  - intros e0 d0 [<-|[<-|[<-|[]]]] Ed Es; vm_compute in Ed; injection Ed as <-;
      vm_compute in Es; try discriminate Es; vm_compute; reflexivity.
  - vm_compute. reflexivity.
Defined.


Lemma sorted6 :
  _sort_vote_histories (vote_histories Examples.cleaned6) = Ok ["g16"; "g18"; "g20"].
Proof. vm_compute. reflexivity. Qed.

Lemma weighted_names_NoDup :
  List.NoDup (map (fun vote => weighted_col_name (vote +:+ "_cleaned"))
                  ["g16"; "g18"; "g20"]).
Proof. vm_compute. repeat constructor; simpl; intuition congruence. Qed.

Lemma weighted_vote_needs_eligible_witness :
  (0 < count_eligible (column (voters_df Examples.cleaned6) ("g16" +:+ "_cleaned")))%nat.
Proof.
  apply (weighted_vote_needs_eligible Examples.cleaned6 Examples.weighted6
           ["g16"; "g18"; "g20"]).
  - vm_compute. reflexivity.
  - exact sorted6.
  - left. reflexivity.
Defined.

Lemma weighted_vote_no_eligible_witness :
  _add_weighted_vote Examples.cleaned_late
  = Raise (TypeError "unsupported operand type(s) for -: 'float' and 'NoneType'").
Proof.
  apply (weighted_vote_no_eligible Examples.cleaned_late "g16" ["g18"; "g20"]).
  - vm_compute. reflexivity.
  - vm_compute. reflexivity.
  - vm_compute. reflexivity.
Defined.

Lemma unanimous_election_weighs_nothing_witness :
  Forall (fun r' => r' !! weighted_col_name ("g18" +:+ "_cleaned") = Some CNull
                    \/ exists q, r' !! weighted_col_name ("g18" +:+ "_cleaned")
                                 = Some (CNum q) /\ (q == 0)%Q)
         (rows (voters_df Examples.weighted_unanimous)).
Proof.
  apply (unanimous_election_weighs_nothing Examples.scorer_unanimous
           Examples.cleaned_unanimous Examples.weighted_unanimous
           ["g16"; "g18"; "g20"] "g18").
  - vm_compute. reflexivity.
  - vm_compute. reflexivity.
  - vm_compute. reflexivity.
  - exact weighted_names_NoDup.
  - right. left. reflexivity.
  - left. vm_compute. reflexivity.
Defined.

Lemma weighted_turnout_bounds_witness :
  Forall (fun r => exists w, r !! WEIGHTED_TURNOUT_FIELD = Some (CNum w)
                             /\ (0 <= w <= inject_Z (Z.of_nat 3))%Q)
         (rows (voters_df Examples.turnout6)).
Proof.
  apply (weighted_turnout_bounds Examples.scorer6 Examples.cleaned6 Examples.turnout6
           ["g16"; "g18"; "g20"]).
  - vm_compute. reflexivity.
  - vm_compute. reflexivity.
  - exact sorted6.
  - simpl. lia.
Defined.

Lemma cohort_max_normalized :
  cohort_max (voters_df Examples.normalized) Examples.voter1_normalized (12 # 10).
Proof.
  unfold cohort_max, is_max. split.
  - vm_compute. left. reflexivity.
  - vm_compute. repeat constructor; discriminate.
Qed.

Lemma cohort_top_scores_one_witness :
  exists top q, In top (rows (voters_df Examples.normalized))
                /\ cell_get top EFF_REG_DATE_FIELD
                   = cell_get Examples.voter1_normalized EFF_REG_DATE_FIELD
                /\ number_of (cell_get top WEIGHTED_TURNOUT_FIELD) = Some (12 # 10)
                /\ top !! NORMALIZED_TURNOUT_FIELD = Some (CNum q) /\ (q == 1)%Q.
Proof.
  apply (cohort_top_scores_one Examples.scored Examples.normalized
           Examples.voter1_normalized (12 # 10)).
  - vm_compute. reflexivity.
  - left. reflexivity.
  - exact cohort_max_normalized.
  - intros E. vm_compute in E. discriminate E.
Defined.

Lemma normalized_turnout_monotone_witness :
  exists q1 q2, Examples.voter2_normalized !! NORMALIZED_TURNOUT_FIELD = Some (CNum q1)
                /\ Examples.voter1_normalized !! NORMALIZED_TURNOUT_FIELD = Some (CNum q2)
                /\ (q1 <= q2)%Q.
Proof.
  apply (normalized_turnout_monotone Examples.scored Examples.normalized
           Examples.voter2_normalized Examples.voter1_normalized
           (6 # 10) (12 # 10) (12 # 10)).
  - vm_compute. reflexivity.
  - right. left. reflexivity.
  - left. reflexivity.
  - vm_compute. reflexivity.
  - vm_compute. reflexivity.
  - vm_compute. reflexivity.
  - unfold cohort_max, is_max. split.
    + vm_compute. left. reflexivity.
    + vm_compute. repeat constructor; discriminate.
  - vm_compute. reflexivity.
  - vm_compute. discriminate.
Defined.

Lemma pipeline_keeps_voter_file_columns_witness :
  exists out,
    Permutation out (rows (voters_df Examples.final6))
    /\ Forall2 (fun r r' =>
                 forall k, ~ In k (written_columns
                                     (dict_keys (vote_histories Examples.scorer6))) ->
                           r' !! k = inject_text <$> (r !! k))
               (rows (voters_df Examples.scorer6)) out.
Proof.
  apply (pipeline_keeps_voter_file_columns Examples.scorer6 Examples.final6).
  vm_compute. reflexivity.
Defined.

Lemma clean_voting_record_columns_witness :
  exists s1 fmt rf,
    _add_effective_reg_date Examples.scorer6 = Ok s1
    /\ formats_reg_date (config Examples.scorer6) = Ok fmt
    /\ column_name (config Examples.scorer6) "reg_date_field" = Ok rf
    /\ Forall2 (fun r r' =>
                 forall e date, In (e, date) (vote_histories Examples.scorer6) ->
                   exists v, clean_voting_record fmt (voted_values (config Examples.scorer6))
                               (text_get r e) (text_get r EFF_REG_DATE_FIELD)
                               (text_get r rf) (py_str date) = Ok v
                             /\ r' !! (e +:+ "_cleaned") = Some (cell_of_int v))
               (rows (voters_df s1)) (rows (voters_df Examples.cleaned6)).
Proof.
  apply (clean_voting_record_columns Examples.scorer6 Examples.cleaned6).
  - vm_compute. reflexivity.
  - vm_compute. repeat constructor; simpl; intuition congruence.
Defined.

Lemma weighted_col_name_iff_witness :
  weighted_col_name ("g16" +:+ "_cleaned") = "g16" +:+ "_weighted".
Proof. apply (proj2 (weighted_col_name_iff "g16")). reflexivity. Defined.

Lemma clean_voting_record_null_reg_date_witness :
  clean_voting_record "%Y-%m-%d" (PList [PStr "Y"]) (Some "Y") (Some "2018-01-01")
    None "11-06-2018"
  = Ok (Some (if py_in (Some "Y") [PStr "Y"] then 1 else 0)).
Proof.
  apply (clean_voting_record_null_reg_date "%Y-%m-%d" [PStr "Y"] (Some "Y")
           (Some "2018-01-01") None "11-06-2018" (mkdatetime 2018 11 6 0 0 0 0)
           (mkdatetime 2024 6 15 0 0 0 0) (mkdatetime 2018 1 1 0 0 0 0)).
  - reflexivity.
  - vm_compute. reflexivity.
  - vm_compute. reflexivity.
  - vm_compute. reflexivity.
  - vm_compute. reflexivity.
Defined.

Lemma clean_voting_record_null_reg_date_lost_witness :
  clean_voting_record "%d.%m.%Y" (PList [PStr "Y"]) (Some "Y") (Some "01.01.2018")
    (Some "null") "11-06-2018"
  = Ok None.
Proof.
  apply (clean_voting_record_null_reg_date_lost "%d.%m.%Y" (PList [PStr "Y"]) (Some "Y")
           (Some "01.01.2018") (Some "null") "11-06-2018"
           (mkdatetime 2018 11 6 0 0 0 0)).
  - reflexivity.
  - vm_compute. reflexivity.
  - vm_compute. reflexivity.
Defined.

Lemma validate_against_voter_file_columns_witness :
  validate_against_voter_file
    (Examples.config_object Examples.cfg0) ["id"; "dob"; "party"; "reg"; "g18"]
  = Raise (KeyError (column_missing_msg "g16")).
Proof.
  apply (proj2 (validate_against_voter_file_columns
                  (Examples.config_object Examples.cfg0)
                  ["id"; "dob"; "party"; "reg"; "g18"])
           [("g18", PStr "11-06-2018"); ("g16", PStr "11-08-2016");
            ("g20", PStr "11-03-2020")]).
  - reflexivity.
  - vm_compute. reflexivity.
Defined.

End extra_witnesses.
